(** * ICERM SciML-GW workshop notebooks: the hand-written data preparation
      and the staged optimisation script, embedded and verified.

    The repository holds two notebooks.  The surrogate notebook pads and
    peak-aligns a set of waveform amplitudes ([common_time_grid], [get_peak],
    [get_peaks], [align_peaks]) and then drives three optimisation stages
    through external packages.  The classifier notebook slices a data matrix
    into features and labels, one-hot encodes the labels and decodes them
    again with an arg-max.

    Waveform samples are IEEE doubles in the notebooks.  Every finite double
    is a rational number and comparison, absolute value and arg-max on finite
    doubles agree with the same operations on rationals, so samples are
    modelled as [Q]; NaN and the infinities are outside the model.  Python
    exceptions are modelled by the [result] type, integers that index or
    count by [nat], other integers by [Z]. *)

From Stdlib Require Import QArith Qabs Qround ZArith Lia Lqa Sorted.
From stdpp Require Import base list gmap strings.

Local Open Scope nat_scope.

(** ** Python exceptions as an error monad *)

Inductive exn : Type :=
  | ValueError
  | IndexError
  | ZeroDivisionError
  | AssertionError
  | FileNotFoundError.

Inductive result (A : Type) : Type :=
  | Ok (a : A)
  | Raise (e : exn).

Arguments Ok {A} a.
Arguments Raise {A} e.

#[global] Instance result_ret : MRet result := λ A a, Ok a.
#[global] Instance result_bind : MBind result :=
  λ A B f m, match m with Ok a => f a | Raise e => Raise e end.

(** [for x in xs: ys.append(f(x))] where [f] may raise. *)
Fixpoint for_each {A B : Type} (f : A → result B) (xs : list A) : result (list B) :=
  match xs with
  | [] => Ok []
  | x :: xs' => y ← f x; ys ← for_each f xs'; mret (y :: ys)
  end.

(** ** The numpy primitives the notebooks call *)

Module Np.

(** A two-dimensional array: its shape and its rows.  The shape is kept
    apart from the rows because an array of shape (0, n) has no row to
    read n from. *)
Record ndarray2 : Type := mk_ndarray2 {
  nrows : nat;
  ncols : nat;
  rows : list (list Q)
}.

Definition Qltb (a b : Q) : bool := negb (Qle_bool b a).

(** [np.abs(h)] *)
Definition abs (h : list Q) : list Q := Qabs <$> h.

(** [np.zeros(n)] *)
Definition zeros (n : nat) : list Q := replicate n 0%Q.

(** [np.append(h, z)] on one-dimensional arrays *)
Definition append (h z : list Q) : list Q := h ++ z.

(** [np.arange(n)] *)
Definition arange (n : nat) : list nat := seq 0 n.

(** The scan behind [np.argmax]: keep the index of the first entry that is
    strictly larger than everything before it. *)
Fixpoint argmax_from (best_i : nat) (best : Q) (i : nat) (h : list Q) : nat :=
  match h with
  | [] => best_i
  | x :: h' =>
      if Qltb best x then argmax_from i x (S i) h'
      else argmax_from best_i best (S i) h'
  end.

(** [np.argmax(h)]: index of the first maximum; an empty array raises
    ValueError ("attempt to get argmax of an empty sequence"). *)
Definition argmax (h : list Q) : result nat :=
  match h with
  | [] => Raise ValueError
  | x :: h' => Ok (argmax_from 0 x 1 h')
  end.

(** [np.vstack(hs)] on a list of one-dimensional arrays: no array, or
    arrays of different lengths, raise ValueError. *)
Definition vstack (hs : list (list Q)) : result ndarray2 :=
  match hs with
  | [] => Raise ValueError
  | h :: _ =>
      if forallb (λ r, length r =? length h) hs
      then Ok (mk_ndarray2 (length hs) (length h) hs)
      else Raise ValueError
  end.

(** [A.transpose()] *)
Definition transpose (A : ndarray2) : ndarray2 :=
  mk_ndarray2 (ncols A) (nrows A)
    ((λ j, (λ r, nth j r 0%Q) <$> rows A) <$> seq 0 (ncols A)).

(** [A[:, i]] for a non-negative [i] *)
Definition column (A : ndarray2) (i : nat) : result (list Q) :=
  if decide (i < ncols A) then Ok ((λ r, nth i r 0%Q) <$> rows A)
  else Raise IndexError.

(** [A[offset:, i]] for non-negative [offset] and [i]; the slice clips *)
Definition column_from (A : ndarray2) (offset i : nat) : result (list Q) :=
  col ← column A i; mret (drop offset col).

(** [t[k]] for a non-negative [k] on a one-dimensional array *)
Definition item {A : Type} (t : list A) (k : nat) : result A :=
  match t !! k with
  | Some x => Ok x
  | None => Raise IndexError
  end.

(** [n] consecutive pieces of [c] entries of [l]: the rows of a C-ordered
    array laid out in [l]. *)
Fixpoint chunks (c n : nat) (l : list Q) : list (list Q) :=
  match n with
  | 0 => []
  | S n' => take c l :: chunks c n' (drop c l)
  end.

(** [A.reshape(r, c)]: the entries in row-major order, cut into [r] rows of
    [c]; a different number of entries raises ValueError. *)
Definition reshape (A : ndarray2) (r c : nat) : result ndarray2 :=
  if decide (r * c = nrows A * ncols A)
  then Ok (mk_ndarray2 r c (chunks c r (concat (rows A))))
  else Raise ValueError.

End Np.

(** The shape recorded in an array agrees with its rows. *)
Definition wf_ndarray2 (A : Np.ndarray2) : Prop :=
  length (Np.rows A) = Np.nrows A ∧
  Forall (λ r, length r = Np.ncols A) (Np.rows A).

(** [p] is the index of the first maximum of [l]: nothing in [l] is larger
    than [l[p]] and everything before [p] is strictly smaller. *)
Definition is_first_argmax (l : list Q) (p : nat) : Prop :=
  ∃ v, l !! p = Some v ∧
       (∀ k x, l !! k = Some x → (x <= v)%Q) ∧
       (∀ k x, k < p → l !! k = Some x → (x < v)%Q).

(** ** The surrogate notebook: padding and peak alignment *)

Module Surrogate.

(** The module-level variables the functions read. *)
Record globals : Type := mk_globals {
  num_train_samples : nat;
  times : list Q
}.

(** First loop of [common_time_grid]. *)
Definition longest_waveform (training_data : list (list Q)) : nat :=
  fold_left
    (λ longest h, if longest <? length h then length h else longest)
    training_data 0.

Definition common_time_grid (training_data : list (list Q)) (dt : Q)
    : result (list Q * Np.ndarray2) :=
  let longest := longest_waveform training_data in
  let padded_training_data :=
    (λ h, let nZeros := longest - length h in Np.append h (Np.zeros nZeros))
      <$> training_data in
  let times := (λ k, (inject_Z (Z.of_nat k) * dt)%Q) <$> Np.arange longest in
  stacked ← Np.vstack padded_training_data;
  mret (times, Np.transpose stacked).

(** The default [dt=0.1]. *)
Definition default_dt : Q := (1 # 10)%Q.

Definition get_peak (t h : list Q) : result (nat * Q * Q) :=
  arg ← Np.argmax (Np.abs h);
  t_peak ← Np.item t arg;
  h_peak ← Np.item h arg;
  mret (arg, t_peak, h_peak).

(** The parameter [t] is never read: the body passes the global [times]. *)
Definition get_peaks (g : globals) (t : list Q) (training_set : Np.ndarray2)
    : result (list nat) :=
  for_each
    (λ i, h ← Np.column training_set i;
          '(arg, t_peak, h_peak) ← get_peak (times g) h;
          mret arg)
    (seq 0 (num_train_samples g)).

(** Python's [min] on a list of integers; the empty list raises. *)
Definition py_min (l : list nat) : result nat :=
  match l with
  | [] => Raise ValueError
  | x :: l' => Ok (foldl Nat.min x l')
  end.

Definition align_peaks (g : globals) (times : list Q) (training_set : Np.ndarray2)
    : result Np.ndarray2 :=
  time_peak_arg ← get_peaks g times training_set;
  min_arg ← py_min time_peak_arg;
  aligned_training_set ←
    for_each
      (λ i, arg_i ← Np.item time_peak_arg i;
            let offset := arg_i - min_arg in
            Np.column_from training_set offset i)
      (seq 0 (num_train_samples g));
  '(t, training_data_aligned) ← common_time_grid aligned_training_set default_dt;
  mret training_data_aligned.

(** *** The training-set iteration sizes and their assertion *)

(** The sizes of the two parts that [sklearn.model_selection.train_test_split]
    returns for [n] samples and a fractional [test_size]: the second (test)
    part has [ceil(test_size * n)] samples, the first (training) part the
    rest. *)
Definition train_test_split_sizes (n : nat) (test_size : Q) : nat * nat :=
  let n_test := Z.to_nat (Qceiling (inject_Z (Z.of_nat n) * test_size)) in
  (n - n_test, n_test).

(** [train_test_split] refuses a split whose first part would be empty. *)
Definition train_test_split_checked (n : nat) (test_size : Q) : result (nat * nat) :=
  let '(n_train, n_test) := train_test_split_sizes n test_size in
  if decide (n_train = 0) then Raise ValueError else Ok (n_train, n_test).

(** Python's [a // b] on integers: floor division ([Z.div] floors too);
    a zero divisor raises. *)
Definition floor_div (a b : Z) : result Z :=
  if decide (b = 0%Z) then Raise ZeroDivisionError else Ok (a `div` b)%Z.

(** [np.sum] of a list of integers *)
Definition np_sum (l : list Z) : Z := foldr Z.add 0%Z l.

(** [[x] * k]: a negative [k] gives the empty list. *)
Definition list_times (x : Z) (k : Z) : list Z := replicate (Z.to_nat k) x.

Definition make_append_sizes (len_q_train num_iterations : Z) : result (list Z) :=
  iteration_size ← floor_div len_q_train num_iterations;
  mret (list_times iteration_size num_iterations).

Definition num_iterations : Z := 10.

(** The cell: build [append_sizes], then [assert np.sum(append_sizes) == 240]. *)
Definition append_sizes_cell (len_q_train : Z) : result (list Z) :=
  append_sizes ← make_append_sizes len_q_train num_iterations;
  if decide (np_sum append_sizes = 240%Z) then Ok append_sizes
  else Raise AssertionError.

(** *** The three optimisation stages *)

(** The values stored in the hyperparameter dictionaries. *)
#[warnings="-register-all"]
Inductive pyval : Type :=
  | PStr (s : string)
  | PInt (z : Z)
  | PFloat (q : Q)
  | PList (l : list pyval).

(** [a | b] on dictionaries: the right operand wins on shared keys
    (stdpp's union is left-biased, so the operands are swapped). *)
Definition dict_or (a b : gmap string pyval) : gmap string pyval := b ∪ a.

(** [np.linspace(start, stop, num).tolist()] *)
Definition linspace (start stop : Q) (num : nat) : list Q :=
  let step := ((stop - start) / inject_Z (Z.of_nat (num - 1)))%Q in
  (λ k, (inject_Z (Z.of_nat k) * step + start)%Q) <$> Np.arange num.

Definition functional_options_dict : gmap string pyval :=
  list_to_map
    [("activation", PList [PStr "relu"; PStr "tanh"; PStr "sigmoid"]);
     ("weight_init", PList [PStr "glorot_uniform"]);
     ("learning_rate",
        PList [PFloat (1 # 10000); PFloat (1 # 1000); PFloat (1 # 100)]);
     ("optimiser",
        PList [PStr "Adam"; PStr "Adamax"; PStr "Nadam"; PStr "Ftrl";
               PStr "SGD"; PStr "RMSprop"]);
     ("normalisation", PList [PInt 0])].

Definition fixed_dict : gmap string pyval :=
  list_to_map
    [("nodes_per_layer", PInt 10);
     ("num_hidden_layers", PInt 4);
     ("dropout", PFloat 1);
     ("dropout_rate", PFloat (2 # 10));
     ("batch_size", PInt 16);
     ("num_epochs", PInt 100)].

Definition shape_options_dict : gmap string pyval :=
  list_to_map
    [("num_hidden_layers", PList (PInt <$> [2; 4; 6; 8; 10]%Z));
     ("nodes_per_layer", PList (PInt <$> [8; 10; 15; 20; 50]%Z));
     ("dropout", PList [PFloat 0; PFloat 1]);
     ("dropout_rate", PList (PFloat <$> linspace (1 # 10) (5 # 10) 5));
     ("batch_size", PList [PInt 8])].

(** One entry per call into the optimisation packages, in call order. *)
Inductive stage_call : Type :=
  | FunctionalStudy (options fixed : gmap string pyval) (n_trials : nat)
  | ShapeStudy (options fixed : gmap string pyval) (n_trials : nat)
  | TrainIteration (append_sizes : list Z) (best : gmap string pyval)
      (n : nat).

(** What the script changes outside its own variables: the [.npy] files
    it writes and the calls it has made. *)
Record world : Type := mk_world {
  files : gmap string (gmap string pyval);
  calls : list stage_call
}.

Definition np_save (name : string) (d : gmap string pyval) (w : world) : world :=
  mk_world (<[name := d]> (files w)) (calls w).

Definition np_load (name : string) (w : world) : result (gmap string pyval) :=
  match files w !! name with
  | Some d => Ok d
  | None => Raise FileNotFoundError
  end.

Definition record_call (c : stage_call) (w : world) : world :=
  mk_world (files w) (calls w ++ [c]).

Section Stages.
(** The external searches: the parameters of the best trial that an
    Optuna study over the given options finds, with the given
    dictionary held fixed.  The training data they also receive is the
    same in every call and is left inside them. *)
Variable functional_best_trial :
  gmap string pyval → gmap string pyval → gmap string pyval.
Variable shape_best_trial :
  gmap string pyval → gmap string pyval → gmap string pyval.

(** "Optimising Functional Hyperparameters" *)
Definition functional_stage (w : world) : world :=
  let w := record_call (FunctionalStudy functional_options_dict fixed_dict 50) w in
  let best_params := functional_best_trial functional_options_dict fixed_dict in
  np_save "best_functional_hyper.npy" best_params w.

(** "Optimising Size and Shape Parameters" *)
Definition shape_stage (w : world) : result world :=
  functional_best_params ← np_load "best_functional_hyper.npy" w;
  let fixed_dict := <["num_epochs" := PInt 100]> functional_best_params in
  let w := record_call (ShapeStudy shape_options_dict fixed_dict 100) w in
  let best_params := shape_best_trial shape_options_dict fixed_dict in
  mret (np_save "best_shape_hyper.npy" best_params w).

(** "Optimising Training Dataset": the two loads and the merge, the hold-out
    split of the training set with [test_size=0.1], the cell of
    [append_sizes] with its assertion, and the call of [train_iteration].
    The second array of the hold-out split and the contents of the pandas
    data frames built before the call are the interpolation data that rompy
    computed; like the training data of the two searches they stay outside
    the model, which takes them to have one row per sample and the nine
    columns the data frames name. *)
Definition dataset_stage (len_q_train : Z) (w : world) : result world :=
  best_functional ← np_load "best_functional_hyper.npy" w;
  best_shape ← np_load "best_shape_hyper.npy" w;
  let best := dict_or best_functional best_shape in
  '(n_holdout, n_train_0) ← train_test_split_checked (Z.to_nat len_q_train) (1 # 10);
  append_sizes ← append_sizes_cell len_q_train;
  mret (record_call (TrainIteration append_sizes best 100) w).

(** The three sections of the notebook, top to bottom. *)
Definition workflow (len_q_train : Z) (w : world) : result world :=
  let w := functional_stage w in
  w ← shape_stage w;
  dataset_stage len_q_train w.
End Stages.

(** *** Generating the training set *)

Section Generator.
(** [NRSur7dq4_22_nonspinning(q, dt)]: the times and the amplitude of the
    (2,2) mode that the external NRSur7dq4 surrogate returns. *)
Variable NRSur7dq4_22_nonspinning : Q → Q → list Q * list Q.

Definition training_set_generator (N : nat) (dt : Q) : list Q * list (list Q) :=
  let qs := linspace 1 2 N in
  let training_data := (λ q, let '(t, h) := NRSur7dq4_22_nonspinning q dt in h) <$> qs in
  (qs, training_data).

(** The cell that sets [num_train_samples], generates the waveforms, pads
    them and aligns their peaks; the assignments to [num_train_samples] and
    [times] are the globals that [align_peaks] then reads. *)
Definition aligned_training_cell (num_train_samples : nat)
    : result (list Q * list Q * Np.ndarray2) :=
  let '(q, data) := training_set_generator num_train_samples default_dt in
  '(times, data) ← common_time_grid data default_dt;
  data_aligned ← align_peaks (mk_globals num_train_samples times) times data;
  mret (q, times, data_aligned).
End Generator.

(** *** Splitting into training, validation and test sets *)

(** The sizes the splitting cell prints: training, validation, test.  The
    second call names its first part [q_test] and its second part
    [q_validation]. *)
Definition split_cell_sizes (n : nat) : result (nat * nat * nat) :=
  '(n_train, n_validation) ← train_test_split_checked n (4 # 10);
  '(n_test, n_validation) ← train_test_split_checked n_validation (5 # 10);
  mret (n_train, n_validation, n_test).

(** [eim_data.reshape(eim_data.shape[1], eim_data.shape[0])] *)
Definition reshape_eim_data (eim_data : Np.ndarray2) : result Np.ndarray2 :=
  Np.reshape eim_data (Np.ncols eim_data) (Np.nrows eim_data).

End Surrogate.

(** ** The classifier notebook: features, labels and their encoding *)

Module Classifier.

(** [data[:, :-1]] *)
Definition all_but_last_column (data : Np.ndarray2) : Np.ndarray2 :=
  Np.mk_ndarray2 (Np.nrows data) (Np.ncols data - 1)
    (take (Np.ncols data - 1) <$> Np.rows data).

(** [data[:, -1]]: an array without columns raises IndexError. *)
Definition last_column (data : Np.ndarray2) : result (list Q) :=
  if decide (Np.ncols data = 0) then Raise IndexError
  else Np.column data (Np.ncols data - 1).

(** [X, y = data[:, :-1], data[:, -1]] *)
Definition split_features_target (data : Np.ndarray2)
    : result (Np.ndarray2 * list Q) :=
  let X := all_but_last_column data in
  y ← last_column data;
  mret (X, y).

(** [np.unique(y)]: the sorted distinct values. *)
Fixpoint insert_unique (x : Q) (l : list Q) : list Q :=
  match l with
  | [] => [x]
  | h :: t =>
      if Np.Qltb x h then x :: h :: t
      else if Qeq_bool x h then h :: t
      else h :: insert_unique x t
  end.

Definition unique (y : list Q) : list Q := foldr insert_unique [] y.

(** [output_classes = len(np.unique(y))] *)
Definition output_classes (y : list Q) : nat := length (unique y).

(** The cast [np.array(y, dtype="int64")] on one value: truncation. *)
Definition astype_int64 (q : Q) : Z := (Qnum q ÷ Z.pos (Qden q))%Z.

(** [np.max] of a list of integers; the empty list raises. *)
Definition np_max (x : list Z) : result Z :=
  match x with
  | [] => Raise ValueError
  | a :: x' => Ok (foldl Z.max a x')
  end.

(** One row of [categorical[np.arange(n), x] = 1]: a label in
    [-num_classes, num_classes) selects a position (negative labels count
    from the end), any other label raises IndexError. *)
Definition one_hot_row (num_classes : nat) (label : Z) : result (list Q) :=
  let c := Z.of_nat num_classes in
  if decide (0 ≤ label < c)%Z
  then Ok (<[Z.to_nat label := 1%Q]> (Np.zeros num_classes))
  else if decide (- c ≤ label < 0)%Z
  then Ok (<[Z.to_nat (label + c) := 1%Q]> (Np.zeros num_classes))
  else Raise IndexError.

(** [keras.utils.to_categorical(y, num_classes)] on a vector: the labels
    are cast to integers; a [num_classes] of 0 counts as not given and is
    replaced by [np.max(x) + 1]; a negative size of the zero matrix raises
    ValueError. *)
Definition to_categorical (y : list Q) (num_classes : nat) : result Np.ndarray2 :=
  let x := astype_int64 <$> y in
  num_classes ←
    (if decide (num_classes = 0)
     then m ← np_max x;
          if decide (m + 1 < 0)%Z then Raise ValueError
          else mret (Z.to_nat (m + 1))
     else mret num_classes);
  categorical ← for_each (one_hot_row num_classes) x;
  mret (Np.mk_ndarray2 (length x) num_classes categorical).

(** [np.argmax(A, axis=1)]: an axis of length 0 raises ValueError. *)
Definition argmax_axis1 (A : Np.ndarray2) : result (list nat) :=
  if decide (Np.ncols A = 0) then Raise ValueError
  else for_each Np.argmax (Np.rows A).

(** The labels as the notebook encodes them for training and decodes them
    again in [get_test_accuracy]. *)
Definition encode_decode (y : list Q) : result (list nat) :=
  y_categorical ← to_categorical y (output_classes y);
  argmax_axis1 y_categorical.

(** A [Dense] layer as the model definition lists it. *)
Record dense : Type := Dense {
  units : nat;
  activation : string;
  input_shape : option nat
}.

(** [Dense(units, ...)]: Keras refuses a layer without units with
    ValueError. *)
Definition dense_layer (units : nat) (activation : string) (input_shape : option nat)
    : result dense :=
  if decide (units = 0) then Raise ValueError
  else Ok (Dense units activation input_shape).

(** [Sequential([...])] of the first model. *)
Definition build_model (input_dim output_classes : nat) : result (list dense) :=
  hidden1 ← dense_layer 32 "tanh" (Some input_dim);
  hidden2 ← dense_layer 16 "tanh" None;
  output ← dense_layer output_classes "softmax" None;
  mret [hidden1; hidden2; output].

(** [A[idx]] for a list of row indices; an index outside the array raises
    IndexError. *)
Definition take_rows (A : Np.ndarray2) (idx : list nat) : result Np.ndarray2 :=
  rows ← for_each (Np.item (Np.rows A)) idx;
  mret (Np.mk_ndarray2 (length idx) (Np.ncols A) rows).

(** What the preparation cell leaves in the notebook's variables. *)
Record prepared : Type := mk_prepared {
  p_X : Np.ndarray2;
  p_y : Np.ndarray2;
  p_output_classes : nat;
  p_X_train : Np.ndarray2;
  p_X_test : Np.ndarray2;
  p_y_train : Np.ndarray2;
  p_y_test : Np.ndarray2
}.

Section Cells.
(** The permutation of [0 .. n-1] that sklearn draws for [n] samples with
    [random_state=0]. *)
Variable permutation : nat → list nat.

(** [train_test_split(X, y, random_state=0)]: arrays of different lengths
    raise ValueError, the default [test_size] is 0.25, an empty first part
    raises ValueError; the test part takes the first entries of the
    permutation and the training part the following ones. *)
Definition train_test_split (X y : Np.ndarray2)
    : result (Np.ndarray2 * Np.ndarray2 * Np.ndarray2 * Np.ndarray2) :=
  if decide (Np.nrows X = Np.nrows y)
  then
    '(n_train, n_test) ← Surrogate.train_test_split_checked (Np.nrows X) (1 # 4);
    let ind_test := take n_test (permutation (Np.nrows X)) in
    let ind_train := take n_train (drop n_test (permutation (Np.nrows X))) in
    X_train ← take_rows X ind_train;
    X_test ← take_rows X ind_test;
    y_train ← take_rows y ind_train;
    y_test ← take_rows y ind_test;
    mret (X_train, X_test, y_train, y_test)
  else Raise ValueError.

(** The cell that prepares the inputs and the one-hot targets and splits
    them. *)
Definition prepare_targets (data : Np.ndarray2) : result prepared :=
  '(X, y) ← split_features_target data;
  let output_classes := output_classes y in
  y ← to_categorical y output_classes;
  '(X_train, X_test, y_train, y_test) ← train_test_split X y;
  mret (mk_prepared X y output_classes X_train X_test y_train y_test).

(** The model that the next cell constructs for a loaded matrix:
    [input_dim = X_train.shape[1]], then [Sequential([...])].  Compiling and
    fitting the model is Keras's part. *)
Definition model_for (data : Np.ndarray2) : result (list dense) :=
  st ← prepare_targets data;
  let input_dim := Np.ncols (p_X_train st) in
  build_model input_dim (p_output_classes st).
End Cells.

(** [history.history] of a fit with [metrics=['accuracy']] and a validation
    split: the four series, one entry per epoch. *)
Record history : Type := mk_history {
  loss : list Q;
  val_loss : list Q;
  accuracy : list Q;
  val_accuracy : list Q
}.

(** [ax.plot(x, y)]: series of different lengths raise ValueError. *)
Definition ax_plot (x : list nat) (y : list Q) : result unit :=
  if decide (length x = length y) then Ok () else Raise ValueError.

(** [l[-1]]: the empty list raises IndexError. *)
Definition py_last (l : list Q) : result Q :=
  match last l with
  | Some x => Ok x
  | None => Raise IndexError
  end.

Definition plot_history (h : history) : result (Q * Q) :=
  let epochs := seq 1 (length (loss h)) in
  _ ← ax_plot epochs (loss h);
  _ ← ax_plot epochs (val_loss h);
  _ ← ax_plot epochs (accuracy h);
  _ ← ax_plot epochs (val_accuracy h);
  max_acc_train ← py_last (accuracy h);
  max_acc_val ← py_last (val_accuracy h);
  mret (max_acc_train, max_acc_val).

Section TestAccuracy.
(** [model.predict]: the class probabilities of the trained network. *)
Variable model_predict : Np.ndarray2 → Np.ndarray2.

(** [get_test_accuracy] up to its calls of [accuracy_score] and
    [confusion_matrix]: the true and the predicted labels they receive. *)
Definition test_labels (X_test y_test : Np.ndarray2) : result (list nat * list nat) :=
  let y_pred_prob := model_predict X_test in
  y_pred ← argmax_axis1 y_pred_prob;
  y_true ← argmax_axis1 y_test;
  mret (y_true, y_pred).
End TestAccuracy.

End Classifier.

(** ** Sanity checks on concrete inputs *)

Example common_time_grid_ex :
  Surrogate.common_time_grid [[1%Q; 2%Q]; [3%Q]] (1 # 2)%Q =
  Ok ([(0 * (1 # 2))%Q; (1 * (1 # 2))%Q],
      Np.mk_ndarray2 2 2 [[1%Q; 3%Q]; [2%Q; 0%Q]]).
Proof. reflexivity. Qed.

(** ** Arrays: shape and column lemmas *)

Lemma nth_seq_id (r : list Q) :
  (λ j, nth j r 0%Q) <$> seq 0 (length r) = r.
Proof.
  apply list_eq. intros j. rewrite list_lookup_fmap.
  destruct (decide (j < length r)) as [Hj|Hj].
  - rewrite lookup_seq_lt by done. simpl.
    destruct (lookup_lt_is_Some_2 r j Hj) as [x Hx].
    rewrite Hx. f_equal. by apply nth_lookup_Some with (d := 0%Q) in Hx.
  - rewrite lookup_seq_ge by lia. simpl.
    symmetry. apply lookup_ge_None. lia.
Qed.

Lemma column_lookup (A : Np.ndarray2) (i : nat) (col : list Q) (k : nat) :
  Np.column A i = Ok col →
  col !! k = (λ r, nth i r 0%Q) <$> (Np.rows A !! k).
Proof.
  unfold Np.column. case_decide; [|done]. intros [= <-].
  apply list_lookup_fmap.
Qed.

Lemma column_length (A : Np.ndarray2) (i : nat) (col : list Q) :
  wf_ndarray2 A → Np.column A i = Ok col → length col = Np.nrows A.
Proof.
  intros [Hlen _]. unfold Np.column. case_decide; [|done]. intros [= <-].
  by rewrite length_fmap.
Qed.

Lemma column_is_Ok (A : Np.ndarray2) (i : nat) :
  i < Np.ncols A → ∃ col, Np.column A i = Ok col.
Proof. intros Hi. unfold Np.column. rewrite decide_True by done. eauto. Qed.

Lemma transpose_wf (A : Np.ndarray2) :
  wf_ndarray2 A → wf_ndarray2 (Np.transpose A).
Proof.
  intros [Hlen _]. split; simpl.
  - by rewrite length_fmap, length_seq.
  - apply Forall_fmap, Forall_forall. intros j _. simpl.
    by rewrite length_fmap.
Qed.

(** Column [i] of the transpose is row [i]. *)
Lemma column_transpose (A : Np.ndarray2) (i : nat) (r : list Q) :
  wf_ndarray2 A → Np.rows A !! i = Some r →
  Np.column (Np.transpose A) i = Ok r.
Proof.
  intros [Hlen Hrows] Hr. unfold Np.column. simpl.
  rewrite decide_True by (rewrite <- Hlen; by eapply lookup_lt_Some).
  f_equal. rewrite <- list_fmap_compose.
  rewrite <- (nth_seq_id r) at 1.
  rewrite (Forall_lookup_1 _ _ _ _ Hrows Hr).
  apply list_fmap_ext. intros _ j _. simpl.
  assert (Hl : ((λ r0, nth j r0 0%Q) <$> Np.rows A) !! i = Some (nth j r 0%Q))
    by (by rewrite list_lookup_fmap, Hr).
  by apply nth_lookup_Some with (d := 0%Q) in Hl.
Qed.

Lemma vstack_Ok (hs : list (list Q)) (n : nat) :
  hs ≠ [] → Forall (λ r, length r = n) hs →
  Np.vstack hs = Ok (Np.mk_ndarray2 (length hs) n hs).
Proof.
  intros Hne Hall. destruct hs as [|h hs']; [done|].
  unfold Np.vstack.
  assert (Hh : length h = n) by (by inversion Hall).
  rewrite Hh.
  replace (forallb (λ r, length r =? n) (h :: hs')) with true; [done|].
  symmetry. apply forallb_forall. intros r Hr.
  apply Nat.eqb_eq. rewrite Forall_forall in Hall.
  apply Hall. by apply list_elem_of_In.
Qed.

(** ** [common_time_grid] *)

Lemma longest_waveform_fold (training_data : list (list Q)) (longest : nat) :
  fold_left
    (λ longest h, if longest <? length h then length h else longest)
    training_data longest
  = longest `max` max_list (length <$> training_data).
Proof.
  revert longest. induction training_data as [|h hs IH]; intros longest.
  - simpl. lia.
  - rewrite fmap_cons. cbn [fold_left max_list]. rewrite IH.
    destruct (Nat.ltb_spec longest (length h)); unfold id; lia.
Qed.

Lemma longest_waveform_max (training_data : list (list Q)) :
  Surrogate.longest_waveform training_data = max_list (length <$> training_data).
Proof. unfold Surrogate.longest_waveform. by rewrite longest_waveform_fold. Qed.

Lemma length_le_max_list (training_data : list (list Q)) (i : nat) (h : list Q) :
  training_data !! i = Some h → length h ≤ max_list (length <$> training_data).
Proof.
  intros Hh. apply max_list_elem_of_le, list_elem_of_lookup.
  exists i. by rewrite list_lookup_fmap, Hh.
Qed.

Lemma common_time_grid_columns (training_data : list (list Q)) (dt : Q) :
  training_data ≠ [] →
  ∃ A : Np.ndarray2,
    let L := max_list (length <$> training_data) in
    Surrogate.common_time_grid training_data dt
      = Ok ((λ k, (inject_Z (Z.of_nat k) * dt)%Q) <$> seq 0 L, A) ∧
    wf_ndarray2 A ∧
    Np.nrows A = L ∧
    Np.ncols A = length training_data ∧
    ∀ i h, training_data !! i = Some h →
      ∃ col, Np.column A i = Ok col ∧
             col = h ++ replicate (L - length h) 0%Q ∧
             h `prefix_of` col ∧
             length col = L.
Proof.
  intros Hne.
  set (L := max_list (length <$> training_data)).
  set (padded := (λ h, Np.append h (Np.zeros (L - length h))) <$> training_data).
  assert (Hpad : Forall (λ r, length r = L) padded).
  { apply Forall_fmap, Forall_lookup. intros i h Hh. simpl.
    unfold Np.append, Np.zeros. rewrite length_app, length_replicate.
    pose proof (length_le_max_list _ _ _ Hh). fold L in H. lia. }
  assert (Hpne : padded ≠ []).
  { unfold padded. by destruct training_data. }
  pose proof (vstack_Ok padded L Hpne Hpad) as Hstack.
  set (S := Np.mk_ndarray2 (length padded) L padded) in *.
  assert (HwfS : wf_ndarray2 S) by (by split).
  exists (Np.transpose S). cbv zeta. fold L.
  split; [|split; [|split; [|split]]].
  - unfold Surrogate.common_time_grid. rewrite longest_waveform_max.
    fold L. fold padded. by rewrite Hstack.
  - by apply transpose_wf.
  - done.
  - simpl. unfold padded. by rewrite length_fmap.
  - intros i h Hh. exists (h ++ replicate (L - length h) 0%Q).
    split; [|split; [done|split]].
    + apply column_transpose; [done|]. simpl. unfold padded.
      by rewrite list_lookup_fmap, Hh.
    + by apply prefix_app_r.
    + rewrite length_app, length_replicate.
      pose proof (length_le_max_list _ _ _ Hh). fold L in H. lia.
Qed.

(** C3: for a non-empty list of waveforms and any [dt], [common_time_grid]
    returns the time grid [0*dt, 1*dt, ..., (L-1)*dt] and a well-formed
    array with L rows, L the longest input length, and one column per
    waveform; column [i] is waveform [i] followed by [L - len] zeros, so the
    waveform is a prefix of its column. *)
Theorem common_time_grid_pads (training_data : list (list Q)) (dt : Q) :
  training_data ≠ [] →
  ∃ A : Np.ndarray2,
    let L := max_list (length <$> training_data) in
    Surrogate.common_time_grid training_data dt
      = Ok ((λ k, (inject_Z (Z.of_nat k) * dt)%Q) <$> seq 0 L, A) ∧
    wf_ndarray2 A ∧
    Np.nrows A = L ∧
    Np.ncols A = length training_data ∧
    ∀ i h, training_data !! i = Some h →
      ∃ col, Np.column A i = Ok col ∧
             col = h ++ replicate (L - length h) 0%Q ∧
             h `prefix_of` col ∧
             length col = L.
Proof. apply common_time_grid_columns. Qed.

(** What [common_time_grid] returns is what [align_peaks] expects when the
    notebook stores it in the globals. *)
Lemma common_time_grid_output_shape (training_data : list (list Q)) (dt : Q)
    (times : list Q) (A : Np.ndarray2) :
  training_data ≠ [] →
  Surrogate.common_time_grid training_data dt = Ok (times, A) →
  wf_ndarray2 A ∧
  Np.ncols A = length training_data ∧
  Np.nrows A = max_list (length <$> training_data) ∧
  length times = Np.nrows A.
Proof.
  intros Hne Hgrid.
  destruct (common_time_grid_columns training_data dt Hne)
    as (A' & Hgrid' & Hwf & Hrows & Hcols & _).
  cbv zeta in Hgrid', Hrows. rewrite Hgrid in Hgrid'.
  injection Hgrid' as -> ->.
  split; [done|]. split; [done|]. split; [done|].
  by rewrite length_fmap, length_seq.
Qed.

Lemma common_time_grid_pads_witness :
  [[1%Q; 2%Q]; [3%Q]] ≠ [] ∧
  ∃ A : Np.ndarray2,
    let L := max_list (length <$> [[1%Q; 2%Q]; [3%Q]]) in
    Surrogate.common_time_grid [[1%Q; 2%Q]; [3%Q]] (1 # 2)
      = Ok ((λ k, (inject_Z (Z.of_nat k) * (1 # 2))%Q) <$> seq 0 L, A) ∧
    wf_ndarray2 A ∧
    Np.nrows A = L ∧
    Np.ncols A = length [[1%Q; 2%Q]; [3%Q]] ∧
    ∀ i h, [[1%Q; 2%Q]; [3%Q]] !! i = Some h →
      ∃ col, Np.column A i = Ok col ∧
             col = h ++ replicate (L - length h) 0%Q ∧
             h `prefix_of` col ∧
             length col = L.
Proof.
  split; [discriminate|].
  apply (common_time_grid_pads [[1%Q; 2%Q]; [3%Q]] (1 # 2)). discriminate.
Defined.

(** ** Loops that may raise *)

Lemma for_each_Ok_inv {X Y : Type} (f : X → result Y) (xs : list X) (ys : list Y) :
  for_each f xs = Ok ys →
  length ys = length xs ∧
  ∀ i x, xs !! i = Some x → ∃ y, ys !! i = Some y ∧ f x = Ok y.
Proof.
  revert ys. induction xs as [|x xs IH]; intros ys; simpl.
  - intros [= <-]. split; [done|]. intros i x Hx. by destruct i.
  - destruct (f x) as [y|e] eqn:Hfx; simpl; [|done].
    destruct (for_each f xs) as [ys'|e] eqn:Hrec; simpl; [|done].
    intros [= <-]. destruct (IH ys' eq_refl) as [Hlen Hlook].
    split; [simpl; by rewrite Hlen|].
    intros [|i] x'; simpl.
    + intros [= <-]. eauto.
    + apply Hlook.
Qed.

Lemma for_each_is_Ok {X Y : Type} (f : X → result Y) (xs : list X) :
  (∀ i x, xs !! i = Some x → ∃ y, f x = Ok y) →
  ∃ ys, for_each f xs = Ok ys.
Proof.
  induction xs as [|x xs IH]; intros Hall; simpl; [eauto|].
  destruct (Hall 0 x eq_refl) as [y ->]. simpl.
  destruct IH as [ys ->]; [intros i x' Hx'; by apply (Hall (S i))|].
  simpl. eauto.
Qed.

(** ** [np.argmax] returns the first maximum *)

Lemma Qltb_true (a b : Q) : Np.Qltb a b = true ↔ (a < b)%Q.
Proof.
  unfold Np.Qltb. rewrite negb_true_iff, <- not_true_iff_false, Qle_bool_iff.
  split; [apply Qnot_le_lt | apply Qlt_not_le].
Qed.

Lemma Qltb_false (a b : Q) : Np.Qltb a b = false ↔ (b <= a)%Q.
Proof.
  unfold Np.Qltb. rewrite negb_false_iff. apply Qle_bool_iff.
Qed.

Lemma argmax_from_first (pre h : list Q) (best_i : nat) (best : Q) :
  pre !! best_i = Some best →
  (∀ k x, pre !! k = Some x → (x <= best)%Q) →
  (∀ k x, k < best_i → pre !! k = Some x → (x < best)%Q) →
  is_first_argmax (pre ++ h) (Np.argmax_from best_i best (length pre) h).
Proof.
  revert pre best_i best.
  induction h as [|x h IH]; intros pre best_i best Hbest Hle Hlt; simpl.
  - rewrite app_nil_r. exists best. eauto.
  - replace (pre ++ x :: h) with ((pre ++ [x]) ++ h) by (by rewrite <- app_assoc).
    replace (S (length pre)) with (length (pre ++ [x]))
      by (rewrite length_app; simpl; lia).
    destruct (Np.Qltb best x) eqn:Hcmp.
    + apply Qltb_true in Hcmp. apply IH.
      * by rewrite lookup_app_r, Nat.sub_diag.
      * intros k y Hy. apply lookup_app_Some in Hy as [Hy|[_ Hy]].
        -- apply Qlt_le_weak. eapply Qle_lt_trans; [by eapply Hle|done].
        -- destruct (k - length pre); [|done]. injection Hy as <-. apply Qle_refl.
      * intros k y Hk Hy. rewrite lookup_app_l in Hy by done.
        eapply Qle_lt_trans; [by eapply Hle|done].
    + apply Qltb_false in Hcmp. apply IH.
      * rewrite lookup_app_l; [done|by eapply lookup_lt_Some].
      * intros k y Hy. apply lookup_app_Some in Hy as [Hy|[_ Hy]].
        -- by eapply Hle.
        -- destruct (k - length pre); [|done]. by injection Hy as <-.
      * intros k y Hk Hy. apply lookup_app_Some in Hy as [Hy|[Hge Hy]].
        -- by eapply Hlt.
        -- apply lookup_lt_Some in Hbest. lia.
Qed.

Lemma argmax_first (h : list Q) :
  h ≠ [] → ∃ p, Np.argmax h = Ok p ∧ is_first_argmax h p.
Proof.
  destruct h as [|x h]; [done|]. intros _. eexists. split; [done|].
  apply (argmax_from_first [x] h 0 x).
  - done.
  - intros [|k] y; [|done]. intros [= <-]. apply Qle_refl.
  - intros k y Hk. lia.
Qed.

Lemma is_first_argmax_unique (l : list Q) (p q : nat) :
  is_first_argmax l p → is_first_argmax l q → p = q.
Proof.
  intros (v & Hv & Hvle & Hvlt) (w & Hw & Hwle & Hwlt).
  destruct (Nat.lt_trichotomy p q) as [Hpq|[Hpq|Hpq]]; [|done|]; exfalso.
  - pose proof (Hwlt _ _ Hpq Hv). pose proof (Hvle _ _ Hw).
    eapply Qlt_irrefl, Qlt_le_trans; eauto.
  - pose proof (Hvlt _ _ Hpq Hw). pose proof (Hwle _ _ Hv).
    eapply Qlt_irrefl, Qlt_le_trans; eauto.
Qed.

Lemma is_first_argmax_lt (l : list Q) (p : nat) :
  is_first_argmax l p → p < length l.
Proof. intros (v & Hv & _). by eapply lookup_lt_Some. Qed.

Lemma argmax_of_first (h : list Q) (p : nat) :
  is_first_argmax h p → Np.argmax h = Ok p.
Proof.
  intros Hp. destruct (argmax_first h) as (q & Hq & Hfirst).
  - intros ->. apply is_first_argmax_lt in Hp. simpl in Hp. lia.
  - rewrite Hq. f_equal. by eapply is_first_argmax_unique.
Qed.

(** Dropping [o ≤ p] leading samples and padding with zeros moves the first
    maximum of the absolute values from [p] to [p - o]. *)
Lemma argmax_Ok_first (h : list Q) (p : nat) :
  Np.argmax h = Ok p → is_first_argmax h p.
Proof.
  intros Hp. destruct (argmax_first h) as (q & Hq & Hfirst).
  - intros ->. discriminate Hp.
  - by replace p with q by congruence.
Qed.

Lemma first_argmax_after_shift (col : list Q) (p o : nat) :
  is_first_argmax (Np.abs col) p → o ≤ p →
  is_first_argmax (Np.abs (drop o col ++ replicate o 0%Q)) (p - o).
Proof.
  intros (v & Hv & Hle & Hlt) Hop.
  assert (Hp : p < length (Np.abs col)) by (by eapply lookup_lt_Some).
  assert (Hv0 : (0 <= v)%Q).
  { unfold Np.abs in Hv. apply list_lookup_fmap_Some_1 in Hv as (c & -> & _).
    apply Qabs_nonneg. }
  unfold Np.abs in *. rewrite fmap_app, fmap_drop, fmap_replicate.
  change (Qabs 0) with 0%Q.
  exists v. split; [|split].
  - rewrite lookup_app_l by (rewrite length_drop; lia).
    rewrite lookup_drop. by replace (o + (p - o)) with p by lia.
  - intros k x Hx. apply lookup_app_Some in Hx as [Hx|[_ Hx]].
    + rewrite lookup_drop in Hx. by eapply Hle.
    + apply lookup_replicate in Hx as [-> _]. done.
  - intros k x Hk Hx. apply lookup_app_Some in Hx as [Hx|[Hge _]].
    + rewrite lookup_drop in Hx. eapply Hlt; [|done]. lia.
    + rewrite length_drop in Hge. lia.
Qed.

(** ** [min], [get_peak] and [get_peaks] *)

Lemma foldl_min_spec (l : list nat) (a : nat) :
  (foldl Nat.min a l = a ∨ foldl Nat.min a l ∈ l) ∧
  foldl Nat.min a l ≤ a ∧
  ∀ x, x ∈ l → foldl Nat.min a l ≤ x.
Proof.
  revert a. induction l as [|b l IH]; intros a; simpl.
  - split; [by left|]. split; [done|]. intros x Hx. by apply elem_of_nil in Hx.
  - destruct (IH (a `min` b)) as (Hin & Hle & Hall).
    split; [|split].
    + destruct Hin as [->|Hin].
      * destruct (Nat.min_spec a b) as [[_ ->]|[_ ->]]; [by left|right; left].
      * right. by right.
    + lia.
    + intros x Hx. apply elem_of_cons in Hx as [->|Hx]; [lia|by apply Hall].
Qed.

Lemma py_min_spec (l : list nat) :
  l ≠ [] →
  ∃ m, Surrogate.py_min l = Ok m ∧ m ∈ l ∧ ∀ x, x ∈ l → m ≤ x.
Proof.
  destruct l as [|a l]; [done|]. intros _. simpl. eexists. split; [done|].
  destruct (foldl_min_spec l a) as (Hin & Hle & Hall).
  split.
  - destruct Hin as [->|Hin]; [left|by right].
  - intros x Hx. apply elem_of_cons in Hx as [->|Hx]; [done|by apply Hall].
Qed.

Lemma get_peak_is_Ok (t h : list Q) :
  h ≠ [] → length h ≤ length t →
  ∃ arg t_peak h_peak,
    Surrogate.get_peak t h = Ok (arg, t_peak, h_peak) ∧
    is_first_argmax (Np.abs h) arg.
Proof.
  intros Hne Hlen.
  destruct (argmax_first (Np.abs h)) as (arg & Harg & Hfirst).
  { unfold Np.abs. by destruct h. }
  pose proof (is_first_argmax_lt _ _ Hfirst) as Hlt.
  unfold Np.abs in Hlt. rewrite length_fmap in Hlt.
  destruct (lookup_lt_is_Some_2 t arg ltac:(lia)) as [tp Htp].
  destruct (lookup_lt_is_Some_2 h arg Hlt) as [hp Hhp].
  exists arg, tp, hp. split; [|done].
  unfold Surrogate.get_peak, Np.item. rewrite Harg. simpl.
  rewrite Htp. simpl. by rewrite Hhp.
Qed.

Lemma get_peak_Ok_inv (t h : list Q) (arg : nat) (t_peak h_peak : Q) :
  Surrogate.get_peak t h = Ok (arg, t_peak, h_peak) →
  Np.argmax (Np.abs h) = Ok arg.
Proof.
  unfold Surrogate.get_peak.
  destruct (Np.argmax (Np.abs h)) as [a|]; simpl; [|done].
  destruct (Np.item t a); simpl; [|done].
  destruct (Np.item h a); simpl; [|done].
  by intros [= <- _ _].
Qed.

Lemma max_list_le_bound (l : list nat) (b : nat) :
  (∀ x, x ∈ l → x ≤ b) → max_list l ≤ b.
Proof.
  induction l as [|a l IH]; intros Hall; simpl; [lia|].
  pose proof (Hall a ltac:(left)).
  pose proof (IH (λ x Hx, Hall x ltac:(by right))). lia.
Qed.

(** ** [align_peaks] *)

Lemma get_peaks_body_cases (g : Surrogate.globals) (A : Np.ndarray2) (i : nat) :
  wf_ndarray2 A → 0 < Np.nrows A → i < Np.ncols A →
  ∃ col p,
    Np.column A i = Ok col ∧ is_first_argmax (Np.abs col) p ∧
    (h ← Np.column A i;
     '(arg, t_peak, h_peak) ← Surrogate.get_peak (Surrogate.times g) h;
     mret arg)
    = (if decide (p < length (Surrogate.times g)) then Ok p else Raise IndexError).
Proof.
  intros Hwf Hrows Hi. destruct (column_is_Ok A i Hi) as [col Hcol].
  pose proof (column_length _ _ _ Hwf Hcol) as Hlen.
  destruct (argmax_first (Np.abs col)) as (p & Hp & Hfirst).
  { unfold Np.abs. destruct col; [simpl in Hlen; lia|done]. }
  exists col, p. split; [done|]. split; [done|].
  rewrite Hcol. simpl. unfold Surrogate.get_peak, Np.item. rewrite Hp. simpl.
  pose proof (is_first_argmax_lt _ _ Hfirst) as Hlt.
  unfold Np.abs in Hlt. rewrite length_fmap in Hlt.
  destruct (lookup_lt_is_Some_2 col p Hlt) as [hp Hhp].
  case_decide as Ht.
  - destruct (lookup_lt_is_Some_2 _ _ Ht) as [tp Htp]. rewrite Htp. simpl.
    by rewrite Hhp.
  - apply Nat.nlt_ge, lookup_ge_None in Ht. by rewrite Ht.
Qed.

Lemma get_peaks_columns (g : Surrogate.globals) (t : list Q) (A : Np.ndarray2) :
  wf_ndarray2 A →
  0 < Np.nrows A →
  Surrogate.num_train_samples g ≤ Np.ncols A →
  (∀ i col p, i < Surrogate.num_train_samples g →
     Np.column A i = Ok col → is_first_argmax (Np.abs col) p →
     p < length (Surrogate.times g)) →
  ∃ peaks,
    Surrogate.get_peaks g t A = Ok peaks ∧
    length peaks = Surrogate.num_train_samples g ∧
    ∀ i, i < Surrogate.num_train_samples g →
      ∃ col p, Np.column A i = Ok col ∧ peaks !! i = Some p ∧
               is_first_argmax (Np.abs col) p.
Proof.
  intros Hwf Hrows Hn Htimes. unfold Surrogate.get_peaks.
  match goal with |- context [for_each ?f _] => set (body := f) end.
  assert (Hbody : ∀ i, i < Surrogate.num_train_samples g →
            ∃ col p, Np.column A i = Ok col ∧ body i = Ok p ∧
                     is_first_argmax (Np.abs col) p).
  { intros i Hi.
    destruct (get_peaks_body_cases g A i Hwf Hrows ltac:(lia))
      as (col & p & Hcol & Hfirst & Hb).
    exists col, p. split; [done|]. split; [|done].
    unfold body. rewrite Hb. rewrite decide_True; [done|].
    by apply (Htimes i col p). }
  destruct (for_each_is_Ok body (seq 0 (Surrogate.num_train_samples g)))
    as [peaks Hpeaks].
  { intros i x Hx. apply lookup_seq in Hx as [-> Hi].
    destruct (Hbody i Hi) as (col & p & _ & Hp & _). eauto. }
  exists peaks. split; [done|].
  destruct (for_each_Ok_inv _ _ _ Hpeaks) as [Hlen Hlook].
  rewrite length_seq in Hlen. split; [done|].
  intros i Hi. destruct (Hbody i Hi) as (col & p & Hcol & Hp & Hfirst).
  exists col, p. split; [done|]. split; [|done].
  destruct (Hlook i i) as (y & Hy & Hfy); [by apply lookup_seq|].
  rewrite Hp in Hfy. by injection Hfy as <-.
Qed.

Lemma align_peaks_columns (g : Surrogate.globals) (t : list Q) (A : Np.ndarray2) :
  wf_ndarray2 A →
  0 < Np.nrows A →
  0 < Surrogate.num_train_samples g →
  Surrogate.num_train_samples g ≤ Np.ncols A →
  (∀ i col p, i < Surrogate.num_train_samples g →
     Np.column A i = Ok col → is_first_argmax (Np.abs col) p →
     p < length (Surrogate.times g)) →
  ∃ (B : Np.ndarray2) (peaks : list nat) (min_peak : nat),
    Surrogate.align_peaks g t A = Ok B ∧
    wf_ndarray2 B ∧ Np.nrows B = Np.nrows A ∧
    Np.ncols B = Surrogate.num_train_samples g ∧
    length peaks = Surrogate.num_train_samples g ∧
    min_peak ∈ peaks ∧ (∀ p, p ∈ peaks → min_peak ≤ p) ∧
    ∀ i, i < Surrogate.num_train_samples g →
      ∃ col p,
        Np.column A i = Ok col ∧
        peaks !! i = Some p ∧
        is_first_argmax (Np.abs col) p ∧
        Np.column B i = Ok (drop (p - min_peak) col ++ replicate (p - min_peak) 0%Q) ∧
        is_first_argmax
          (Np.abs (drop (p - min_peak) col ++ replicate (p - min_peak) 0%Q)) min_peak.
Proof.
  intros Hwf Hrows Hpos Hn Htimes.
  set (n := Surrogate.num_train_samples g) in *.
  destruct (get_peaks_columns g t A Hwf Hrows Hn Htimes)
    as (peaks & Hpeaks & Hlen & Hcolumns).
  fold n in Hlen, Hcolumns.
  destruct (py_min_spec peaks) as (m & Hm & Hm_in & Hm_le).
  { intros ->. simpl in Hlen. lia. }
  unfold Surrogate.align_peaks. rewrite Hpeaks. simpl. rewrite Hm. simpl.
  fold n.
  match goal with |- context [for_each ?f _] => set (body := f) end.
  assert (Hbody : ∀ i col p, Np.column A i = Ok col → peaks !! i = Some p →
            body i = Ok (drop (p - m) col)).
  { intros i col p Hcol Hp. unfold body, Np.item, Np.column_from.
    rewrite Hp. simpl. by rewrite Hcol. }
  destruct (for_each_is_Ok body (seq 0 n)) as [aligned Haligned].
  { intros i x Hx. apply lookup_seq in Hx as [-> Hi].
    destruct (Hcolumns i Hi) as (col & p & Hcol & Hp & _).
    simpl. rewrite (Hbody _ _ _ Hcol Hp). eauto. }
  rewrite Haligned. simpl.
  destruct (for_each_Ok_inv _ _ _ Haligned) as [Hlen_al Hlook].
  rewrite length_seq in Hlen_al.
  assert (Hal : ∀ i col p, Np.column A i = Ok col → peaks !! i = Some p →
            aligned !! i = Some (drop (p - m) col)).
  { intros i col p Hcol Hp.
    destruct (Hlook i i) as (y & Hy & Hfy).
    { apply lookup_seq. split; [done|]. apply lookup_lt_Some in Hp. lia. }
    rewrite (Hbody _ _ _ Hcol Hp) in Hfy. by injection Hfy as <-. }
  assert (HL : max_list (length <$> aligned) = Np.nrows A).
  { apply Nat.le_antisymm.
    - apply max_list_le_bound. intros x Hx.
      apply list_elem_of_lookup in Hx as [i Hx].
      rewrite list_lookup_fmap in Hx.
      destruct (aligned !! i) as [h|] eqn:Hh; [|done]. injection Hx as <-.
      pose proof (lookup_lt_Some _ _ _ Hh) as Hi. rewrite Hlen_al in Hi.
      destruct (Hcolumns i Hi) as (col & p & Hcol & Hp & _).
      rewrite (Hal _ _ _ Hcol Hp) in Hh. injection Hh as <-.
      rewrite length_drop, (column_length _ _ _ Hwf Hcol). lia.
    - apply list_elem_of_lookup in Hm_in as [i Hi].
      pose proof (lookup_lt_Some _ _ _ Hi) as Hilt. rewrite Hlen in Hilt.
      destruct (Hcolumns i Hilt) as (col & p & Hcol & Hp & _).
      assert (p = m) as -> by congruence.
      apply max_list_elem_of_le, list_elem_of_lookup. exists i.
      rewrite list_lookup_fmap, (Hal _ _ _ Hcol Hp). simpl.
      rewrite length_drop, (column_length _ _ _ Hwf Hcol). f_equal. lia. }
  destruct (common_time_grid_columns aligned Surrogate.default_dt)
    as (B & Hgrid & HwfB & HrowsB & HcolsB & HcolB).
  { intros ->. simpl in Hlen_al. lia. }
  cbv zeta in Hgrid, HrowsB, HcolB. rewrite HL in Hgrid, HrowsB, HcolB.
  rewrite Hgrid. simpl.
  exists B, peaks, m.
  split; [done|]. split; [done|]. split; [done|].
  split; [by rewrite HcolsB|]. split; [done|]. split; [done|]. split; [done|].
  intros i Hi. destruct (Hcolumns i Hi) as (col & p & Hcol & Hp & Hfirst).
  destruct (HcolB _ _ (Hal _ _ _ Hcol Hp)) as (colB & HcolBi & -> & _).
  pose proof (is_first_argmax_lt _ _ Hfirst) as Hplt.
  unfold Np.abs in Hplt. rewrite length_fmap in Hplt.
  pose proof (column_length _ _ _ Hwf Hcol) as Hcollen.
  assert (Hmp : m ≤ p).
  { apply Hm_le, list_elem_of_lookup. eauto. }
  replace (Np.nrows A - length (drop (p - m) col)) with (p - m) in *
    by (rewrite length_drop; lia).
  exists col, p.
  split; [done|]. split; [done|]. split; [done|]. split; [done|].
  replace m with (p - (p - m)) at 3 by lia.
  apply first_argmax_after_shift; [done|lia].
Qed.

Lemma peak_index_lt_nrows (A : Np.ndarray2) (i : nat) (col : list Q) (p : nat) :
  wf_ndarray2 A → Np.column A i = Ok col → is_first_argmax (Np.abs col) p →
  p < Np.nrows A.
Proof.
  intros Hwf Hcol Hfirst. apply is_first_argmax_lt in Hfirst.
  unfold Np.abs in Hfirst. rewrite length_fmap in Hfirst.
  by rewrite (column_length _ _ _ Hwf Hcol) in Hfirst.
Qed.

(** C2 (amended): for a well-formed array with at least one column and at
    least one row, read with [num_train_samples] equal to its number of
    columns and with a global [times] that has an entry at the index of the
    first maximum of the absolute values of every column (as the grid that
    [common_time_grid] returns with the array has), [align_peaks] returns
    a well-formed array of the same shape.  With [peaks] the index of the
    first maximum of the absolute values of each input column and
    [min_peak] their minimum, column [i] of the result is column [i] of the
    input without its first [peaks[i] - min_peak] entries, followed by as
    many zeros, and the first maximum of its absolute values is at row
    [min_peak]. *)
Theorem align_peaks_aligns (g : Surrogate.globals) (t : list Q) (A : Np.ndarray2) :
  wf_ndarray2 A →
  0 < Np.ncols A →
  0 < Np.nrows A →
  Surrogate.num_train_samples g = Np.ncols A →
  (∀ i col p, i < Np.ncols A →
     Np.column A i = Ok col → is_first_argmax (Np.abs col) p →
     p < length (Surrogate.times g)) →
  ∃ (B : Np.ndarray2) (peaks : list nat) (min_peak : nat),
    Surrogate.align_peaks g t A = Ok B ∧
    wf_ndarray2 B ∧ Np.nrows B = Np.nrows A ∧ Np.ncols B = Np.ncols A ∧
    length peaks = Np.ncols A ∧
    min_peak ∈ peaks ∧ (∀ p, p ∈ peaks → min_peak ≤ p) ∧
    ∀ i, i < Np.ncols A →
      ∃ col p colB,
        Np.column A i = Ok col ∧
        peaks !! i = Some p ∧
        is_first_argmax (Np.abs col) p ∧
        Np.column B i = Ok colB ∧
        colB = drop (p - min_peak) col ++ replicate (p - min_peak) 0%Q ∧
        is_first_argmax (Np.abs colB) min_peak ∧
        Np.argmax (Np.abs colB) = Ok min_peak.
Proof.
  intros Hwf Hcols Hrows Hn Htimes.
  destruct (align_peaks_columns g t A Hwf Hrows)
    as (B & peaks & m & HB & HwfB & HrB & HcB & Hlen & Hin & Hle & Hcolumns).
  { lia. }
  { lia. }
  { rewrite Hn. exact Htimes. }
  rewrite Hn in HcB, Hlen, Hcolumns.
  exists B, peaks, m.
  split; [done|]. split; [done|]. split; [done|]. split; [done|].
  split; [done|]. split; [done|]. split; [done|].
  intros i Hi. destruct (Hcolumns i Hi) as (col & p & Hcol & Hp & Hfirst & HBi & Hshift).
  exists col, p, (drop (p - m) col ++ replicate (p - m) 0%Q).
  split; [done|]. split; [done|]. split; [done|]. split; [done|].
  split; [done|]. split; [done|]. by apply argmax_of_first.
Qed.

Lemma align_peaks_aligns_witness :
  let A := Np.mk_ndarray2 3 2 [[1%Q; 5%Q]; [-3%Q; 1%Q]; [2%Q; 0%Q]] in
  let g := Surrogate.mk_globals 2 [0%Q; (1 # 10)%Q; (2 # 10)%Q] in
  let t : list Q := [] in
  (wf_ndarray2 A ∧ 0 < Np.ncols A ∧ 0 < Np.nrows A ∧
   Surrogate.num_train_samples g = Np.ncols A ∧
   (∀ i col p, i < Np.ncols A →
      Np.column A i = Ok col → is_first_argmax (Np.abs col) p →
      p < length (Surrogate.times g))) ∧
  ∃ (B : Np.ndarray2) (peaks : list nat) (min_peak : nat),
    Surrogate.align_peaks g t A = Ok B ∧
    wf_ndarray2 B ∧ Np.nrows B = Np.nrows A ∧ Np.ncols B = Np.ncols A ∧
    length peaks = Np.ncols A ∧
    min_peak ∈ peaks ∧ (∀ p, p ∈ peaks → min_peak ≤ p) ∧
    ∀ i, i < Np.ncols A →
      ∃ col p colB,
        Np.column A i = Ok col ∧
        peaks !! i = Some p ∧
        is_first_argmax (Np.abs col) p ∧
        Np.column B i = Ok colB ∧
        colB = drop (p - min_peak) col ++ replicate (p - min_peak) 0%Q ∧
        is_first_argmax (Np.abs colB) min_peak ∧
        Np.argmax (Np.abs colB) = Ok min_peak.
Proof.
  assert (Hwf : wf_ndarray2
            (Np.mk_ndarray2 3 2 [[1%Q; 5%Q]; [-3%Q; 1%Q]; [2%Q; 0%Q]]))
    by (split; [reflexivity | repeat constructor]).
  assert (Htimes : ∀ i col p, i < 2 →
            Np.column (Np.mk_ndarray2 3 2 [[1%Q; 5%Q]; [-3%Q; 1%Q]; [2%Q; 0%Q]]) i
              = Ok col →
            is_first_argmax (Np.abs col) p → p < 3).
  { intros i col p _ Hcol Hfirst.
    exact (peak_index_lt_nrows _ i col p Hwf Hcol Hfirst). }
  cbv zeta. split.
  - split; [exact Hwf|]. split; [simpl; lia|]. split; [simpl; lia|].
    split; [reflexivity | exact Htimes].
  - apply (align_peaks_aligns
             (Surrogate.mk_globals 2 [0%Q; (1 # 10)%Q; (2 # 10)%Q]) []
             (Np.mk_ndarray2 3 2 [[1%Q; 5%Q]; [-3%Q; 1%Q]; [2%Q; 0%Q]]));
      [exact Hwf | simpl; lia | simpl; lia | reflexivity | exact Htimes].
Defined.

Example align_peaks_ex :
  Surrogate.align_peaks
    (Surrogate.mk_globals 2 [0%Q; (1 # 10)%Q; (2 # 10)%Q]) []
    (Np.mk_ndarray2 3 2 [[1%Q; 5%Q]; [-3%Q; 1%Q]; [2%Q; 0%Q]])
  = Ok (Np.mk_ndarray2 3 2 [[-3%Q; 5%Q]; [2%Q; 1%Q]; [0%Q; 0%Q]]).
Proof. reflexivity. Qed.

(** C2 as stated fails when the common length is 0: a single empty waveform
    is padded by [common_time_grid] to an array of shape (0, 1), and on it
    [align_peaks] raises ValueError, because [np.argmax] refuses an empty
    column.  It also fails when the global [times] is not the grid of the
    array: the waveform [1, 2] is padded to an array of shape (2, 1) whose
    peak is at row 1, and with a global [times] of one entry [align_peaks]
    raises IndexError, while with the grid that [common_time_grid] returned
    it returns the array. *)
Lemma align_peaks_empty_waveform_raises :
  Surrogate.common_time_grid [[]] Surrogate.default_dt
    = Ok ([], Np.mk_ndarray2 0 1 []) ∧
  wf_ndarray2 (Np.mk_ndarray2 0 1 []) ∧
  Surrogate.align_peaks (Surrogate.mk_globals 1 []) [] (Np.mk_ndarray2 0 1 [])
    = Raise ValueError ∧
  (¬ ∃ B, Surrogate.align_peaks (Surrogate.mk_globals 1 []) []
            (Np.mk_ndarray2 0 1 []) = Ok B) ∧
  Surrogate.common_time_grid [[1%Q; 2%Q]] Surrogate.default_dt
    = Ok ([(0 * (1 # 10))%Q; (1 * (1 # 10))%Q], Np.mk_ndarray2 2 1 [[1%Q]; [2%Q]]) ∧
  Surrogate.align_peaks (Surrogate.mk_globals 1 [0%Q]) []
    (Np.mk_ndarray2 2 1 [[1%Q]; [2%Q]]) = Raise IndexError ∧
  Surrogate.align_peaks
    (Surrogate.mk_globals 1 [(0 * (1 # 10))%Q; (1 * (1 # 10))%Q]) []
    (Np.mk_ndarray2 2 1 [[1%Q]; [2%Q]])
  = Ok (Np.mk_ndarray2 2 1 [[1%Q]; [2%Q]]).
Proof.
  split; [reflexivity|]. split; [by split|]. split; [reflexivity|].
  split; [intros [B HB]; discriminate HB|].
  split; [reflexivity|]. split; reflexivity.
Qed.

(** C9: [get_peaks] and [align_peaks] return the same result for any two
    values of their [times] argument; what they read instead are the
    globals, and changing [num_train_samples] or the global [times] does
    change the result. *)
Theorem align_peaks_ignores_times_argument :
  (∀ g t1 t2 A, Surrogate.get_peaks g t1 A = Surrogate.get_peaks g t2 A) ∧
  (∀ g t1 t2 A, Surrogate.align_peaks g t1 A = Surrogate.align_peaks g t2 A) ∧
  (let A := Np.mk_ndarray2 1 2 [[1%Q; 2%Q]] in
   Surrogate.align_peaks (Surrogate.mk_globals 2 [0%Q]) [] A = Ok A ∧
   Surrogate.align_peaks (Surrogate.mk_globals 1 [0%Q]) [] A
     = Ok (Np.mk_ndarray2 1 1 [[1%Q]]) ∧
   Surrogate.align_peaks (Surrogate.mk_globals 3 [0%Q]) [] A
     = Raise IndexError ∧
   Surrogate.align_peaks (Surrogate.mk_globals 2 []) [0%Q] A
     = Raise IndexError).
Proof.
  split; [reflexivity|]. split; [reflexivity|].
  cbv zeta. repeat split; reflexivity.
Qed.

(** ** The iteration sizes *)

Lemma np_sum_replicate (x : Z) (k : nat) :
  Surrogate.np_sum (replicate k x) = (Z.of_nat k * x)%Z.
Proof.
  induction k as [|k IH]; [done|].
  change (Surrogate.np_sum (replicate (S k) x))
    with (x + Surrogate.np_sum (replicate k x))%Z.
  rewrite IH. lia.
Qed.

(** C4: the split of 401 samples with [test_size=0.4] leaves 240 training
    samples; with them the cell builds ten sizes of 24, their sum is 240 and
    the assertion passes; for every [n ≥ 0] and [k ≥ 1] the list
    [[n // k] * k] sums to [k * (n // k)], which is at most [n]. *)
Theorem append_sizes_sum (n k : Z) :
  (0 ≤ n)%Z → (1 ≤ k)%Z →
  Surrogate.train_test_split_sizes 401 (4 # 10) = (240, 161) ∧
  Surrogate.append_sizes_cell 240 = Ok (replicate 10 24%Z) ∧
  Surrogate.np_sum (replicate 10 24%Z) = 240%Z ∧
  ∃ append_sizes,
    Surrogate.make_append_sizes n k = Ok append_sizes ∧
    append_sizes = replicate (Z.to_nat k) (n `div` k)%Z ∧
    Surrogate.np_sum append_sizes = (k * (n `div` k))%Z ∧
    (Surrogate.np_sum append_sizes ≤ n)%Z.
Proof.
  intros Hn Hk. split; [reflexivity|]. split; [reflexivity|].
  split; [reflexivity|].
  exists (replicate (Z.to_nat k) (n `div` k)%Z).
  unfold Surrogate.make_append_sizes, Surrogate.floor_div.
  rewrite decide_False by lia. split; [reflexivity|]. split; [reflexivity|].
  rewrite np_sum_replicate, Z2Nat.id by lia.
  split; [reflexivity|]. apply Z.mul_div_le. lia.
Qed.

Lemma append_sizes_sum_witness :
  ((0 ≤ 401)%Z ∧ (1 ≤ 10)%Z) ∧
  Surrogate.train_test_split_sizes 401 (4 # 10) = (240, 161) ∧
  Surrogate.append_sizes_cell 240 = Ok (replicate 10 24%Z) ∧
  Surrogate.np_sum (replicate 10 24%Z) = 240%Z ∧
  ∃ append_sizes,
    Surrogate.make_append_sizes 401 10 = Ok append_sizes ∧
    append_sizes = replicate (Z.to_nat 10) (401 `div` 10)%Z ∧
    Surrogate.np_sum append_sizes = (10 * (401 `div` 10))%Z ∧
    (Surrogate.np_sum append_sizes ≤ 401)%Z.
Proof.
  split; [lia|]. apply (append_sizes_sum 401 10); lia.
Defined.

(** ** The three optimisation stages *)

Lemma dict_or_lookup (a b : gmap string Surrogate.pyval) (k : string) :
  Surrogate.dict_or a b !! k
  = match b !! k with Some v => Some v | None => a !! k end.
Proof.
  unfold Surrogate.dict_or. rewrite lookup_union.
  destruct (b !! k), (a !! k); done.
Qed.

(** A key of both operands takes the value of the right one. *)
Lemma dict_or_shared_key (a b : gmap string Surrogate.pyval) (k : string)
    (va vb : Surrogate.pyval) :
  a !! k = Some va → b !! k = Some vb → Surrogate.dict_or a b !! k = Some vb.
Proof. intros _ Hb. by rewrite dict_or_lookup, Hb. Qed.

Lemma np_load_save_eq (name : string) (d : gmap string Surrogate.pyval)
    (w : Surrogate.world) :
  Surrogate.np_load name (Surrogate.np_save name d w) = Ok d.
Proof. unfold Surrogate.np_load, Surrogate.np_save. simpl. by rewrite lookup_insert_eq. Qed.

Lemma np_load_save_ne (name name' : string) (d : gmap string Surrogate.pyval)
    (w : Surrogate.world) :
  name' ≠ name →
  Surrogate.np_load name (Surrogate.np_save name' d w) = Surrogate.np_load name w.
Proof.
  intros Hne. unfold Surrogate.np_load, Surrogate.np_save. simpl.
  by rewrite lookup_insert_ne.
Qed.

Lemma np_load_record_call (name : string) (c : Surrogate.stage_call)
    (w : Surrogate.world) :
  Surrogate.np_load name (Surrogate.record_call c w) = Surrogate.np_load name w.
Proof. reflexivity. Qed.

Lemma calls_np_save (name : string) (d : gmap string Surrogate.pyval)
    (w : Surrogate.world) :
  Surrogate.calls (Surrogate.np_save name d w) = Surrogate.calls w.
Proof. reflexivity. Qed.

Lemma calls_record_call (c : Surrogate.stage_call) (w : Surrogate.world) :
  Surrogate.calls (Surrogate.record_call c w) = Surrogate.calls w ++ [c].
Proof. reflexivity. Qed.

Lemma append_sizes_cell_240 :
  Surrogate.append_sizes_cell 240 = Ok (replicate 10 24%Z).
Proof. reflexivity. Qed.

Section StagedWorkflow.
Variable functional_best_trial :
  gmap string Surrogate.pyval → gmap string Surrogate.pyval →
  gmap string Surrogate.pyval.
Variable shape_best_trial :
  gmap string Surrogate.pyval → gmap string Surrogate.pyval →
  gmap string Surrogate.pyval.

(** C1: started in any state, the script with 240 training samples ends
    having made exactly three calls, in this order: the functional study
    with the literal [fixed_dict]; the shape study whose fixed dictionary is
    the best functional parameters with ["num_epochs"] set to 100 and every
    other key unchanged; the training-set iteration with [append_sizes] and
    the merged dictionary [best_functional | best_shape].  The merged
    dictionary gives every key of [best_shape] the value [best_shape] has
    for it, also when [best_functional] has the key too, and gives the
    other keys their value in [best_functional]. *)
Theorem workflow_three_stages (w : Surrogate.world) :
  let best_functional :=
    functional_best_trial Surrogate.functional_options_dict Surrogate.fixed_dict in
  let shape_fixed := <["num_epochs" := Surrogate.PInt 100]> best_functional in
  let best_shape := shape_best_trial Surrogate.shape_options_dict shape_fixed in
  let best := Surrogate.dict_or best_functional best_shape in
  ∃ w',
    Surrogate.workflow functional_best_trial shape_best_trial 240 w = Ok w' ∧
    Surrogate.calls w' =
      Surrogate.calls w ++
      [Surrogate.FunctionalStudy
         Surrogate.functional_options_dict Surrogate.fixed_dict 50;
       Surrogate.ShapeStudy Surrogate.shape_options_dict shape_fixed 100;
       Surrogate.TrainIteration (replicate 10 24%Z) best 100] ∧
    shape_fixed !! "num_epochs" = Some (Surrogate.PInt 100) ∧
    (∀ k, shape_fixed !! k =
          if decide (k = "num_epochs") then Some (Surrogate.PInt 100)
          else best_functional !! k) ∧
    (∀ k, best !! k =
          match best_shape !! k with
          | Some v => Some v
          | None => best_functional !! k
          end).
Proof.
  intros best_functional shape_fixed best_shape best.
  eexists. split; [|split; [|split; [|split]]].
  - unfold Surrogate.workflow, Surrogate.functional_stage.
    unfold Surrogate.shape_stage. rewrite np_load_save_eq.
    change (Ok ?d ≫= ?f) with (f d). cbv beta zeta.
    change (mret ?x ≫= ?f) with (f x). cbv beta.
    unfold Surrogate.dataset_stage.
    rewrite (np_load_save_ne "best_functional_hyper.npy" "best_shape_hyper.npy")
      by discriminate.
    rewrite np_load_record_call, np_load_save_eq.
    change (Ok ?d ≫= ?f) with (f d). cbv beta.
    rewrite np_load_save_eq.
    change (Ok ?d ≫= ?f) with (f d). cbv beta zeta.
    rewrite append_sizes_cell_240. reflexivity.
  - rewrite !calls_record_call, !calls_np_save, !calls_record_call,
      !calls_np_save, !calls_record_call.
    rewrite <- !app_assoc. reflexivity.
  - apply lookup_insert_eq.
  - intros k. subst shape_fixed. rewrite lookup_insert.
    case_decide as H1; case_decide as H2; congruence.
  - intros k. apply dict_or_lookup.
Qed.

End StagedWorkflow.

(** A run with two stand-in searches that both choose a batch size: the
    merged dictionary keeps the one of the shape search. *)
Example workflow_ex :
  let functional_best := λ _ _ : gmap string Surrogate.pyval,
    ({[ "activation" := Surrogate.PStr "tanh";
        "batch_size" := Surrogate.PInt 16 ]} : gmap string Surrogate.pyval) in
  let shape_best := λ _ _ : gmap string Surrogate.pyval,
    ({[ "batch_size" := Surrogate.PInt 8 ]} : gmap string Surrogate.pyval) in
  (w ← Surrogate.workflow functional_best shape_best 240
         (Surrogate.mk_world ∅ []);
   match Surrogate.calls w with
   | [Surrogate.FunctionalStudy _ _ n1; Surrogate.ShapeStudy _ fixed2 n2;
      Surrogate.TrainIteration sizes best n3] =>
       mret (n1, n2, n3, sizes, fixed2 !! "num_epochs",
             best !! "batch_size", best !! "activation")
   | _ => Raise AssertionError
   end)
  = Ok (50, 100, 100, replicate 10 24%Z, Some (Surrogate.PInt 100),
        Some (Surrogate.PInt 8), Some (Surrogate.PStr "tanh")) ∧
  Surrogate.workflow functional_best shape_best 239 (Surrogate.mk_world ∅ [])
  = Raise AssertionError.
Proof. split; vm_compute; reflexivity. Qed.

(** ** One-hot encoding and arg-max decoding *)

Lemma for_each_fmap_Ok {X Y : Type} (f : X → result Y) (g : X → Y) (xs : list X) :
  Forall (λ x, f x = Ok (g x)) xs → for_each f xs = Ok (g <$> xs).
Proof.
  induction 1 as [|x xs Hx _ IH]; simpl; [done|].
  by rewrite Hx, IH.
Qed.

Lemma for_each_fmap {W X Y : Type} (f : X → result Y) (h : W → X) (ws : list W) :
  for_each f (h <$> ws) = for_each (f ∘ h) ws.
Proof.
  induction ws as [|w ws IH]; [done|].
  rewrite fmap_cons. cbn [for_each]. by rewrite IH.
Qed.

Lemma astype_int64_inject_Z (z : Z) : Classifier.astype_int64 (inject_Z z) = z.
Proof. unfold Classifier.astype_int64. simpl. apply Z.quot_1_r. Qed.

Lemma argmax_one_hot (num_classes k : nat) :
  k < num_classes →
  Np.argmax (<[k := 1%Q]> (Np.zeros num_classes)) = Ok k.
Proof.
  intros Hk. apply argmax_of_first. unfold Np.zeros. exists 1%Q.
  split; [|split].
  - apply list_lookup_insert_eq. by rewrite length_replicate.
  - intros j x Hx. destruct (decide (k = j)) as [->|Hne].
    + rewrite list_lookup_insert_eq in Hx by (by rewrite length_replicate).
      injection Hx as <-. apply Qle_refl.
    + rewrite list_lookup_insert_ne in Hx by done.
      apply lookup_replicate in Hx as [-> _]. done.
  - intros j x Hj Hx. rewrite list_lookup_insert_ne in Hx by lia.
    apply lookup_replicate in Hx as [-> _]. done.
Qed.

Lemma one_hot_row_in_range (num_classes : nat) (label : Z) :
  (0 ≤ label < Z.of_nat num_classes)%Z →
  Classifier.one_hot_row num_classes label
  = Ok (<[Z.to_nat label := 1%Q]> (Np.zeros num_classes)).
Proof. intros H. unfold Classifier.one_hot_row. by rewrite decide_True. Qed.

Lemma to_categorical_in_range (y : list Z) (num_classes : nat) :
  0 < num_classes →
  Forall (λ v, (0 ≤ v < Z.of_nat num_classes)%Z) y →
  Classifier.to_categorical (inject_Z <$> y) num_classes
  = Ok (Np.mk_ndarray2 (length y) num_classes
          ((λ v, <[Z.to_nat v := 1%Q]> (Np.zeros num_classes)) <$> y)).
Proof.
  intros Hpos Hall. unfold Classifier.to_categorical.
  rewrite decide_False by lia.
  change (mret num_classes ≫= ?f) with (f num_classes). cbv beta.
  rewrite <- list_fmap_compose.
  replace (Classifier.astype_int64 ∘ inject_Z <$> y) with y.
  2:{ rewrite <- (list_fmap_id y) at 1. apply list_fmap_ext.
      intros _ v _. simpl. by rewrite astype_int64_inject_Z. }
  rewrite (for_each_fmap_Ok _
             (λ v, <[Z.to_nat v := 1%Q]> (Np.zeros num_classes))).
  - reflexivity.
  - eapply Forall_impl; [exact Hall|]. intros v Hv.
    by apply one_hot_row_in_range.
Qed.

Lemma argmax_axis1_one_hot (y : list Z) (num_classes : nat) :
  0 < num_classes →
  Forall (λ v, (0 ≤ v < Z.of_nat num_classes)%Z) y →
  Classifier.argmax_axis1
    (Np.mk_ndarray2 (length y) num_classes
       ((λ v, <[Z.to_nat v := 1%Q]> (Np.zeros num_classes)) <$> y))
  = Ok (Z.to_nat <$> y).
Proof.
  intros Hpos Hall. unfold Classifier.argmax_axis1. simpl.
  rewrite decide_False by lia.
  rewrite for_each_fmap, (for_each_fmap_Ok _ Z.to_nat); [done|].
  eapply Forall_impl; [exact Hall|]. intros v Hv. simpl in *.
  apply argmax_one_hot. lia.
Qed.

(** C5 (amended): for a non-empty vector of integer labels that all lie in
    [0, C), C being the number of distinct labels as the notebook computes
    it, [to_categorical] returns the matrix of one-hot rows and the arg-max
    along axis 1 returns the labels again. *)
Theorem encode_decode_round_trip (y : list Z) :
  y ≠ [] →
  Forall (λ v, (0 ≤ v < Z.of_nat (Classifier.output_classes (inject_Z <$> y)))%Z) y →
  ∃ (y_categorical : Np.ndarray2) (decoded : list nat),
    Classifier.to_categorical (inject_Z <$> y)
      (Classifier.output_classes (inject_Z <$> y)) = Ok y_categorical ∧
    Np.rows y_categorical =
      (λ v, <[Z.to_nat v := 1%Q]>
              (Np.zeros (Classifier.output_classes (inject_Z <$> y)))) <$> y ∧
    Classifier.argmax_axis1 y_categorical = Ok decoded ∧
    Classifier.encode_decode (inject_Z <$> y) = Ok decoded ∧
    Z.of_nat <$> decoded = y.
Proof.
  intros Hne Hall.
  set (C := Classifier.output_classes (inject_Z <$> y)) in *.
  assert (Hpos : 0 < C).
  { destruct y as [|v y]; [done|]. apply Forall_cons_1 in Hall as [Hv _]. lia. }
  eexists. exists (Z.to_nat <$> y).
  split; [by apply to_categorical_in_range|].
  split; [reflexivity|].
  split; [by apply argmax_axis1_one_hot|].
  split.
  - unfold Classifier.encode_decode. fold C.
    rewrite to_categorical_in_range by done.
    by apply argmax_axis1_one_hot.
  - rewrite <- list_fmap_compose. rewrite <- (list_fmap_id y) at 2.
    apply Forall_fmap_ext_1. eapply Forall_impl; [exact Hall|].
    intros v Hv. simpl in *. lia.
Qed.

Lemma encode_decode_round_trip_witness :
  ([0; 2; 1; 1]%Z ≠ [] ∧
   Forall (λ v, (0 ≤ v < Z.of_nat
                   (Classifier.output_classes (inject_Z <$> [0; 2; 1; 1]%Z)))%Z)
     [0; 2; 1; 1]%Z) ∧
  ∃ (y_categorical : Np.ndarray2) (decoded : list nat),
    Classifier.to_categorical (inject_Z <$> [0; 2; 1; 1]%Z)
      (Classifier.output_classes (inject_Z <$> [0; 2; 1; 1]%Z)) = Ok y_categorical ∧
    Np.rows y_categorical =
      (λ v, <[Z.to_nat v := 1%Q]>
              (Np.zeros (Classifier.output_classes (inject_Z <$> [0; 2; 1; 1]%Z))))
        <$> [0; 2; 1; 1]%Z ∧
    Classifier.argmax_axis1 y_categorical = Ok decoded ∧
    Classifier.encode_decode (inject_Z <$> [0; 2; 1; 1]%Z) = Ok decoded ∧
    Z.of_nat <$> decoded = [0; 2; 1; 1]%Z.
Proof.
  assert (Hrange :
    Forall (λ v, (0 ≤ v < Z.of_nat
                    (Classifier.output_classes (inject_Z <$> [0; 2; 1; 1]%Z)))%Z)
      [0; 2; 1; 1]%Z)
    by (repeat constructor; vm_compute; congruence).
  split; [split; [discriminate | exact Hrange]|].
  apply (encode_decode_round_trip [0; 2; 1; 1]%Z); [discriminate | exact Hrange].
Defined.

Example encode_decode_ex :
  Classifier.encode_decode (inject_Z <$> [0; 2; 1; 1]%Z) = Ok [0; 2; 1; 1].
Proof. reflexivity. Qed.

(** C5 as stated fails for the empty label vector: it has no distinct label,
    [to_categorical] reads the class count 0 as not given and asks for the
    maximum of an empty array, which raises ValueError. *)
Lemma encode_decode_empty_raises :
  Classifier.output_classes (inject_Z <$> []) = 0 ∧
  Classifier.to_categorical (inject_Z <$> []) 0 = Raise ValueError ∧
  Classifier.encode_decode (inject_Z <$> []) = Raise ValueError ∧
  ¬ ∃ decoded, Classifier.encode_decode (inject_Z <$> []) = Ok decoded.
Proof.
  split; [reflexivity|]. split; [reflexivity|]. split; [reflexivity|].
  intros [decoded H]. discriminate H.
Qed.

(** ** Features, labels and the output layer *)

Lemma take_snoc_nth (row : list Q) (k : nat) :
  length row = S k → take k row ++ [nth k row 0%Q] = row.
Proof.
  revert k. induction row as [|x row IH]; intros k Hlen; [done|].
  destruct k as [|k]; simpl in *.
  - destruct row; [done|discriminate].
  - f_equal. apply IH. lia.
Qed.

Lemma nth_take_lt (row : list Q) (j k : nat) :
  j < k → nth j (take k row) 0%Q = nth j row 0%Q.
Proof.
  revert j k. induction row as [|x row IH]; intros j k Hjk.
  - by rewrite take_nil.
  - destruct k as [|k]; [lia|]. destruct j as [|j]; [done|].
    simpl. apply IH. lia.
Qed.

Lemma insert_unique_elem_of (x c : Q) (l : list Q) :
  c ∈ Classifier.insert_unique x l → c = x ∨ c ∈ l.
Proof.
  induction l as [|h t IH]; simpl.
  - intros Hc. apply list_elem_of_singleton in Hc. by left.
  - destruct (Np.Qltb x h); [|destruct (Qeq_bool x h)].
    + intros Hc. apply elem_of_cons in Hc as [->|Hc]; [by left|by right].
    + by right.
    + intros Hc. apply elem_of_cons in Hc as [->|Hc]; [right; left|].
      destruct (IH Hc) as [->|Ht]; [by left|right; by right].
Qed.

Lemma insert_unique_covers (x v : Q) (l : list Q) :
  (v = x ∨ ∃ c, c ∈ l ∧ (c == v)%Q) →
  ∃ c, c ∈ Classifier.insert_unique x l ∧ (c == v)%Q.
Proof.
  induction l as [|h t IH]; simpl.
  - intros [->|(c & Hc & _)]; [|by apply elem_of_nil in Hc].
    exists x. split; [left|reflexivity].
  - destruct (Np.Qltb x h) eqn:Hlt; [|destruct (Qeq_bool x h) eqn:Heq].
    + intros [->|(c & Hc & Hcv)].
      * exists x. split; [left|reflexivity].
      * exists c. split; [by right|done].
    + apply Qeq_bool_iff in Heq.
      intros [->|(c & Hc & Hcv)].
      * exists h. split; [left|by symmetry].
      * exists c. split; done.
    + intros [->|(c & Hc & Hcv)].
      * destruct IH as (c & Hc & Hcx); [by left|].
        exists c. split; [by right|done].
      * apply elem_of_cons in Hc as [->|Hc].
        -- exists h. split; [left|done].
        -- destruct IH as (c' & Hc' & Hcx); [right; eauto|].
           exists c'. split; [by right|done].
Qed.

Lemma insert_unique_sorted (x : Q) (l : list Q) :
  StronglySorted Qlt l → StronglySorted Qlt (Classifier.insert_unique x l).
Proof.
  induction 1 as [|h t Hsorted IH Hall]; simpl.
  - repeat constructor.
  - destruct (Np.Qltb x h) eqn:Hlt; [|destruct (Qeq_bool x h) eqn:Heq].
    + apply Qltb_true in Hlt. constructor; [by constructor|].
      constructor; [done|]. eapply Forall_impl; [exact Hall|].
      intros c Hc. simpl in *. by eapply Qlt_trans.
    + by constructor.
    + apply Qltb_false in Hlt.
      assert (Hhx : (h < x)%Q).
      { apply Qle_lt_or_eq in Hlt as [Hlt|Hhx]; [done|].
        exfalso. assert (Qeq_bool x h = true); [|congruence].
        apply Qeq_bool_iff. by symmetry. }
      constructor; [done|]. apply Forall_forall. intros c Hc.
      apply insert_unique_elem_of in Hc as [->|Hc]; [done|].
      rewrite Forall_forall in Hall. by apply Hall.
Qed.

Lemma unique_sorted (y : list Q) : StronglySorted Qlt (Classifier.unique y).
Proof.
  induction y as [|x y IH]; simpl; [constructor|].
  by apply insert_unique_sorted.
Qed.

Lemma unique_elem_of (y : list Q) (c : Q) : c ∈ Classifier.unique y → c ∈ y.
Proof.
  induction y as [|x y IH]; simpl; [done|]. intros Hc.
  apply insert_unique_elem_of in Hc as [->|Hc]; [left|right; by apply IH].
Qed.

Lemma unique_covers (y : list Q) (v : Q) :
  v ∈ y → ∃ c, c ∈ Classifier.unique y ∧ (c == v)%Q.
Proof.
  induction y as [|x y IH]; [intros Hv; by apply elem_of_nil in Hv|].
  intros Hv. simpl. apply insert_unique_covers.
  apply elem_of_cons in Hv as [->|Hv]; [by left|right; by apply IH].
Qed.

Lemma sorted_distinct (l : list Q) (i j : nat) (a b : Q) :
  StronglySorted Qlt l → l !! i = Some a → l !! j = Some b → (a == b)%Q → i = j.
Proof.
  intros Hsorted. revert i j.
  induction Hsorted as [|h t _ IH Hall]; intros i j Ha Hb Hab; [done|].
  rewrite Forall_forall in Hall.
  destruct i as [|i], j as [|j]; simpl in *.
  - done.
  - injection Ha as <-. exfalso.
    assert (h < b)%Q by (apply Hall, list_elem_of_lookup; eauto).
    rewrite Hab in H. by apply Qlt_irrefl in H.
  - injection Hb as <-. exfalso.
    assert (h < a)%Q by (apply Hall, list_elem_of_lookup; eauto).
    rewrite Hab in H. by apply Qlt_irrefl in H.
  - f_equal. by eapply IH.
Qed.

Example split_features_target_ex :
  Classifier.split_features_target
    (Np.mk_ndarray2 3 3
       [[8%Q; (1 # 2)%Q; 0%Q]; [9%Q; (3 # 2)%Q; 2%Q]; [7%Q; (5 # 2)%Q; 0%Q]])
  = Ok (Np.mk_ndarray2 3 2 [[8%Q; (1 # 2)%Q]; [9%Q; (3 # 2)%Q]; [7%Q; (5 # 2)%Q]],
        [0%Q; 2%Q; 0%Q]).
Proof. reflexivity. Qed.

Example output_classes_ex : Classifier.output_classes [0%Q; 2%Q; 0%Q] = 2.
Proof. reflexivity. Qed.

(** * Further properties of the notebooks' code *)

(** ** More on loops that may raise *)

Lemma for_each_raise_uniform {X Y : Type} (f : X → result Y) (xs : list X) (e : exn) :
  (∀ i x, xs !! i = Some x → (∃ y, f x = Ok y) ∨ f x = Raise e) →
  (∃ i x, xs !! i = Some x ∧ f x = Raise e) →
  for_each f xs = Raise e.
Proof.
  induction xs as [|x xs IH]; intros Hall (i & x' & Hx' & Hraise).
  - by destruct i.
  - simpl. destruct (Hall 0 x eq_refl) as [[y Hy]|Hy]; rewrite Hy; simpl; [|done].
    destruct i as [|i]; simpl in Hx'.
    + injection Hx' as ->. congruence.
    + rewrite IH; [done| |eauto]. intros j z Hz. by apply (Hall (S j)).
Qed.

Lemma for_each_Ok_length {X Y : Type} (f : X → result Y) (xs : list X) (ys : list Y) :
  for_each f xs = Ok ys → length ys = length xs.
Proof. intros H. by destruct (for_each_Ok_inv _ _ _ H). Qed.

(** ** [common_time_grid]: when it raises, and the array it rebuilds *)

(** X1: [common_time_grid] raises ValueError on the empty list of waveforms
    and returns normally on every other list, whatever [dt] is. *)
Theorem common_time_grid_Ok_iff (training_data : list (list Q)) (dt : Q) :
  Surrogate.common_time_grid [] dt = Raise ValueError ∧
  ((∃ r, Surrogate.common_time_grid training_data dt = Ok r) ↔ training_data ≠ []).
Proof.
  split; [reflexivity|]. split.
  - intros [r Hr] ->. discriminate Hr.
  - intros Hne. destruct (common_time_grid_columns training_data dt Hne) as (A & HA & _).
    eauto.
Qed.

Lemma nth_seq_rows (l : list (list Q)) :
  (λ j, nth j l []) <$> seq 0 (length l) = l.
Proof.
  apply list_eq. intros j. rewrite list_lookup_fmap.
  destruct (decide (j < length l)) as [Hj|Hj].
  - rewrite lookup_seq_lt by done. simpl.
    destruct (lookup_lt_is_Some_2 l j Hj) as [x Hx].
    rewrite Hx. f_equal. by apply nth_lookup_Some with (d := []) in Hx.
  - rewrite lookup_seq_ge by lia. simpl.
    symmetry. apply lookup_ge_None. lia.
Qed.

(** Two well-formed arrays of one shape with the same columns are equal. *)
Lemma ndarray2_ext (A B : Np.ndarray2) :
  wf_ndarray2 A → wf_ndarray2 B →
  Np.nrows A = Np.nrows B → Np.ncols A = Np.ncols B →
  (∀ i, i < Np.ncols A → Np.column A i = Np.column B i) →
  A = B.
Proof.
  destruct A as [ra ca rowsA], B as [rb cb rowsB].
  intros [HlenA HrowsA] [HlenB HrowsB] Hr Hc Hcol. simpl in *. subst rb cb.
  assert (rowsA = rowsB) as ->; [|by rewrite Hr].
  apply list_eq. intros k.
  destruct (rowsA !! k) as [a|] eqn:Ha, (rowsB !! k) as [b|] eqn:Hb.
  - f_equal.
    pose proof (Forall_lookup_1 _ _ _ _ HrowsA Ha) as Hla.
    pose proof (Forall_lookup_1 _ _ _ _ HrowsB Hb) as Hlb. simpl in *.
    rewrite <- (nth_seq_id a), <- (nth_seq_id b), Hla, Hlb.
    apply list_eq. intros i. rewrite !list_lookup_fmap.
    destruct (seq 0 ca !! i) as [j|] eqn:Hj; [|done]. simpl. f_equal.
    apply lookup_seq in Hj as [-> Hi]. simpl.
    specialize (Hcol i Hi). unfold Np.column in Hcol. simpl in Hcol.
    rewrite !decide_True in Hcol by done. injection Hcol as Hcol.
    assert (H1 : ((λ r, nth i r 0%Q) <$> rowsA) !! k = Some (nth i a 0%Q))
      by (by rewrite list_lookup_fmap, Ha).
    rewrite Hcol, list_lookup_fmap, Hb in H1. simpl in H1. congruence.
  - apply lookup_lt_Some in Ha. apply lookup_ge_None in Hb. lia.
  - apply lookup_lt_Some in Hb. apply lookup_ge_None in Ha. lia.
  - done.
Qed.

Lemma columns_is_Ok (A : Np.ndarray2) :
  for_each (Np.column A) (seq 0 (Np.ncols A))
  = Ok ((λ i, (λ r, nth i r 0%Q) <$> Np.rows A) <$> seq 0 (Np.ncols A)).
Proof.
  apply for_each_fmap_Ok, Forall_forall. intros i Hi.
  apply elem_of_seq in Hi. unfold Np.column. by rewrite decide_True by lia.
Qed.

Lemma common_time_grid_of_columns (A : Np.ndarray2) (dt : Q) (cols : list (list Q)) :
  wf_ndarray2 A → 0 < Np.ncols A →
  for_each (Np.column A) (seq 0 (Np.ncols A)) = Ok cols →
  Surrogate.common_time_grid cols dt
  = Ok ((λ k, (inject_Z (Z.of_nat k) * dt)%Q) <$> seq 0 (Np.nrows A), A).
Proof.
  intros Hwf Hcols Hfor.
  destruct (for_each_Ok_inv _ _ _ Hfor) as [Hlen Hlook].
  rewrite length_seq in Hlen.
  assert (Hcol : ∀ i, i < Np.ncols A →
            ∃ col, cols !! i = Some col ∧ Np.column A i = Ok col ∧
                   length col = Np.nrows A).
  { intros i Hi. destruct (Hlook i i) as (col & Hc & Hci); [by apply lookup_seq|].
    exists col. split; [done|]. split; [done|]. by eapply column_length. }
  assert (Hne : cols ≠ []) by (intros ->; simpl in Hlen; lia).
  assert (HL : max_list (length <$> cols) = Np.nrows A).
  { apply Nat.le_antisymm.
    - apply max_list_le_bound. intros x Hx.
      apply list_elem_of_lookup in Hx as [i Hx]. rewrite list_lookup_fmap in Hx.
      destruct (cols !! i) as [c|] eqn:Hc; [|done]. injection Hx as <-.
      pose proof (lookup_lt_Some _ _ _ Hc) as Hi. rewrite Hlen in Hi.
      destruct (Hcol i Hi) as (c' & Hc' & _ & Hl).
      assert (c = c') as -> by congruence. lia.
    - destruct (Hcol 0 Hcols) as (c & Hc & _ & Hl).
      apply max_list_elem_of_le, list_elem_of_lookup. exists 0.
      by rewrite list_lookup_fmap, Hc, <- Hl. }
  destruct (common_time_grid_columns cols dt Hne)
    as (B & Hgrid & HwfB & HrowsB & HcolsB & HcolB).
  cbv zeta in Hgrid, HrowsB, HcolB. rewrite HL in Hgrid, HrowsB, HcolB.
  rewrite Hgrid. do 2 f_equal. symmetry.
  apply ndarray2_ext; [done|done|done|by rewrite HcolsB, Hlen|].
  intros i Hi. destruct (Hcol i Hi) as (c & Hc & HAc & Hl).
  destruct (HcolB i c Hc) as (cb & Hcb & -> & _).
  rewrite HAc, Hcb. by rewrite Hl, Nat.sub_diag, app_nil_r.
Qed.

(** X2: the columns of a well-formed array with at least one column, handed
    to [common_time_grid] as a list of waveforms, give the array back: no
    padding is added and the time grid has one entry per row. *)
Theorem common_time_grid_rebuilds_array (A : Np.ndarray2) (dt : Q) :
  wf_ndarray2 A → 0 < Np.ncols A →
  ∃ cols,
    for_each (Np.column A) (seq 0 (Np.ncols A)) = Ok cols ∧
    length cols = Np.ncols A ∧
    Surrogate.common_time_grid cols dt
    = Ok ((λ k, (inject_Z (Z.of_nat k) * dt)%Q) <$> seq 0 (Np.nrows A), A).
Proof.
  intros Hwf Hcols. eexists. split; [apply columns_is_Ok|].
  split; [by rewrite length_fmap, length_seq|].
  apply common_time_grid_of_columns; [done|done|apply columns_is_Ok].
Qed.

Lemma common_time_grid_rebuilds_array_witness :
  let A := Np.mk_ndarray2 2 3 [[1%Q; 2%Q; 3%Q]; [4%Q; 5%Q; 6%Q]] in
  (wf_ndarray2 A ∧ 0 < Np.ncols A) ∧
  ∃ cols,
    for_each (Np.column A) (seq 0 (Np.ncols A)) = Ok cols ∧
    length cols = Np.ncols A ∧
    Surrogate.common_time_grid cols (1 # 10)
    = Ok ((λ k, (inject_Z (Z.of_nat k) * (1 # 10))%Q) <$> seq 0 (Np.nrows A), A).
Proof.
  assert (Hwf : wf_ndarray2
            (Np.mk_ndarray2 2 3 [[1%Q; 2%Q; 3%Q]; [4%Q; 5%Q; 6%Q]]))
    by (split; [reflexivity | repeat constructor]).
  cbv zeta. split; [split; [exact Hwf | simpl; lia]|].
  apply (common_time_grid_rebuilds_array
           (Np.mk_ndarray2 2 3 [[1%Q; 2%Q; 3%Q]; [4%Q; 5%Q; 6%Q]]) (1 # 10));
    [exact Hwf | simpl; lia].
Defined.

(** ** [get_peak] *)

(** X3: on a non-empty waveform [get_peak] finds the index of the first
    sample of largest absolute value; it returns that index, the entry of
    [t] there and the sample there, or raises IndexError when [t] has no
    such entry.  On the empty waveform it raises ValueError. *)
Theorem get_peak_cases (t h : list Q) :
  h ≠ [] →
  Surrogate.get_peak t [] = Raise ValueError ∧
  ∃ arg h_peak,
    is_first_argmax (Np.abs h) arg ∧
    h !! arg = Some h_peak ∧
    (∀ x, x ∈ h → (Qabs x <= Qabs h_peak)%Q) ∧
    Surrogate.get_peak t h =
      match t !! arg with
      | Some t_peak => Ok (arg, t_peak, h_peak)
      | None => Raise IndexError
      end.
Proof.
  intros Hne. split; [reflexivity|].
  destruct (argmax_first (Np.abs h)) as (arg & Harg & Hfirst).
  { unfold Np.abs. by destruct h. }
  pose proof (is_first_argmax_lt _ _ Hfirst) as Hlt.
  unfold Np.abs in Hlt. rewrite length_fmap in Hlt.
  destruct (lookup_lt_is_Some_2 h arg Hlt) as [hp Hhp].
  exists arg, hp. split; [done|]. split; [done|]. split.
  - intros x Hx. apply list_elem_of_lookup in Hx as [k Hk].
    destruct Hfirst as (v & Hv & Hle & _).
    unfold Np.abs in Hv, Hle. rewrite list_lookup_fmap, Hhp in Hv.
    injection Hv as <-. apply (Hle k). by rewrite list_lookup_fmap, Hk.
  - unfold Surrogate.get_peak, Np.item. rewrite Harg. simpl.
    destruct (t !! arg); simpl; [|done]. by rewrite Hhp.
Qed.

Lemma get_peak_cases_witness :
  [1%Q; -3%Q; 2%Q] ≠ [] ∧
  Surrogate.get_peak [0%Q; (1 # 10)%Q] [] = Raise ValueError ∧
  ∃ arg h_peak,
    is_first_argmax (Np.abs [1%Q; -3%Q; 2%Q]) arg ∧
    [1%Q; -3%Q; 2%Q] !! arg = Some h_peak ∧
    (∀ x, x ∈ [1%Q; -3%Q; 2%Q] → (Qabs x <= Qabs h_peak)%Q) ∧
    Surrogate.get_peak [0%Q; (1 # 10)%Q] [1%Q; -3%Q; 2%Q] =
      match [0%Q; (1 # 10)%Q] !! arg with
      | Some t_peak => Ok (arg, t_peak, h_peak)
      | None => Raise IndexError
      end.
Proof.
  split; [discriminate|].
  apply (get_peak_cases [0%Q; (1 # 10)%Q] [1%Q; -3%Q; 2%Q]). discriminate.
Defined.

(** ** [get_peaks] and [align_peaks] with a [num_train_samples] that is not
       the number of columns *)

Lemma align_peaks_prefix (g : Surrogate.globals) (t : list Q) (A : Np.ndarray2) :
  wf_ndarray2 A →
  0 < Np.nrows A →
  0 < Surrogate.num_train_samples g →
  Surrogate.num_train_samples g ≤ Np.ncols A →
  Np.nrows A ≤ length (Surrogate.times g) →
  ∃ (B : Np.ndarray2) (peaks : list nat) (min_peak : nat),
    Surrogate.align_peaks g t A = Ok B ∧
    wf_ndarray2 B ∧ Np.nrows B = Np.nrows A ∧
    Np.ncols B = Surrogate.num_train_samples g ∧
    length peaks = Surrogate.num_train_samples g ∧
    min_peak ∈ peaks ∧ (∀ p, p ∈ peaks → min_peak ≤ p) ∧
    ∀ i, i < Surrogate.num_train_samples g →
      ∃ col p,
        Np.column A i = Ok col ∧
        peaks !! i = Some p ∧
        is_first_argmax (Np.abs col) p ∧
        Np.column B i = Ok (drop (p - min_peak) col ++ replicate (p - min_peak) 0%Q) ∧
        is_first_argmax
          (Np.abs (drop (p - min_peak) col ++ replicate (p - min_peak) 0%Q)) min_peak.
Proof.
  intros Hwf Hrows Hpos Hn Htimes.
  apply align_peaks_columns; [done|done|done|done|].
  intros i col p _ Hcol Hfirst.
  pose proof (peak_index_lt_nrows A i col p Hwf Hcol Hfirst). lia.
Qed.

(** X4: for a well-formed array with at least one row, read with a
    [num_train_samples] that is positive and at most the number of columns
    (a stale, smaller global in particular) and with a global [times] that
    has an entry at the index of the first maximum of the absolute values of
    each of the first [num_train_samples] columns, [align_peaks] does not
    raise: it aligns the first [num_train_samples] columns among themselves
    and returns an array with only those columns; the later columns are
    dropped. *)
Theorem align_peaks_first_columns (g : Surrogate.globals) (t : list Q) (A : Np.ndarray2) :
  wf_ndarray2 A →
  0 < Np.nrows A →
  0 < Surrogate.num_train_samples g →
  Surrogate.num_train_samples g ≤ Np.ncols A →
  (∀ i col p, i < Surrogate.num_train_samples g →
     Np.column A i = Ok col → is_first_argmax (Np.abs col) p →
     p < length (Surrogate.times g)) →
  ∃ (B : Np.ndarray2) (peaks : list nat) (min_peak : nat),
    Surrogate.align_peaks g t A = Ok B ∧
    wf_ndarray2 B ∧ Np.nrows B = Np.nrows A ∧
    Np.ncols B = Surrogate.num_train_samples g ∧
    length peaks = Surrogate.num_train_samples g ∧
    min_peak ∈ peaks ∧ (∀ p, p ∈ peaks → min_peak ≤ p) ∧
    ∀ i, i < Surrogate.num_train_samples g →
      ∃ col p,
        Np.column A i = Ok col ∧
        peaks !! i = Some p ∧
        is_first_argmax (Np.abs col) p ∧
        Np.column B i = Ok (drop (p - min_peak) col ++ replicate (p - min_peak) 0%Q) ∧
        is_first_argmax
          (Np.abs (drop (p - min_peak) col ++ replicate (p - min_peak) 0%Q)) min_peak.
Proof. apply align_peaks_columns. Qed.

Lemma align_peaks_first_columns_witness :
  let A := Np.mk_ndarray2 3 2 [[1%Q; 5%Q]; [-3%Q; 1%Q]; [2%Q; 0%Q]] in
  let g := Surrogate.mk_globals 1 [0%Q; (1 # 10)%Q] in
  (wf_ndarray2 A ∧ 0 < Np.nrows A ∧ 0 < Surrogate.num_train_samples g ∧
   Surrogate.num_train_samples g ≤ Np.ncols A ∧
   (∀ i col p, i < Surrogate.num_train_samples g →
      Np.column A i = Ok col → is_first_argmax (Np.abs col) p →
      p < length (Surrogate.times g))) ∧
  ∃ (B : Np.ndarray2) (peaks : list nat) (min_peak : nat),
    Surrogate.align_peaks g [] A = Ok B ∧
    wf_ndarray2 B ∧ Np.nrows B = Np.nrows A ∧
    Np.ncols B = Surrogate.num_train_samples g ∧
    length peaks = Surrogate.num_train_samples g ∧
    min_peak ∈ peaks ∧ (∀ p, p ∈ peaks → min_peak ≤ p) ∧
    ∀ i, i < Surrogate.num_train_samples g →
      ∃ col p,
        Np.column A i = Ok col ∧
        peaks !! i = Some p ∧
        is_first_argmax (Np.abs col) p ∧
        Np.column B i = Ok (drop (p - min_peak) col ++ replicate (p - min_peak) 0%Q) ∧
        is_first_argmax
          (Np.abs (drop (p - min_peak) col ++ replicate (p - min_peak) 0%Q)) min_peak.
Proof.
  assert (Hwf : wf_ndarray2
            (Np.mk_ndarray2 3 2 [[1%Q; 5%Q]; [-3%Q; 1%Q]; [2%Q; 0%Q]]))
    by (split; [reflexivity | repeat constructor]).
  assert (Htimes : ∀ i col p, i < 1 →
            Np.column (Np.mk_ndarray2 3 2 [[1%Q; 5%Q]; [-3%Q; 1%Q]; [2%Q; 0%Q]]) i
              = Ok col →
            is_first_argmax (Np.abs col) p → p < 2).
  { intros i col p Hi Hcol Hfirst.
    destruct i as [|i]; [|lia]. injection Hcol as <-.
    assert (is_first_argmax (Np.abs [1%Q; -3%Q; 2%Q]) 1) as H1
      by (by apply argmax_Ok_first).
    rewrite (is_first_argmax_unique _ _ _ Hfirst H1). lia. }
  cbv zeta. split.
  - split; [exact Hwf|]. split; [simpl; lia|]. split; [simpl; lia|].
    split; [simpl; lia | exact Htimes].
  - apply (align_peaks_first_columns
             (Surrogate.mk_globals 1 [0%Q; (1 # 10)%Q]) []
             (Np.mk_ndarray2 3 2 [[1%Q; 5%Q]; [-3%Q; 1%Q]; [2%Q; 0%Q]]));
      [exact Hwf | simpl; lia | simpl; lia | simpl; lia | exact Htimes].
Defined.

Example align_peaks_first_columns_ex :
  Surrogate.align_peaks
    (Surrogate.mk_globals 1 [0%Q; (1 # 10)%Q]) []
    (Np.mk_ndarray2 3 2 [[1%Q; 5%Q]; [-3%Q; 1%Q]; [2%Q; 0%Q]])
  = Ok (Np.mk_ndarray2 3 1 [[1%Q]; [-3%Q]; [2%Q]]).
Proof. reflexivity. Qed.

(** ** How [get_peaks] and [align_peaks] fail *)

(** X5: with [num_train_samples = 0] the loop of [get_peaks] does not run,
    [get_peaks] returns the empty list and [align_peaks] raises ValueError
    from [min] of an empty list, whatever the array and the times are. *)
Theorem align_peaks_no_samples (times0 t : list Q) (A : Np.ndarray2) :
  Surrogate.get_peaks (Surrogate.mk_globals 0 times0) t A = Ok [] ∧
  Surrogate.align_peaks (Surrogate.mk_globals 0 times0) t A = Raise ValueError.
Proof. split; reflexivity. Qed.

Lemma get_peaks_IndexError (g : Surrogate.globals) (t : list Q) (A : Np.ndarray2) :
  wf_ndarray2 A →
  0 < Np.nrows A →
  (∃ i, i < Surrogate.num_train_samples g ∧
        (Np.ncols A ≤ i ∨
         ∃ col p, Np.column A i = Ok col ∧ is_first_argmax (Np.abs col) p ∧
                  length (Surrogate.times g) ≤ p)) →
  Surrogate.get_peaks g t A = Raise IndexError.
Proof.
  intros Hwf Hrows (i & Hi & Hbad). unfold Surrogate.get_peaks.
  apply for_each_raise_uniform.
  - intros j x Hx. apply lookup_seq in Hx as [-> Hj]. simpl.
    destruct (decide (j < Np.ncols A)) as [Hjc|Hjc].
    + destruct (get_peaks_body_cases g A j Hwf Hrows Hjc) as (col & p & _ & _ & ->).
      case_decide; eauto.
    + right. unfold Np.column. by rewrite decide_False.
  - exists i, i. split; [by apply lookup_seq|].
    destruct Hbad as [Hge|(col & p & Hcol & Hfirst & Hshort)].
    + unfold Np.column. by rewrite decide_False by lia.
    + assert (Hic : i < Np.ncols A).
      { unfold Np.column in Hcol. by case_decide. }
      destruct (get_peaks_body_cases g A i Hwf Hrows Hic) as (col' & p' & Hcol' & Hfirst' & ->).
      assert (col' = col) as -> by congruence.
      assert (p' = p) as -> by (by eapply is_first_argmax_unique).
      by rewrite decide_False by lia.
Qed.

(** X6: when [num_train_samples] exceeds the number of columns of an array
    that has rows, [get_peaks] fails at the first missing column and both
    functions raise IndexError. *)
Theorem align_peaks_too_many_samples (g : Surrogate.globals) (t : list Q) (A : Np.ndarray2) :
  wf_ndarray2 A →
  0 < Np.nrows A →
  Np.ncols A < Surrogate.num_train_samples g →
  Surrogate.get_peaks g t A = Raise IndexError ∧
  Surrogate.align_peaks g t A = Raise IndexError.
Proof.
  intros Hwf Hrows Hn.
  assert (Surrogate.get_peaks g t A = Raise IndexError) as Hpeaks.
  { apply get_peaks_IndexError; [done|done|]. exists (Np.ncols A). split; [done|]. by left. }
  split; [done|]. unfold Surrogate.align_peaks. by rewrite Hpeaks.
Qed.

Lemma align_peaks_too_many_samples_witness :
  let A := Np.mk_ndarray2 1 2 [[1%Q; 2%Q]] in
  let g := Surrogate.mk_globals 401 [0%Q] in
  (wf_ndarray2 A ∧ 0 < Np.nrows A ∧ Np.ncols A < Surrogate.num_train_samples g) ∧
  Surrogate.get_peaks g [] A = Raise IndexError ∧
  Surrogate.align_peaks g [] A = Raise IndexError.
Proof.
  assert (Hwf : wf_ndarray2 (Np.mk_ndarray2 1 2 [[1%Q; 2%Q]]))
    by (split; [reflexivity | repeat constructor]).
  cbv zeta. split; [split; [exact Hwf | simpl; lia]|].
  apply (align_peaks_too_many_samples (Surrogate.mk_globals 401 [0%Q]) []
           (Np.mk_ndarray2 1 2 [[1%Q; 2%Q]]));
    [exact Hwf | simpl; lia | simpl; lia].
Defined.

(** X7: when the global [times] is too short to hold the peak index of one
    of the columns that are read, both functions raise IndexError, although
    [t_peak] is only printed. *)
Theorem align_peaks_short_times (g : Surrogate.globals) (t : list Q) (A : Np.ndarray2)
    (i : nat) (col : list Q) (p : nat) :
  wf_ndarray2 A →
  0 < Np.nrows A →
  i < Surrogate.num_train_samples g →
  Np.column A i = Ok col →
  is_first_argmax (Np.abs col) p →
  length (Surrogate.times g) ≤ p →
  Surrogate.get_peaks g t A = Raise IndexError ∧
  Surrogate.align_peaks g t A = Raise IndexError.
Proof.
  intros Hwf Hrows Hi Hcol Hfirst Hshort.
  assert (Surrogate.get_peaks g t A = Raise IndexError) as Hpeaks.
  { apply get_peaks_IndexError; [done|done|]. exists i. split; [done|].
    right. eauto. }
  split; [done|]. unfold Surrogate.align_peaks. by rewrite Hpeaks.
Qed.

Lemma align_peaks_short_times_witness :
  let A := Np.mk_ndarray2 2 1 [[1%Q]; [2%Q]] in
  let g := Surrogate.mk_globals 1 [0%Q] in
  (wf_ndarray2 A ∧ 0 < Np.nrows A ∧ 0 < Surrogate.num_train_samples g ∧
   Np.column A 0 = Ok [1%Q; 2%Q] ∧ is_first_argmax (Np.abs [1%Q; 2%Q]) 1 ∧
   length (Surrogate.times g) ≤ 1) ∧
  Surrogate.get_peaks g [0%Q; 1%Q] A = Raise IndexError ∧
  Surrogate.align_peaks g [0%Q; 1%Q] A = Raise IndexError.
Proof.
  assert (Hwf : wf_ndarray2 (Np.mk_ndarray2 2 1 [[1%Q]; [2%Q]]))
    by (split; [reflexivity | repeat constructor]).
  assert (Hfirst : is_first_argmax (Np.abs [1%Q; 2%Q]) 1).
  { exists 2%Q. split; [reflexivity|]. split.
    - intros [|[|k]] x; simpl; intros [= <-]; vm_compute; congruence.
    - intros [|k] x Hk; [|lia]. simpl. intros [= <-]. reflexivity. }
  cbv zeta. split.
  - split; [exact Hwf|]. split; [simpl; lia|]. split; [simpl; lia|].
    split; [reflexivity|]. split; [exact Hfirst | simpl; lia].
  - apply (align_peaks_short_times (Surrogate.mk_globals 1 [0%Q]) [0%Q; 1%Q]
             (Np.mk_ndarray2 2 1 [[1%Q]; [2%Q]]) 0 [1%Q; 2%Q] 1);
      [exact Hwf | simpl; lia | simpl; lia | reflexivity | exact Hfirst | simpl; lia].
Defined.

Lemma no_rows_raise_ValueError (g : Surrogate.globals) (t : list Q) (A : Np.ndarray2) :
  wf_ndarray2 A →
  Np.nrows A = 0 →
  0 < Np.ncols A →
  0 < Surrogate.num_train_samples g →
  Surrogate.get_peaks g t A = Raise ValueError ∧
  Surrogate.align_peaks g t A = Raise ValueError.
Proof.
  intros [Hlen _] Hrows Hcols Hn.
  assert (Surrogate.get_peaks g t A = Raise ValueError) as Hpeaks.
  { unfold Surrogate.get_peaks.
    destruct (Surrogate.num_train_samples g) as [|n]; [lia|].
    cbn [seq for_each]. unfold Np.column. rewrite decide_True by done.
    rewrite Hrows in Hlen. apply nil_length_inv in Hlen. by rewrite Hlen. }
  split; [done|]. unfold Surrogate.align_peaks. by rewrite Hpeaks.
Qed.

(** X8: on an array without rows, read with a positive [num_train_samples],
    both functions raise ValueError at the first column, because [np.argmax]
    refuses the empty column. *)
Theorem align_peaks_no_rows (g : Surrogate.globals) (t : list Q) (A : Np.ndarray2) :
  wf_ndarray2 A →
  Np.nrows A = 0 →
  0 < Np.ncols A →
  0 < Surrogate.num_train_samples g →
  Surrogate.get_peaks g t A = Raise ValueError ∧
  Surrogate.align_peaks g t A = Raise ValueError.
Proof. apply no_rows_raise_ValueError. Qed.

Lemma align_peaks_no_rows_witness :
  let A := Np.mk_ndarray2 0 3 [] in
  let g := Surrogate.mk_globals 3 [] in
  (wf_ndarray2 A ∧ Np.nrows A = 0 ∧ 0 < Np.ncols A ∧
   0 < Surrogate.num_train_samples g) ∧
  Surrogate.get_peaks g [] A = Raise ValueError ∧
  Surrogate.align_peaks g [] A = Raise ValueError.
Proof.
  assert (Hwf : wf_ndarray2 (Np.mk_ndarray2 0 3 []))
    by (split; [reflexivity | constructor]).
  cbv zeta. split; [split; [exact Hwf | simpl; repeat split; lia]|].
  apply (align_peaks_no_rows (Surrogate.mk_globals 3 []) [] (Np.mk_ndarray2 0 3 []));
    [exact Hwf | reflexivity | simpl; lia | simpl; lia].
Defined.

(** ** Aligning what is already aligned *)

Lemma align_peaks_same_peak (g : Surrogate.globals) (t : list Q) (A : Np.ndarray2)
    (p : nat) :
  wf_ndarray2 A →
  0 < Np.ncols A →
  Surrogate.num_train_samples g = Np.ncols A →
  p < length (Surrogate.times g) →
  (∀ i, i < Np.ncols A →
     ∃ col, Np.column A i = Ok col ∧ is_first_argmax (Np.abs col) p) →
  Surrogate.align_peaks g t A = Ok A.
Proof.
  intros Hwf Hcols Hn Htimes Hpeak.
  assert (Hrows : 0 < Np.nrows A).
  { destruct (Hpeak 0 Hcols) as (col & Hcol & Hfirst).
    pose proof (peak_index_lt_nrows A 0 col p Hwf Hcol Hfirst). lia. }
  destruct (align_peaks_columns g t A Hwf Hrows ltac:(lia) ltac:(lia))
    as (B & peaks & m & HB & HwfB & HrB & HcB & Hlen & Hm_in & _ & Hcolumns).
  { intros i col q Hi Hcol Hfirst. rewrite Hn in Hi.
    destruct (Hpeak i Hi) as (col' & Hcol' & Hfirst').
    assert (col' = col) as -> by congruence.
    by rewrite (is_first_argmax_unique _ _ _ Hfirst Hfirst'). }
  rewrite Hn in HcB, Hlen, Hcolumns.
  assert (Hall : ∀ i q, peaks !! i = Some q → q = p).
  { intros i q Hq. pose proof (lookup_lt_Some _ _ _ Hq) as Hi. rewrite Hlen in Hi.
    destruct (Hcolumns i Hi) as (col & q' & Hcol & Hq' & Hfirst & _).
    destruct (Hpeak i Hi) as (col' & Hcol' & Hfirst').
    assert (col' = col) as -> by congruence.
    assert (q' = q) as -> by congruence.
    by eapply is_first_argmax_unique. }
  assert (m = p) as ->.
  { apply list_elem_of_lookup in Hm_in as [i Hi]. by eapply Hall. }
  rewrite HB. f_equal. symmetry.
  apply ndarray2_ext; [done|done|done|done|].
  intros i Hi. destruct (Hcolumns i Hi) as (col & q & Hcol & Hq & _ & HBi & _).
  rewrite (Hall _ _ Hq) in HBi. rewrite Hcol, HBi.
  by rewrite Nat.sub_diag, drop_0, app_nil_r.
Qed.


(** X9: a well-formed array with at least one column whose columns all have
    the first maximum of their absolute values at one common row [p] is
    returned unchanged by [align_peaks], when [num_train_samples] is the
    number of its columns and the global [times] has an entry at index
    [p]. *)
Theorem align_peaks_keeps_aligned (g : Surrogate.globals) (t : list Q)
    (A : Np.ndarray2) (p : nat) :
  wf_ndarray2 A →
  0 < Np.ncols A →
  Surrogate.num_train_samples g = Np.ncols A →
  p < length (Surrogate.times g) →
  (∀ i, i < Np.ncols A →
     ∃ col, Np.column A i = Ok col ∧ is_first_argmax (Np.abs col) p) →
  Surrogate.align_peaks g t A = Ok A.
Proof. apply align_peaks_same_peak. Qed.

Lemma align_peaks_keeps_aligned_witness :
  let A := Np.mk_ndarray2 2 2 [[1%Q; -1%Q]; [2%Q; -4%Q]] in
  let g := Surrogate.mk_globals 2 [0%Q; (1 # 10)%Q] in
  (wf_ndarray2 A ∧ 0 < Np.ncols A ∧
   Surrogate.num_train_samples g = Np.ncols A ∧
   1 < length (Surrogate.times g) ∧
   (∀ i, i < Np.ncols A →
      ∃ col, Np.column A i = Ok col ∧ is_first_argmax (Np.abs col) 1)) ∧
  Surrogate.align_peaks g [] A = Ok A.
Proof.
  assert (Hwf : wf_ndarray2 (Np.mk_ndarray2 2 2 [[1%Q; -1%Q]; [2%Q; -4%Q]]))
    by (split; [reflexivity | repeat constructor]).
  assert (Hpeak : ∀ i, i < 2 →
            ∃ col, Np.column (Np.mk_ndarray2 2 2 [[1%Q; -1%Q]; [2%Q; -4%Q]]) i = Ok col ∧
                   is_first_argmax (Np.abs col) 1).
  { intros [|[|i]] Hi; [| |lia].
    - eexists. split; [reflexivity|]. by apply argmax_Ok_first.
    - eexists. split; [reflexivity|]. by apply argmax_Ok_first. }
  cbv zeta. split.
  - split; [exact Hwf|]. split; [simpl; lia|]. split; [reflexivity|].
    split; [simpl; lia | exact Hpeak].
  - apply (align_peaks_keeps_aligned
             (Surrogate.mk_globals 2 [0%Q; (1 # 10)%Q]) []
             (Np.mk_ndarray2 2 2 [[1%Q; -1%Q]; [2%Q; -4%Q]]) 1);
      [exact Hwf | simpl; lia | reflexivity | simpl; lia | exact Hpeak].
Defined.



(** ** Generating, padding and aligning the training set *)

Lemma linspace_lookup (start stop : Q) (num k : nat) :
  k < num →
  Surrogate.linspace start stop num !! k
  = Some (inject_Z (Z.of_nat k)
          * ((stop - start) / inject_Z (Z.of_nat (num - 1))) + start)%Q.
Proof.
  intros Hk. unfold Surrogate.linspace, Np.arange.
  rewrite list_lookup_fmap, lookup_seq_lt by done. reflexivity.
Qed.

Lemma linspace_length (start stop : Q) (num : nat) :
  length (Surrogate.linspace start stop num) = num.
Proof. unfold Surrogate.linspace, Np.arange. by rewrite length_fmap, length_seq. Qed.

Lemma inject_Z_of_nat_le (a b : nat) :
  a ≤ b → (inject_Z (Z.of_nat a) <= inject_Z (Z.of_nat b))%Q.
Proof. intros H. rewrite <- Zle_Qle. lia. Qed.

Lemma inject_Z_of_nat_lt (a b : nat) :
  a < b → (inject_Z (Z.of_nat a) < inject_Z (Z.of_nat b))%Q.
Proof. intros H. rewrite <- Zlt_Qlt. lia. Qed.

Lemma linspace_step_pos (start stop : Q) (num : nat) :
  (start < stop)%Q → 1 < num →
  (0 < (stop - start) / inject_Z (Z.of_nat (num - 1)))%Q.
Proof.
  intros Hlt Hnum. apply Qlt_shift_div_l.
  - change 0%Q with (inject_Z (Z.of_nat 0)). apply inject_Z_of_nat_lt. lia.
  - lra.
Qed.

Lemma linspace_step_total (start stop : Q) (num : nat) :
  1 < num →
  (inject_Z (Z.of_nat (num - 1))
   * ((stop - start) / inject_Z (Z.of_nat (num - 1))) == stop - start)%Q.
Proof.
  intros Hnum. apply Qmult_div_r.
  intros Heq. assert (0 < inject_Z (Z.of_nat (num - 1)))%Q as Hpos.
  { change 0%Q with (inject_Z (Z.of_nat 0)). apply inject_Z_of_nat_lt. lia. }
  rewrite Heq in Hpos. by apply Qlt_irrefl in Hpos.
Qed.

Lemma linspace_bounds (start stop : Q) (num : nat) (q : Q) :
  (start < stop)%Q → q ∈ Surrogate.linspace start stop num →
  (start <= q <= stop)%Q.
Proof.
  intros Hlt Hq. apply list_elem_of_lookup in Hq as [k Hk].
  pose proof (lookup_lt_Some _ _ _ Hk) as Hknum. rewrite linspace_length in Hknum.
  rewrite linspace_lookup in Hk by done. injection Hk as <-.
  destruct (decide (num = 1)) as [->|Hne].
  - assert (k = 0) as -> by lia.
    change (inject_Z (Z.of_nat 0)) with 0%Q.
    generalize ((stop - start) / inject_Z (Z.of_nat (1 - 1)))%Q. intros s. lra.
  - pose proof (linspace_step_pos start stop num Hlt ltac:(lia)) as Hstep.
    pose proof (linspace_step_total start stop num ltac:(lia)) as Htotal.
    set (step := ((stop - start) / inject_Z (Z.of_nat (num - 1)))%Q) in *.
    assert (0 <= inject_Z (Z.of_nat k) * step)%Q as H0.
    { apply Qmult_le_0_compat; [|lra].
      change 0%Q with (inject_Z (Z.of_nat 0)). apply inject_Z_of_nat_le. lia. }
    assert (inject_Z (Z.of_nat k) * step
            <= inject_Z (Z.of_nat (num - 1)) * step)%Q as H1.
    { apply Qmult_le_compat_r; [|lra]. apply inject_Z_of_nat_le. lia. }
    lra.
Qed.

Lemma linspace_increasing (start stop : Q) (num i j : nat) (qi qj : Q) :
  (start < stop)%Q → i < j →
  Surrogate.linspace start stop num !! i = Some qi →
  Surrogate.linspace start stop num !! j = Some qj →
  (qi < qj)%Q.
Proof.
  intros Hlt Hij Hi Hj.
  pose proof (lookup_lt_Some _ _ _ Hj) as Hjnum. rewrite linspace_length in Hjnum.
  rewrite linspace_lookup in Hi, Hj by lia.
  injection Hi as <-. injection Hj as <-.
  pose proof (linspace_step_pos start stop num Hlt ltac:(lia)) as Hstep.
  set (step := ((stop - start) / inject_Z (Z.of_nat (num - 1)))%Q) in *.
  assert (inject_Z (Z.of_nat i) * step < inject_Z (Z.of_nat j) * step)%Q.
  { apply Qmult_lt_compat_r; [done|]. by apply inject_Z_of_nat_lt. }
  lra.
Qed.

Section GeneratorProperties.
Variable NRSur7dq4_22_nonspinning : Q → Q → list Q * list Q.

(** X11: [training_set_generator] returns [N] mass ratios and [N] waveforms;
    the mass ratios lie in [1, 2], increase strictly, start at 1 and, for
    [N ≥ 2], end at 2; waveform [i] is the amplitude the surrogate interface
    returns for mass ratio [i]. *)
Theorem training_set_generator_samples (N : nat) (dt : Q) :
  let qs := fst (Surrogate.training_set_generator NRSur7dq4_22_nonspinning N dt) in
  let training_data :=
    snd (Surrogate.training_set_generator NRSur7dq4_22_nonspinning N dt) in
  length qs = N ∧
  length training_data = N ∧
  (∀ q, q ∈ qs → (1 <= q <= 2)%Q) ∧
  (∀ i j qi qj, i < j → qs !! i = Some qi → qs !! j = Some qj → (qi < qj)%Q) ∧
  (∀ q, qs !! 0 = Some q → (q == 1)%Q) ∧
  (∀ q, 1 < N → qs !! (N - 1) = Some q → (q == 2)%Q) ∧
  (∀ i q, qs !! i = Some q →
     training_data !! i = Some (snd (NRSur7dq4_22_nonspinning q dt))).
Proof.
  cbv zeta. unfold Surrogate.training_set_generator. simpl.
  split; [apply linspace_length|].
  split; [by rewrite length_fmap, linspace_length|].
  split; [intros q; by apply linspace_bounds|].
  split; [intros i j qi qj; by apply linspace_increasing|].
  split; [|split].
  - intros q Hq. pose proof (lookup_lt_Some _ _ _ Hq) as Hlt.
    rewrite linspace_length in Hlt. rewrite linspace_lookup in Hq by done.
    injection Hq as <-. change (inject_Z (Z.of_nat 0)) with 0%Q.
    generalize ((2 - 1) / inject_Z (Z.of_nat (N - 1)))%Q. intros s. lra.
  - intros q HN Hq. rewrite linspace_lookup in Hq by lia. injection Hq as <-.
    pose proof (linspace_step_total 1 2 N HN). lra.
  - intros i q Hq. rewrite list_lookup_fmap, Hq. simpl.
    by destruct (NRSur7dq4_22_nonspinning q dt).
Qed.

End GeneratorProperties.

Section AlignedTrainingCell.
Variable NRSur7dq4_22_nonspinning : Q → Q → list Q * list Q.

(** X12: the cell that generates, pads and aligns [N] waveforms returns
    normally exactly when [N ≥ 1] and at least one generated waveform has a
    sample; in every other case it raises ValueError.  When it returns, it
    yields the [N] mass ratios of the generator, the time grid of [L]
    entries and a well-formed array of [L] rows and [N] columns, [L] being
    the longest waveform length.  The array is aligned: with [p] the index
    of the first maximum of the absolute values of a waveform and [min_peak]
    the smallest such index, which some waveform has, column [i] is
    waveform [i], padded with zeros to [L] entries, without its first
    [p - min_peak] entries and followed by as many zeros, and the first
    maximum of its absolute values is at row [min_peak]. *)
Theorem aligned_training_cell_cases (N : nat) :
  let data :=
    snd (Surrogate.training_set_generator NRSur7dq4_22_nonspinning N
           Surrogate.default_dt) in
  let L := max_list (length <$> data) in
  let padded := λ h : list Q, h ++ replicate (L - length h) 0%Q in
  if decide (0 < N ∧ 0 < L)
  then ∃ q times B min_peak,
         Surrogate.aligned_training_cell NRSur7dq4_22_nonspinning N
           = Ok (q, times, B) ∧
         q = fst (Surrogate.training_set_generator NRSur7dq4_22_nonspinning N
                    Surrogate.default_dt) ∧
         times = (λ k, (inject_Z (Z.of_nat k) * Surrogate.default_dt)%Q)
                   <$> seq 0 L ∧
         length q = N ∧ length times = L ∧
         wf_ndarray2 B ∧ Np.nrows B = L ∧ Np.ncols B = N ∧
         (∃ i h, data !! i = Some h ∧
                 is_first_argmax (Np.abs (padded h)) min_peak) ∧
         ∀ i h, data !! i = Some h →
           ∃ p, is_first_argmax (Np.abs (padded h)) p ∧
                min_peak ≤ p ∧
                Np.column B i
                  = Ok (drop (p - min_peak) (padded h)
                        ++ replicate (p - min_peak) 0%Q) ∧
                is_first_argmax
                  (Np.abs (drop (p - min_peak) (padded h)
                           ++ replicate (p - min_peak) 0%Q)) min_peak
  else Surrogate.aligned_training_cell NRSur7dq4_22_nonspinning N
         = Raise ValueError.
Proof.
  cbv zeta. unfold Surrogate.aligned_training_cell, Surrogate.training_set_generator.
  cbn [fst snd].
  set (qs := Surrogate.linspace 1 2 N).
  set (data := (λ q, let '(_, h) := NRSur7dq4_22_nonspinning q Surrogate.default_dt in h)
                 <$> qs).
  assert (Hlen : length data = N)
    by (unfold data, qs; by rewrite length_fmap, linspace_length).
  destruct (decide (N = 0)) as [->|HN].
  - rewrite decide_False by lia. reflexivity.
  - assert (Hne : data ≠ []) by (intros Hd; rewrite Hd in Hlen; simpl in Hlen; lia).
    destruct (common_time_grid_columns data Surrogate.default_dt Hne)
      as (A & Hgrid & HwfA & HrA & HcA & HcolA).
    cbv zeta in Hgrid, HrA, HcolA. rewrite Hgrid.
    change (Ok ?x ≫= ?f) with (f x). cbv beta iota.
    set (times := (λ k, (inject_Z (Z.of_nat k) * Surrogate.default_dt)%Q)
                    <$> seq 0 (max_list (length <$> data))) in *.
    assert (Htimes : length times = max_list (length <$> data))
      by (unfold times; by rewrite length_fmap, length_seq).
    case_decide as Hcase.
    + destruct Hcase as [_ HL].
      destruct (align_peaks_prefix (Surrogate.mk_globals N times) times A)
        as (B & peaks & m & HB & HwfB & HrB & HcB & Hpeaks & Hm_in & Hm_le & Hcolumns);
        simpl; try lia; [done|].
      rewrite HB. exists qs, times, B, m.
      cbn [Surrogate.num_train_samples] in HcB, Hpeaks, Hcolumns.
      split; [done|]. split; [done|]. split; [done|].
      split; [apply linspace_length|]. split; [done|].
      split; [done|]. split; [lia|]. split; [done|].
      assert (Hcol : ∀ i h, data !! i = Some h →
                ∃ p, peaks !! i = Some p ∧
                     is_first_argmax
                       (Np.abs (h ++ replicate
                                       (max_list (length <$> data) - length h) 0%Q)) p ∧
                     Np.column B i
                       = Ok (drop (p - m)
                               (h ++ replicate
                                       (max_list (length <$> data) - length h) 0%Q)
                             ++ replicate (p - m) 0%Q) ∧
                     is_first_argmax
                       (Np.abs (drop (p - m)
                                  (h ++ replicate
                                          (max_list (length <$> data) - length h) 0%Q)
                                ++ replicate (p - m) 0%Q)) m).
      { intros i h Hh. destruct (HcolA i h Hh) as (col & HAi & -> & _).
        pose proof (lookup_lt_Some _ _ _ Hh) as Hi. rewrite Hlen in Hi.
        destruct (Hcolumns i Hi) as (col' & p & HAi' & Hp & Hfirst & HBi & Hshift).
        assert (col' = h ++ replicate (max_list (length <$> data) - length h) 0%Q)
          as -> by congruence.
        exists p. by repeat split. }
      split.
      * apply list_elem_of_lookup in Hm_in as [i Hi].
        pose proof (lookup_lt_Some _ _ _ Hi) as Hilt. rewrite Hpeaks, <- Hlen in Hilt.
        destruct (lookup_lt_is_Some_2 _ _ Hilt) as [h Hh].
        destruct (Hcol i h Hh) as (p & Hp & Hfirst & _).
        exists i, h. split; [done|]. by replace m with p by congruence.
      * intros i h Hh. destruct (Hcol i h Hh) as (p & Hp & Hfirst & HBi & Hshift).
        exists p. split; [done|]. split; [|by split].
        apply Hm_le, list_elem_of_lookup. eauto.
    + destruct (no_rows_raise_ValueError (Surrogate.mk_globals N times) times A)
        as [_ HB]; simpl; try lia; [done|].
      by rewrite HB.
Qed.

End AlignedTrainingCell.

(** ** The assertion on the iteration sizes *)

Lemma append_sizes_cell_closed (len_q_train : Z) :
  Surrogate.append_sizes_cell len_q_train
  = if decide (240 ≤ len_q_train < 250)%Z then Ok (replicate 10 24%Z)
    else Raise AssertionError.
Proof.
  unfold Surrogate.append_sizes_cell, Surrogate.make_append_sizes,
    Surrogate.floor_div, Surrogate.num_iterations, Surrogate.list_times.
  rewrite decide_False by lia.
  change (Ok ?x ≫= ?f) with (f x). cbv beta.
  change (mret ?x ≫= ?f) with (f x). cbv beta.
  rewrite np_sum_replicate.
  pose proof (Z.div_mod len_q_train 10 ltac:(lia)) as Hdiv.
  pose proof (Z.mod_pos_bound len_q_train 10 ltac:(lia)) as Hmod.
  change (Z.of_nat (Z.to_nat 10)) with 10%Z.
  destruct (decide (240 ≤ len_q_train < 250)%Z) as [Hin|Hout].
  - assert (len_q_train `div` 10 = 24)%Z as -> by lia.
    by rewrite decide_True by lia.
  - rewrite decide_False; [done|]. lia.
Qed.

(** X13: the cell that builds [append_sizes] passes its assertion exactly for
    training sets of 240 to 249 samples, and then always yields ten sizes of
    24; for every other length it raises AssertionError. *)
Theorem append_sizes_cell_accepts (len_q_train : Z) :
  Surrogate.append_sizes_cell len_q_train
  = if decide (240 ≤ len_q_train < 250)%Z then Ok (replicate 10 24%Z)
    else Raise AssertionError.
Proof. apply append_sizes_cell_closed. Qed.

(** ** The sizes of the training, validation and test sets *)

Lemma train_test_split_sizes_ceil (n : nat) (num : positive) :
  Surrogate.train_test_split_sizes n (Z.pos num # 10)
  = (n - Z.to_nat (Z.opp (Z.div (Z.opp (Z.of_nat n * Z.pos num)) 10)),
     Z.to_nat (Z.opp (Z.div (Z.opp (Z.of_nat n * Z.pos num)) 10))).
Proof. reflexivity. Qed.

(** X14: the splitting cell succeeds exactly for 3 or more samples.  The
    three sizes it prints then add up to the number of samples, none of them
    is 0, the validation set has as many samples as the test set or one
    more, and the two together are the smallest number that is at least 40%
    of the samples.  For fewer samples [train_test_split] raises ValueError. *)
Theorem split_cell_sizes_cases (n : nat) :
  if decide (3 ≤ n)
  then ∃ n_train n_validation n_test,
         Surrogate.split_cell_sizes n = Ok (n_train, n_validation, n_test) ∧
         n_train + n_validation + n_test = n ∧
         0 < n_train ∧ 0 < n_test ∧
         n_test ≤ n_validation ≤ n_test + 1 ∧
         4 * n ≤ 10 * (n_validation + n_test) < 4 * n + 10
  else Surrogate.split_cell_sizes n = Raise ValueError.
Proof.
  unfold Surrogate.split_cell_sizes, Surrogate.train_test_split_checked.
  rewrite (train_test_split_sizes_ceil n 4).
  pose proof (Z.div_mod (- (Z.of_nat n * 4)) 10 ltac:(lia)) as Hd1.
  pose proof (Z.mod_pos_bound (- (Z.of_nat n * 4)) 10 ltac:(lia)) as Hm1.
  set (k := Z.to_nat (Z.opp (Z.div (Z.opp (Z.of_nat n * 4)) 10))) in *.
  assert (Hk : Z.of_nat k = Z.opp (Z.div (Z.opp (Z.of_nat n * 4)) 10))
    by (unfold k; lia).
  cbv beta iota zeta.
  destruct (decide (n - k = 0)) as [H0|H0].
  - rewrite decide_False by lia. done.
  - change (Ok ?x ≫= ?f) with (f x). cbv beta iota.
    rewrite (train_test_split_sizes_ceil k 5).
    pose proof (Z.div_mod (- (Z.of_nat k * 5)) 10 ltac:(lia)) as Hd2.
    pose proof (Z.mod_pos_bound (- (Z.of_nat k * 5)) 10 ltac:(lia)) as Hm2.
    set (j := Z.to_nat (Z.opp (Z.div (Z.opp (Z.of_nat k * 5)) 10))) in *.
    assert (Hj : Z.of_nat j = Z.opp (Z.div (Z.opp (Z.of_nat k * 5)) 10))
      by (unfold j; lia).
    cbv beta iota zeta.
    destruct (decide (k - j = 0)) as [H1|H1].
    + rewrite decide_False by lia. done.
    + change (Ok ?x ≫= ?f) with (f x). cbv beta iota.
      rewrite decide_True by lia.
      exists (n - k), j, (k - j). split; [done|]. lia.
Qed.

Example split_cell_sizes_401 :
  Surrogate.split_cell_sizes 401 = Ok (240, 81, 80).
Proof. reflexivity. Qed.

(** ** Reshaping the empirical-interpolation data *)

Lemma chunks_concat (c : nat) (rows : list (list Q)) :
  Forall (λ r, length r = c) rows →
  Np.chunks c (length rows) (concat rows) = rows.
Proof.
  induction 1 as [|r rows Hr _ IH]; [done|].
  cbn [length Np.chunks concat].
  rewrite take_app_length' by done. rewrite drop_app_length' by done.
  by rewrite IH.
Qed.

Lemma concat_chunks (c n : nat) (l : list Q) :
  length l = n * c → concat (Np.chunks c n l) = l.
Proof.
  revert l. induction n as [|n IH]; intros l Hl.
  - by destruct l.
  - cbn [Np.chunks concat]. rewrite IH; [apply take_drop|].
    rewrite length_drop. lia.
Qed.

Lemma chunks_shape (c n : nat) (l : list Q) :
  length l = n * c →
  length (Np.chunks c n l) = n ∧ Forall (λ r, length r = c) (Np.chunks c n l).
Proof.
  revert l. induction n as [|n IH]; intros l Hl; [by split|].
  cbn [Np.chunks]. destruct (IH (drop c l)) as [Hlen Hall].
  { rewrite length_drop. lia. }
  split; [simpl; by rewrite Hlen|].
  constructor; [|done]. rewrite length_take. lia.
Qed.

Lemma concat_length_wf (A : Np.ndarray2) :
  wf_ndarray2 A → length (concat (Np.rows A)) = Np.nrows A * Np.ncols A.
Proof.
  intros [Hlen Hrows]. rewrite <- Hlen. clear Hlen.
  induction Hrows as [|r rows Hr _ IH]; [done|].
  simpl. rewrite length_app, IH, Hr. done.
Qed.

Lemma reshape_eim_data_Ok (A : Np.ndarray2) :
  Surrogate.reshape_eim_data A
  = Ok (Np.mk_ndarray2 (Np.ncols A) (Np.nrows A)
          (Np.chunks (Np.nrows A) (Np.ncols A) (concat (Np.rows A)))).
Proof.
  unfold Surrogate.reshape_eim_data, Np.reshape.
  by rewrite decide_True by lia.
Qed.

(** X15: the reshape of the interpolation data never raises on a well-formed
    array; it swaps the two dimensions but keeps the entries in their
    row-major order, so it re-cuts the same sequence into rows of the other
    length, and applying it a second time gives the original array back. *)
Theorem reshape_eim_data_keeps_order (A : Np.ndarray2) :
  wf_ndarray2 A →
  ∃ B, Surrogate.reshape_eim_data A = Ok B ∧
       wf_ndarray2 B ∧
       Np.nrows B = Np.ncols A ∧ Np.ncols B = Np.nrows A ∧
       concat (Np.rows B) = concat (Np.rows A) ∧
       Surrogate.reshape_eim_data B = Ok A.
Proof.
  intros Hwf. pose proof (concat_length_wf A Hwf) as Hflat.
  eexists. split; [apply reshape_eim_data_Ok|].
  destruct (chunks_shape (Np.nrows A) (Np.ncols A) (concat (Np.rows A)))
    as [Hlen Hall]; [lia|].
  split; [by split|]. split; [done|]. split; [done|].
  assert (Hcc : concat (Np.chunks (Np.nrows A) (Np.ncols A) (concat (Np.rows A)))
                = concat (Np.rows A)) by (apply concat_chunks; lia).
  split; [done|].
  rewrite reshape_eim_data_Ok. cbn [Np.nrows Np.ncols Np.rows]. rewrite Hcc.
  destruct Hwf as [HlenA HrowsA]. rewrite <- HlenA at 2.
  rewrite chunks_concat by done. by destruct A.
Qed.

Lemma reshape_eim_data_keeps_order_witness :
  let A := Np.mk_ndarray2 2 3 [[1%Q; 2%Q; 3%Q]; [4%Q; 5%Q; 6%Q]] in
  wf_ndarray2 A ∧
  ∃ B, Surrogate.reshape_eim_data A = Ok B ∧
       wf_ndarray2 B ∧
       Np.nrows B = Np.ncols A ∧ Np.ncols B = Np.nrows A ∧
       concat (Np.rows B) = concat (Np.rows A) ∧
       Surrogate.reshape_eim_data B = Ok A.
Proof.
  assert (Hwf : wf_ndarray2
            (Np.mk_ndarray2 2 3 [[1%Q; 2%Q; 3%Q]; [4%Q; 5%Q; 6%Q]]))
    by (split; [reflexivity | repeat constructor]).
  cbv zeta. split; [exact Hwf|].
  apply (reshape_eim_data_keeps_order
           (Np.mk_ndarray2 2 3 [[1%Q; 2%Q; 3%Q]; [4%Q; 5%Q; 6%Q]])).
  exact Hwf.
Defined.

(** The reshape of a 2 x 3 array is not its transpose. *)
Example reshape_eim_data_ex :
  Surrogate.reshape_eim_data
    (Np.mk_ndarray2 2 3 [[1%Q; 2%Q; 3%Q]; [4%Q; 5%Q; 6%Q]])
  = Ok (Np.mk_ndarray2 3 2 [[1%Q; 2%Q]; [3%Q; 4%Q]; [5%Q; 6%Q]]) ∧
  Np.transpose (Np.mk_ndarray2 2 3 [[1%Q; 2%Q; 3%Q]; [4%Q; 5%Q; 6%Q]])
  = Np.mk_ndarray2 3 2 [[1%Q; 4%Q]; [2%Q; 5%Q]; [3%Q; 6%Q]].
Proof. split; reflexivity. Qed.

(** X16: on a well-formed square array the reshape is the identity; it
    yields the transpose only if the array equals its transpose. *)
Theorem reshape_eim_data_square (A : Np.ndarray2) :
  wf_ndarray2 A →
  Np.nrows A = Np.ncols A →
  Surrogate.reshape_eim_data A = Ok A ∧
  (Surrogate.reshape_eim_data A = Ok (Np.transpose A) → Np.transpose A = A).
Proof.
  intros [Hlen Hrows] Hsq.
  assert (Surrogate.reshape_eim_data A = Ok A) as Hid.
  { rewrite reshape_eim_data_Ok. destruct A as [r c rows]. simpl in *. subst.
    by rewrite chunks_concat. }
  split; [done|]. rewrite Hid. by intros [= <-].
Qed.

Lemma reshape_eim_data_square_witness :
  let A := Np.mk_ndarray2 2 2 [[1%Q; 2%Q]; [3%Q; 4%Q]] in
  (wf_ndarray2 A ∧ Np.nrows A = Np.ncols A) ∧
  Surrogate.reshape_eim_data A = Ok A ∧
  (Surrogate.reshape_eim_data A = Ok (Np.transpose A) → Np.transpose A = A).
Proof.
  assert (Hwf : wf_ndarray2 (Np.mk_ndarray2 2 2 [[1%Q; 2%Q]; [3%Q; 4%Q]]))
    by (split; [reflexivity | repeat constructor]).
  cbv zeta. split; [split; [exact Hwf | reflexivity]|].
  apply (reshape_eim_data_square (Np.mk_ndarray2 2 2 [[1%Q; 2%Q]; [3%Q; 4%Q]]));
    [exact Hwf | reflexivity].
Defined.

(** ** The stages and the files they exchange *)

Lemma holdout_split_cases (len_q_train : Z) :
  if decide (len_q_train ≤ 1)%Z
  then Surrogate.train_test_split_checked (Z.to_nat len_q_train) (1 # 10)
       = Raise ValueError
  else ∃ n_holdout n_train_0,
         Surrogate.train_test_split_checked (Z.to_nat len_q_train) (1 # 10)
         = Ok (n_holdout, n_train_0) ∧
         0 < n_holdout ∧ 0 < n_train_0 ∧
         (Z.of_nat n_holdout + Z.of_nat n_train_0 = len_q_train)%Z.
Proof.
  unfold Surrogate.train_test_split_checked.
  rewrite (train_test_split_sizes_ceil (Z.to_nat len_q_train) 1).
  pose proof (Z.div_mod (- (Z.of_nat (Z.to_nat len_q_train) * 1)) 10 ltac:(lia)) as Hd.
  pose proof (Z.mod_pos_bound (- (Z.of_nat (Z.to_nat len_q_train) * 1)) 10 ltac:(lia))
    as Hm.
  set (k := Z.to_nat (Z.opp (Z.div (Z.opp (Z.of_nat (Z.to_nat len_q_train) * 1)) 10)))
    in *.
  assert (Hk : Z.of_nat k
               = Z.opp (Z.div (Z.opp (Z.of_nat (Z.to_nat len_q_train) * 1)) 10))
    by (unfold k; lia).
  cbv beta iota zeta.
  case_decide as Hlen.
  - rewrite decide_True by lia. done.
  - rewrite decide_False by lia.
    exists (Z.to_nat len_q_train - k), k. split; [done|]. lia.
Qed.

Section WorkflowFiles.
Variable functional_best_trial :
  gmap string Surrogate.pyval → gmap string Surrogate.pyval →
  gmap string Surrogate.pyval.
Variable shape_best_trial :
  gmap string Surrogate.pyval → gmap string Surrogate.pyval →
  gmap string Surrogate.pyval.

Lemma workflow_closed (len_q_train : Z) (w : Surrogate.world) :
  let best_functional :=
    functional_best_trial Surrogate.functional_options_dict Surrogate.fixed_dict in
  let shape_fixed := <["num_epochs" := Surrogate.PInt 100]> best_functional in
  let best_shape := shape_best_trial Surrogate.shape_options_dict shape_fixed in
  Surrogate.workflow functional_best_trial shape_best_trial len_q_train w
  = if decide (len_q_train ≤ 1)%Z then Raise ValueError
    else if decide (240 ≤ len_q_train < 250)%Z
    then Ok (Surrogate.mk_world
               (<["best_shape_hyper.npy" := best_shape]>
                  (<["best_functional_hyper.npy" := best_functional]>
                     (Surrogate.files w)))
               (Surrogate.calls w ++
                [Surrogate.FunctionalStudy
                   Surrogate.functional_options_dict Surrogate.fixed_dict 50;
                 Surrogate.ShapeStudy Surrogate.shape_options_dict shape_fixed 100;
                 Surrogate.TrainIteration (replicate 10 24%Z)
                   (Surrogate.dict_or best_functional best_shape) 100]))
    else Raise AssertionError.
Proof.
  intros best_functional shape_fixed best_shape.
  unfold Surrogate.workflow, Surrogate.functional_stage.
  unfold Surrogate.shape_stage. rewrite np_load_save_eq.
  change (Ok ?d ≫= ?f) with (f d). cbv beta zeta.
  change (mret ?x ≫= ?f) with (f x). cbv beta.
  unfold Surrogate.dataset_stage.
  rewrite (np_load_save_ne "best_functional_hyper.npy" "best_shape_hyper.npy")
    by discriminate.
  rewrite np_load_record_call, np_load_save_eq.
  change (Ok ?d ≫= ?f) with (f d). cbv beta.
  rewrite np_load_save_eq.
  change (Ok ?d ≫= ?f) with (f d). cbv beta zeta.
  pose proof (holdout_split_cases len_q_train) as Hsplit.
  destruct (decide (len_q_train ≤ 1)%Z) as [Hlen|Hlen].
  - by rewrite Hsplit.
  - destruct Hsplit as (n_holdout & n_train_0 & -> & _).
    change (Ok ?d ≫= ?f) with (f d). cbv beta iota.
    rewrite append_sizes_cell_closed. case_decide; [|done].
    change (Ok ?d ≫= ?f) with (f d). cbv beta.
    unfold Surrogate.record_call, Surrogate.np_save. simpl.
    by rewrite <- !app_assoc.
Qed.

(** X17: started with any files and any earlier calls, the three stages
    never fail on a missing file.  The run raises ValueError in the
    hold-out split when the training set has fewer than 2 samples, and
    AssertionError when it has 2 to 239 samples or more than 249; otherwise
    it ends with the two result files overwritten by the new best parameters
    and the three calls appended.  Files left by an earlier run are never
    read. *)
Theorem workflow_result (len_q_train : Z) (w : Surrogate.world) :
  let best_functional :=
    functional_best_trial Surrogate.functional_options_dict Surrogate.fixed_dict in
  let shape_fixed := <["num_epochs" := Surrogate.PInt 100]> best_functional in
  let best_shape := shape_best_trial Surrogate.shape_options_dict shape_fixed in
  Surrogate.workflow functional_best_trial shape_best_trial len_q_train w
  = if decide (len_q_train ≤ 1)%Z then Raise ValueError
    else if decide (240 ≤ len_q_train < 250)%Z
    then Ok (Surrogate.mk_world
               (<["best_shape_hyper.npy" := best_shape]>
                  (<["best_functional_hyper.npy" := best_functional]>
                     (Surrogate.files w)))
               (Surrogate.calls w ++
                [Surrogate.FunctionalStudy
                   Surrogate.functional_options_dict Surrogate.fixed_dict 50;
                 Surrogate.ShapeStudy Surrogate.shape_options_dict shape_fixed 100;
                 Surrogate.TrainIteration (replicate 10 24%Z)
                   (Surrogate.dict_or best_functional best_shape) 100]))
    else Raise AssertionError.
Proof. apply workflow_closed. Qed.

(** X18: the later stages depend on the files of the earlier ones: the shape
    stage raises FileNotFoundError when the functional result file is
    missing, and the data-set stage raises it when either result file is
    missing, in particular when it is run right after the functional stage
    on a directory without a shape result. *)
Theorem stages_need_files (len_q_train : Z) (w : Surrogate.world) :
  (Surrogate.files w !! "best_functional_hyper.npy" = None →
   Surrogate.shape_stage shape_best_trial w = Raise FileNotFoundError ∧
   Surrogate.dataset_stage len_q_train w = Raise FileNotFoundError) ∧
  (Surrogate.files w !! "best_shape_hyper.npy" = None →
   Surrogate.dataset_stage len_q_train w = Raise FileNotFoundError ∧
   Surrogate.dataset_stage len_q_train
     (Surrogate.functional_stage functional_best_trial w)
   = Raise FileNotFoundError).
Proof.
  split.
  - intros Hf. unfold Surrogate.shape_stage, Surrogate.dataset_stage,
      Surrogate.np_load. by rewrite Hf.
  - intros Hs. split.
    + unfold Surrogate.dataset_stage, Surrogate.np_load. rewrite Hs.
      by destruct (Surrogate.files w !! "best_functional_hyper.npy").
    + unfold Surrogate.dataset_stage, Surrogate.functional_stage.
      rewrite np_load_save_eq.
      change (Ok ?d ≫= ?f) with (f d). cbv beta.
      rewrite (np_load_save_ne "best_shape_hyper.npy" "best_functional_hyper.npy")
        by discriminate.
      rewrite np_load_record_call. unfold Surrogate.np_load. by rewrite Hs.
Qed.

(** X19: the merged dictionary of the third stage has exactly the keys that
    the two searches returned.  The ["num_epochs"] entry that the second
    stage adds to its fixed dictionary is not among them unless a search
    returned that key: the third stage reloads the file, which the second
    stage did not change. *)
Theorem merged_best_keys (w : Surrogate.world) :
  let best_functional :=
    functional_best_trial Surrogate.functional_options_dict Surrogate.fixed_dict in
  let shape_fixed := <["num_epochs" := Surrogate.PInt 100]> best_functional in
  let best_shape := shape_best_trial Surrogate.shape_options_dict shape_fixed in
  ∃ w' best,
    Surrogate.workflow functional_best_trial shape_best_trial 240 w = Ok w' ∧
    last (Surrogate.calls w')
      = Some (Surrogate.TrainIteration (replicate 10 24%Z) best 100) ∧
    Surrogate.files w' !! "best_functional_hyper.npy" = Some best_functional ∧
    dom best = dom best_functional ∪ dom best_shape ∧
    (best_functional !! "num_epochs" = None →
     best_shape !! "num_epochs" = None →
     best !! "num_epochs" = None ∧
     shape_fixed !! "num_epochs" = Some (Surrogate.PInt 100)).
Proof.
  intros best_functional shape_fixed best_shape.
  pose proof (workflow_closed 240 w) as Hrun. cbv zeta in Hrun.
  rewrite decide_False, decide_True in Hrun by lia.
  eexists. exists (Surrogate.dict_or best_functional best_shape).
  split; [exact Hrun|].
  cbn [Surrogate.calls Surrogate.files].
  split; [by rewrite last_app|].
  split; [rewrite lookup_insert_ne by discriminate; apply lookup_insert_eq|].
  split.
  - unfold Surrogate.dict_or. rewrite dom_union_L. apply (comm_L (∪)).
  - intros Hf Hs. split.
    + by rewrite dict_or_lookup, Hs.
    + apply lookup_insert_eq.
Qed.

End WorkflowFiles.

(** ** One-hot encoding: the labels it accepts and what it returns *)

Lemma to_categorical_given (y : list Q) (num_classes : nat) :
  0 < num_classes →
  Classifier.to_categorical y num_classes
  = (categorical ← for_each (Classifier.one_hot_row num_classes)
                     (Classifier.astype_int64 <$> y);
     mret (Np.mk_ndarray2 (length (Classifier.astype_int64 <$> y))
             num_classes categorical)).
Proof.
  intros Hpos. unfold Classifier.to_categorical.
  rewrite decide_False by lia. reflexivity.
Qed.

Lemma one_hot_row_cases (num_classes : nat) (label : Z) :
  0 < num_classes →
  Classifier.one_hot_row num_classes label
  = if decide (- Z.of_nat num_classes ≤ label < Z.of_nat num_classes)%Z
    then Ok (<[Z.to_nat (label `mod` Z.of_nat num_classes) := 1%Q]>
               (Np.zeros num_classes))
    else Raise IndexError.
Proof.
  intros Hpos. unfold Classifier.one_hot_row. cbv zeta.
  destruct (decide (0 ≤ label < Z.of_nat num_classes)%Z) as [Hin|Hout].
  - rewrite decide_True by lia. by rewrite Z.mod_small.
  - destruct (decide (- Z.of_nat num_classes ≤ label < 0)%Z) as [Hneg|Hno].
    + rewrite decide_True by lia. do 3 f_equal.
      apply (Z.mod_unique label (Z.of_nat num_classes) (-1)); lia.
    + by rewrite decide_False by lia.
Qed.

(** X20: with a positive class count, [to_categorical] raises IndexError as
    soon as one label, cast to an integer, lies outside
    [-num_classes, num_classes): a data set that skips a class value, so
    that its largest label is not below the number of distinct labels,
    cannot be encoded. *)
Theorem to_categorical_out_of_range (y : list Q) (num_classes : nat) (q : Q) :
  0 < num_classes →
  q ∈ y →
  ¬ (- Z.of_nat num_classes ≤ Classifier.astype_int64 q < Z.of_nat num_classes)%Z →
  Classifier.to_categorical y num_classes = Raise IndexError.
Proof.
  intros Hpos Hq Hout. rewrite to_categorical_given by done.
  rewrite (for_each_raise_uniform _ _ IndexError); [done| |].
  - intros i x _. rewrite one_hot_row_cases by done. case_decide; eauto.
  - apply list_elem_of_lookup in Hq as [i Hi].
    exists i, (Classifier.astype_int64 q). split.
    + by rewrite list_lookup_fmap, Hi.
    + rewrite one_hot_row_cases by done. by rewrite decide_False.
Qed.

Lemma to_categorical_out_of_range_witness :
  (0 < Classifier.output_classes [0%Q; 2%Q] ∧
   2%Q ∈ [0%Q; 2%Q] ∧
   ¬ (- Z.of_nat (Classifier.output_classes [0%Q; 2%Q])
      ≤ Classifier.astype_int64 2
      < Z.of_nat (Classifier.output_classes [0%Q; 2%Q]))%Z) ∧
  Classifier.to_categorical [0%Q; 2%Q] (Classifier.output_classes [0%Q; 2%Q])
  = Raise IndexError.
Proof.
  assert (H1 : 0 < Classifier.output_classes [0%Q; 2%Q]) by (vm_compute; lia).
  assert (H2 : 2%Q ∈ [0%Q; 2%Q]) by (right; left).
  assert (H3 : ¬ (- Z.of_nat (Classifier.output_classes [0%Q; 2%Q])
                  ≤ Classifier.astype_int64 2
                  < Z.of_nat (Classifier.output_classes [0%Q; 2%Q]))%Z)
    by (vm_compute; intros [_ H]; discriminate H).
  split; [by repeat split|].
  by apply (to_categorical_out_of_range [0%Q; 2%Q]
              (Classifier.output_classes [0%Q; 2%Q]) 2).
Defined.

Lemma to_categorical_wrapped (y : list Q) (num_classes : nat) :
  0 < num_classes →
  Forall (λ q, (- Z.of_nat num_classes ≤ Classifier.astype_int64 q
                < Z.of_nat num_classes)%Z) y →
  Classifier.to_categorical y num_classes
  = Ok (Np.mk_ndarray2 (length y) num_classes
          ((λ q, <[Z.to_nat (Classifier.astype_int64 q `mod` Z.of_nat num_classes)
                   := 1%Q]> (Np.zeros num_classes)) <$> y)).
Proof.
  intros Hpos Hall. rewrite to_categorical_given by done.
  rewrite for_each_fmap.
  rewrite (for_each_fmap_Ok _
    (λ q, <[Z.to_nat (Classifier.astype_int64 q `mod` Z.of_nat num_classes)
            := 1%Q]> (Np.zeros num_classes))).
  - by rewrite length_fmap.
  - eapply Forall_impl; [exact Hall|]. intros q Hq. simpl in *.
    rewrite one_hot_row_cases by done. by rewrite decide_True.
Qed.

(** X21: with a positive class count and every label, cast to an integer, in
    [-num_classes, num_classes), encoding and decoding returns each label
    modulo [num_classes]: labels in [0, num_classes) come back unchanged,
    while a negative label [-k] is silently encoded as class
    [num_classes - k]. *)
Theorem encode_decode_modulo (y : list Q) (num_classes : nat) :
  0 < num_classes →
  Forall (λ q, (- Z.of_nat num_classes ≤ Classifier.astype_int64 q
                < Z.of_nat num_classes)%Z) y →
  ∃ A, Classifier.to_categorical y num_classes = Ok A ∧
       Classifier.argmax_axis1 A
       = Ok ((λ q, Z.to_nat (Classifier.astype_int64 q `mod` Z.of_nat num_classes))
               <$> y).
Proof.
  intros Hpos Hall. eexists. split; [by apply to_categorical_wrapped|].
  unfold Classifier.argmax_axis1. cbn [Np.ncols Np.rows].
  rewrite decide_False by lia.
  rewrite for_each_fmap. apply for_each_fmap_Ok.
  eapply Forall_impl; [exact Hall|]. intros q Hq. simpl in *.
  apply argmax_one_hot.
  pose proof (Z.mod_pos_bound (Classifier.astype_int64 q) (Z.of_nat num_classes)
                ltac:(lia)). lia.
Qed.

Lemma encode_decode_modulo_witness :
  (0 < 3 ∧
   Forall (λ q, (- Z.of_nat 3 ≤ Classifier.astype_int64 q < Z.of_nat 3)%Z)
     [0%Q; -1%Q; (3 # 2)%Q]) ∧
  ∃ A, Classifier.to_categorical [0%Q; -1%Q; (3 # 2)%Q] 3 = Ok A ∧
       Classifier.argmax_axis1 A
       = Ok ((λ q, Z.to_nat (Classifier.astype_int64 q `mod` Z.of_nat 3))
               <$> [0%Q; -1%Q; (3 # 2)%Q]).
Proof.
  assert (Hall : Forall (λ q, (- Z.of_nat 3 ≤ Classifier.astype_int64 q
                               < Z.of_nat 3)%Z) [0%Q; -1%Q; (3 # 2)%Q])
    by (repeat constructor; vm_compute; congruence).
  split; [split; [lia | exact Hall]|].
  apply (encode_decode_modulo [0%Q; -1%Q; (3 # 2)%Q] 3); [lia | exact Hall].
Defined.

Example encode_decode_modulo_ex :
  (A ← Classifier.to_categorical [0%Q; -1%Q; (3 # 2)%Q] 3;
   Classifier.argmax_axis1 A) = Ok [0; 2; 1].
Proof. reflexivity. Qed.

Lemma one_hot_row_Ok_inv (n : nat) (label : Z) (row : list Q) :
  Classifier.one_hot_row n label = Ok row →
  ∃ k, k < n ∧ row = <[k := 1%Q]> (Np.zeros n).
Proof.
  unfold Classifier.one_hot_row. cbv zeta.
  repeat case_decide; intros [= <-]; eexists; (split; [|reflexivity]); lia.
Qed.

Lemma one_hot_rows_Ok_inv (n : nat) (x : list Z) (rows : list (list Q)) :
  for_each (Classifier.one_hot_row n) x = Ok rows →
  length rows = length x ∧
  (x ≠ [] → 0 < n) ∧
  Forall (λ row, ∃ k, k < n ∧ row = <[k := 1%Q]> (Np.zeros n)) rows.
Proof.
  intros Hfor. destruct (for_each_Ok_inv _ _ _ Hfor) as [Hlen Hlook].
  split; [done|]. split.
  - destruct x as [|v x]; [done|]. intros _.
    destruct (Hlook 0 v eq_refl) as (row & _ & Hrow).
    apply one_hot_row_Ok_inv in Hrow as (k & Hk & _). lia.
  - apply Forall_lookup. intros i row Hrow.
    pose proof (lookup_lt_Some _ _ _ Hrow) as Hi. rewrite Hlen in Hi.
    destruct (lookup_lt_is_Some_2 x i Hi) as [v Hv].
    destruct (Hlook i v Hv) as (row' & Hrow' & Hone).
    assert (row' = row) as -> by congruence.
    by eapply one_hot_row_Ok_inv.
Qed.

(** X22: whenever [to_categorical] returns, the result is a well-formed
    array with one row per label and at least one column, as many columns as
    the class count that was given if that was positive, and every row is
    one-hot: a single 1 among zeros. *)
Theorem to_categorical_one_hot (y : list Q) (num_classes : nat) (A : Np.ndarray2) :
  Classifier.to_categorical y num_classes = Ok A →
  wf_ndarray2 A ∧
  Np.nrows A = length y ∧
  0 < Np.ncols A ∧
  (0 < num_classes → Np.ncols A = num_classes) ∧
  Forall (λ row, ∃ k, k < Np.ncols A ∧
                      row = <[k := 1%Q]> (Np.zeros (Np.ncols A))) (Np.rows A).
Proof.
  unfold Classifier.to_categorical.
  set (x := Classifier.astype_int64 <$> y).
  assert (Hshape : ∀ n rows,
            (x = [] → 0 < n) →
            for_each (Classifier.one_hot_row n) x = Ok rows →
            let B := Np.mk_ndarray2 (length x) n rows in
            wf_ndarray2 B ∧ Np.nrows B = length y ∧ 0 < Np.ncols B ∧
            Forall (λ row, ∃ k, k < Np.ncols B ∧
                                row = <[k := 1%Q]> (Np.zeros (Np.ncols B)))
              (Np.rows B)).
  { intros n rows Hn Hfor. destruct (one_hot_rows_Ok_inv _ _ _ Hfor) as (Hl & Hpos & Hall).
    cbv zeta. cbn [Np.nrows Np.ncols Np.rows].
    split; [split; cbn [Np.nrows Np.ncols Np.rows]; [done|]|].
    - eapply Forall_impl; [exact Hall|]. intros row (k & _ & ->). simpl.
      unfold Np.zeros. by rewrite length_insert, length_replicate.
    - split; [unfold x; by rewrite length_fmap|]. split; [|done].
      destruct x; [by apply Hn|by apply Hpos]. }
  case_decide as HC.
  - destruct (Classifier.np_max x) as [m|] eqn:Hmax; [|done].
    change (Ok m ≫= ?f) with (f m). cbv beta.
    case_decide; [done|].
    change (mret ?n ≫= ?f) with (f n). cbv beta.
    destruct (for_each _ x) as [rows|] eqn:Hfor; [|done].
    intros [= <-].
    destruct (Hshape (Z.to_nat (m + 1)) rows
                ltac:(intros Hx; rewrite Hx in Hmax; discriminate Hmax) Hfor)
      as (H1 & H2 & H3 & H4).
    split; [done|]. split; [done|]. split; [done|]. split; [lia|done].
  - change (mret ?n ≫= ?f) with (f n). cbv beta.
    destruct (for_each _ x) as [rows|] eqn:Hfor; [|done].
    intros [= <-].
    destruct (Hshape num_classes rows ltac:(intros _; lia) Hfor)
      as (H1 & H2 & H3 & H4).
    split; [done|]. split; [done|]. split; [done|]. split; [done|done].
Qed.

Lemma to_categorical_one_hot_witness :
  Classifier.to_categorical [1%Q; 0%Q] 0
    = Ok (Np.mk_ndarray2 2 2 [[0%Q; 1%Q]; [1%Q; 0%Q]]) ∧
  wf_ndarray2 (Np.mk_ndarray2 2 2 [[0%Q; 1%Q]; [1%Q; 0%Q]]) ∧
  Np.nrows (Np.mk_ndarray2 2 2 [[0%Q; 1%Q]; [1%Q; 0%Q]]) = length [1%Q; 0%Q] ∧
  0 < Np.ncols (Np.mk_ndarray2 2 2 [[0%Q; 1%Q]; [1%Q; 0%Q]]) ∧
  (0 < 0 → Np.ncols (Np.mk_ndarray2 2 2 [[0%Q; 1%Q]; [1%Q; 0%Q]]) = 0) ∧
  Forall (λ row, ∃ k, k < Np.ncols (Np.mk_ndarray2 2 2 [[0%Q; 1%Q]; [1%Q; 0%Q]]) ∧
                      row = <[k := 1%Q]>
                              (Np.zeros (Np.ncols (Np.mk_ndarray2 2 2 [[0%Q; 1%Q]; [1%Q; 0%Q]]))))
    (Np.rows (Np.mk_ndarray2 2 2 [[0%Q; 1%Q]; [1%Q; 0%Q]])).
Proof.
  split; [reflexivity|].
  apply (to_categorical_one_hot [1%Q; 0%Q] 0
           (Np.mk_ndarray2 2 2 [[0%Q; 1%Q]; [1%Q; 0%Q]])).
  reflexivity.
Defined.

(** ** Preparing the targets and the model that receives them *)

Lemma split_features_target_shapes (data X : Np.ndarray2) (y : list Q) :
  wf_ndarray2 data →
  Classifier.split_features_target data = Ok (X, y) →
  wf_ndarray2 X ∧ Np.nrows X = Np.nrows data ∧
  Np.ncols X = Np.ncols data - 1 ∧ length y = Np.nrows data.
Proof.
  intros [Hlen Hrows] Hsplit.
  unfold Classifier.split_features_target, Classifier.last_column in Hsplit.
  case_decide as Hc; [done|]. unfold Np.column in Hsplit.
  rewrite decide_True in Hsplit by lia. injection Hsplit as <- <-.
  split; [|split; [done|split; [done|by rewrite length_fmap]]].
  split; cbn [Classifier.all_but_last_column Np.nrows Np.ncols Np.rows].
  - by rewrite length_fmap.
  - apply Forall_fmap. eapply Forall_impl; [exact Hrows|].
    intros r Hr. simpl in *. rewrite length_take. lia.
Qed.

Lemma take_rows_Ok (A : Np.ndarray2) (idx : list nat) :
  Forall (λ i, i < length (Np.rows A)) idx →
  Classifier.take_rows A idx
  = Ok (Np.mk_ndarray2 (length idx) (Np.ncols A)
          ((λ i, default [] (Np.rows A !! i)) <$> idx)).
Proof.
  intros Hidx. unfold Classifier.take_rows.
  rewrite (for_each_fmap_Ok _ (λ i, default [] (Np.rows A !! i))); [done|].
  eapply Forall_impl; [exact Hidx|]. intros i Hi. simpl in Hi.
  unfold Np.item. destruct (lookup_lt_is_Some_2 _ _ Hi) as [r Hr]. by rewrite Hr.
Qed.

Lemma taken_rows_wf (A : Np.ndarray2) (idx : list nat) :
  wf_ndarray2 A →
  Forall (λ i, i < length (Np.rows A)) idx →
  wf_ndarray2 (Np.mk_ndarray2 (length idx) (Np.ncols A)
                 ((λ i, default [] (Np.rows A !! i)) <$> idx)).
Proof.
  intros [_ Hrows] Hidx. split; cbn [Np.nrows Np.ncols Np.rows].
  - by rewrite length_fmap.
  - apply Forall_fmap. eapply Forall_impl; [exact Hidx|]. intros i Hi. simpl in *.
    destruct (lookup_lt_is_Some_2 _ _ Hi) as [r Hr]. rewrite Hr. simpl.
    exact (Forall_lookup_1 _ _ _ _ Hrows Hr).
Qed.

Lemma taken_rows_lookup (A : Np.ndarray2) (idx : list nat) (k : nat) :
  Forall (λ i, i < length (Np.rows A)) idx →
  k < length idx →
  ∃ i, idx !! k = Some i ∧ i < length (Np.rows A) ∧
       ((λ i, default [] (Np.rows A !! i)) <$> idx) !! k = Np.rows A !! i.
Proof.
  intros Hidx Hk. destruct (lookup_lt_is_Some_2 _ _ Hk) as [i Hi].
  pose proof (Forall_lookup_1 _ _ _ _ Hidx Hi) as Hlt. simpl in Hlt.
  exists i. split; [done|]. split; [done|].
  rewrite list_lookup_fmap, Hi. simpl.
  by destruct (lookup_lt_is_Some_2 _ _ Hlt) as [r ->].
Qed.

Lemma quarter_split_sizes (n : nat) :
  2 ≤ n →
  ∃ n_train n_test,
    Surrogate.train_test_split_checked n (1 # 4) = Ok (n_train, n_test) ∧
    n_train + n_test = n ∧ 0 < n_train ∧ 0 < n_test ∧
    n ≤ 4 * n_test < n + 4.
Proof.
  intros Hn. unfold Surrogate.train_test_split_checked.
  change (Surrogate.train_test_split_sizes n (1 # 4))
    with (n - Z.to_nat (Z.opp (Z.div (Z.opp (Z.of_nat n * 1)) 4)),
          Z.to_nat (Z.opp (Z.div (Z.opp (Z.of_nat n * 1)) 4))).
  pose proof (Z.div_mod (- (Z.of_nat n * 1)) 4 ltac:(lia)) as Hd.
  pose proof (Z.mod_pos_bound (- (Z.of_nat n * 1)) 4 ltac:(lia)) as Hm.
  set (k := Z.to_nat (Z.opp (Z.div (Z.opp (Z.of_nat n * 1)) 4))) in *.
  assert (Hk : Z.of_nat k = Z.opp (Z.div (Z.opp (Z.of_nat n * 1)) 4))
    by (unfold k; lia).
  cbv beta iota zeta.
  rewrite decide_False by lia.
  exists (n - k), k. split; [done|]. lia.
Qed.

Lemma preparation_cell_Ok (permutation : nat → list nat) (data X : Np.ndarray2)
    (y : list Q) :
  wf_ndarray2 data →
  Classifier.split_features_target data = Ok (X, y) →
  2 ≤ Np.nrows data →
  Forall (λ q, (- Z.of_nat (Classifier.output_classes y)
                ≤ Classifier.astype_int64 q
                < Z.of_nat (Classifier.output_classes y))%Z) y →
  permutation (Np.nrows data) ≡ₚ seq 0 (Np.nrows data) →
  ∃ st,
    Classifier.prepare_targets permutation data = Ok st ∧
    Classifier.model_for permutation data
      = Ok [Classifier.Dense 32 "tanh" (Some (Np.ncols X));
            Classifier.Dense 16 "tanh" None;
            Classifier.Dense (Classifier.output_classes y) "softmax" None] ∧
    Classifier.p_X st = X ∧
    Classifier.to_categorical y (Classifier.output_classes y)
      = Ok (Classifier.p_y st) ∧
    Classifier.p_output_classes st = Classifier.output_classes y ∧
    0 < Classifier.output_classes y ∧
    (wf_ndarray2 (Classifier.p_y st) ∧
     Np.nrows (Classifier.p_y st) = Np.nrows data ∧
     Np.ncols (Classifier.p_y st) = Classifier.output_classes y) ∧
    (wf_ndarray2 (Classifier.p_X_train st) ∧ wf_ndarray2 (Classifier.p_X_test st) ∧
     wf_ndarray2 (Classifier.p_y_train st) ∧ wf_ndarray2 (Classifier.p_y_test st)) ∧
    (Np.ncols (Classifier.p_X_train st) = Np.ncols X ∧
     Np.ncols (Classifier.p_X_test st) = Np.ncols X ∧
     Np.ncols (Classifier.p_y_train st) = Classifier.output_classes y ∧
     Np.ncols (Classifier.p_y_test st) = Classifier.output_classes y) ∧
    (Np.nrows (Classifier.p_X_train st) = Np.nrows (Classifier.p_y_train st) ∧
     Np.nrows (Classifier.p_X_test st) = Np.nrows (Classifier.p_y_test st) ∧
     Np.nrows (Classifier.p_X_train st) + Np.nrows (Classifier.p_X_test st)
       = Np.nrows data ∧
     0 < Np.nrows (Classifier.p_X_train st) ∧
     0 < Np.nrows (Classifier.p_X_test st) ∧
     Np.nrows data ≤ 4 * Np.nrows (Classifier.p_X_test st) < Np.nrows data + 4) ∧
    (∀ k, k < Np.nrows (Classifier.p_X_train st) →
       ∃ i, i < Np.nrows data ∧
            Np.rows (Classifier.p_X_train st) !! k = Np.rows X !! i ∧
            Np.rows (Classifier.p_y_train st) !! k
              = Np.rows (Classifier.p_y st) !! i) ∧
    (∀ k, k < Np.nrows (Classifier.p_X_test st) →
       ∃ i, i < Np.nrows data ∧
            Np.rows (Classifier.p_X_test st) !! k = Np.rows X !! i ∧
            Np.rows (Classifier.p_y_test st) !! k
              = Np.rows (Classifier.p_y st) !! i).
Proof.
  intros Hwf Hsplit Hrows Hall Hperm.
  destruct (split_features_target_shapes data X y Hwf Hsplit)
    as (HwfX & HrX & HcX & Hy).
  set (C := Classifier.output_classes y) in *.
  set (n := Np.nrows data) in *.
  assert (HC : 0 < C).
  { destruct y as [|q y]; [simpl in Hy; lia|].
    apply Forall_cons_1 in Hall as [Hq _]. lia. }
  pose proof (to_categorical_wrapped y C HC Hall) as Hcat.
  set (Y := Np.mk_ndarray2 (length y) C
              ((λ q, <[Z.to_nat (Classifier.astype_int64 q `mod` Z.of_nat C)
                       := 1%Q]> (Np.zeros C)) <$> y)) in *.
  assert (HwfY : wf_ndarray2 Y).
  { split; cbn [Y Np.nrows Np.ncols Np.rows]; [by rewrite length_fmap|].
    apply Forall_fmap, Forall_forall. intros q _. simpl.
    unfold Np.zeros. by rewrite length_insert, length_replicate. }
  destruct (quarter_split_sizes n Hrows)
    as (n_train & n_test & Hsizes & Hsum & Htrain & Htest & Hceil).
  set (P := permutation n) in *.
  assert (HPlen : length P = n) by (by rewrite Hperm, length_seq).
  assert (HPall : Forall (λ i, i < n) P).
  { rewrite Hperm. apply Forall_forall. intros i Hi.
    apply elem_of_seq in Hi. lia. }
  set (ind_test := take n_test P).
  set (ind_train := take n_train (drop n_test P)).
  assert (Hlen_test : length ind_test = n_test)
    by (unfold ind_test; rewrite length_take; lia).
  assert (Hlen_train : length ind_train = n_train)
    by (unfold ind_train; rewrite length_take, length_drop; lia).
  assert (HrowsX : length (Np.rows X) = n) by (destruct HwfX as [-> _]; done).
  assert (HrowsY : length (Np.rows Y) = n)
    by (cbn [Y Np.rows]; by rewrite length_fmap).
  assert (Htest_all : Forall (λ i, i < n) ind_test)
    by (by apply Forall_take).
  assert (Htrain_all : Forall (λ i, i < n) ind_train)
    by (by apply Forall_take, Forall_drop).
  assert (HtestX : Forall (λ i, i < length (Np.rows X)) ind_test)
    by (by rewrite HrowsX).
  assert (HtrainX : Forall (λ i, i < length (Np.rows X)) ind_train)
    by (by rewrite HrowsX).
  assert (HtestY : Forall (λ i, i < length (Np.rows Y)) ind_test)
    by (by rewrite HrowsY).
  assert (HtrainY : Forall (λ i, i < length (Np.rows Y)) ind_train)
    by (by rewrite HrowsY).
  assert (Hprep : Classifier.prepare_targets permutation data
            = Ok (Classifier.mk_prepared X Y C
                    (Np.mk_ndarray2 (length ind_train) (Np.ncols X)
                       ((λ i, default [] (Np.rows X !! i)) <$> ind_train))
                    (Np.mk_ndarray2 (length ind_test) (Np.ncols X)
                       ((λ i, default [] (Np.rows X !! i)) <$> ind_test))
                    (Np.mk_ndarray2 (length ind_train) (Np.ncols Y)
                       ((λ i, default [] (Np.rows Y !! i)) <$> ind_train))
                    (Np.mk_ndarray2 (length ind_test) (Np.ncols Y)
                       ((λ i, default [] (Np.rows Y !! i)) <$> ind_test)))).
  { unfold Classifier.prepare_targets. rewrite Hsplit.
    change (Ok ?x ≫= ?f) with (f x). cbv beta iota zeta. fold C.
    rewrite Hcat.
    change (Ok ?x ≫= ?f) with (f x). cbv beta.
    unfold Classifier.train_test_split.
    rewrite decide_True by (rewrite HrX; cbn [Y Np.nrows]; lia).
    rewrite HrX. fold n. rewrite Hsizes.
    change (Ok ?x ≫= ?f) with (f x). cbv beta iota zeta.
    fold P. fold ind_test. fold ind_train.
    rewrite (take_rows_Ok X ind_train HtrainX).
    change (Ok ?x ≫= ?f) with (f x). cbv beta.
    rewrite (take_rows_Ok X ind_test HtestX).
    change (Ok ?x ≫= ?f) with (f x). cbv beta.
    rewrite (take_rows_Ok Y ind_train HtrainY).
    change (Ok ?x ≫= ?f) with (f x). cbv beta.
    rewrite (take_rows_Ok Y ind_test HtestY).
    reflexivity. }
  eexists. split; [exact Hprep|].
  cbn [Classifier.p_X Classifier.p_y Classifier.p_output_classes
       Classifier.p_X_train Classifier.p_X_test
       Classifier.p_y_train Classifier.p_y_test Np.nrows Np.ncols Np.rows].
  split.
  { unfold Classifier.model_for. rewrite Hprep.
    change (Ok ?x ≫= ?f) with (f x). cbv beta zeta.
    cbn [Classifier.p_X_train Classifier.p_output_classes Np.ncols].
    unfold Classifier.build_model, Classifier.dense_layer.
    destruct (decide (C = 0)) as [H0|_]; [lia|]. reflexivity. }
  split; [done|]. split; [done|]. split; [done|]. split; [done|].
  split; [split; [done|split; [exact Hy|reflexivity]]|].
  split.
  { split; [by apply taken_rows_wf|]. split; [by apply taken_rows_wf|].
    split; [by apply (taken_rows_wf Y) | by apply (taken_rows_wf Y)]. }
  split; [done|].
  split; [rewrite Hlen_train, Hlen_test; repeat split; lia|].
  split.
  - intros k Hk.
    destruct (taken_rows_lookup X ind_train k HtrainX Hk) as (i & Hi & Hlt & HXk).
    destruct (taken_rows_lookup Y ind_train k HtrainY Hk) as (i' & Hi' & _ & HYk).
    assert (i' = i) as -> by congruence.
    exists i. split; [lia|]. by split.
  - intros k Hk.
    destruct (taken_rows_lookup X ind_test k HtestX Hk) as (i & Hi & Hlt & HXk).
    destruct (taken_rows_lookup Y ind_test k HtestY Hk) as (i' & Hi' & _ & HYk).
    assert (i' = i) as -> by congruence.
    exists i. split; [lia|]. by split.
Qed.

(** C6 (amended): for a well-formed data matrix with at least two columns,
    the slicing yields [X] and [y] with [y] the last column of the data and
    [X] its other columns in order, so that every data row is its row of
    [X] followed by its label and no column of [X] is the label column;
    the number of classes is the length of a list that holds each distinct
    value of [y] exactly once.  When the matrix also has at least two rows
    and every label, cast to an integer, lies in [-C, C), [C] the number of
    classes, the preparation cell returns, every row fed to the network is a
    row of [X], and the model that is built has an input layer as wide as
    [X] and, as its last layer, a softmax layer with [C] units. *)
Theorem features_exclude_label (permutation : nat → list nat) (data : Np.ndarray2) :
  wf_ndarray2 data → 2 ≤ Np.ncols data →
  ∃ (X : Np.ndarray2) (y : list Q),
    Classifier.split_features_target data = Ok (X, y) ∧
    wf_ndarray2 X ∧
    Np.nrows X = Np.nrows data ∧
    Np.ncols X = Np.ncols data - 1 ∧
    Np.column data (Np.ncols data - 1) = Ok y ∧
    (∀ j, j < Np.ncols X →
       j ≠ Np.ncols data - 1 ∧ Np.column X j = Np.column data j) ∧
    (∀ r row, Np.rows data !! r = Some row →
       ∃ features label,
         Np.rows X !! r = Some features ∧ y !! r = Some label ∧
         row = features ++ [label]) ∧
    (∃ classes : list Q,
       Classifier.output_classes y = length classes ∧
       (∀ c, c ∈ classes → c ∈ y) ∧
       (∀ v, v ∈ y → ∃ c, c ∈ classes ∧ (c == v)%Q) ∧
       (∀ i j a b, classes !! i = Some a → classes !! j = Some b →
                   (a == b)%Q → i = j)) ∧
    (2 ≤ Np.nrows data →
     Forall (λ q, (- Z.of_nat (Classifier.output_classes y)
                   ≤ Classifier.astype_int64 q
                   < Z.of_nat (Classifier.output_classes y))%Z) y →
     permutation (Np.nrows data) ≡ₚ seq 0 (Np.nrows data) →
     ∃ st model,
       Classifier.prepare_targets permutation data = Ok st ∧
       Classifier.p_X st = X ∧
       (∀ k row, Np.rows (Classifier.p_X_train st) !! k = Some row →
                 ∃ r, Np.rows X !! r = Some row) ∧
       Classifier.model_for permutation data = Ok model ∧
       model = [Classifier.Dense 32 "tanh" (Some (Np.ncols data - 1));
                Classifier.Dense 16 "tanh" None;
                Classifier.Dense (Classifier.output_classes y) "softmax" None] ∧
       last model
         = Some (Classifier.Dense (Classifier.output_classes y) "softmax" None)).
Proof.
  intros Hwf Hcols. pose proof Hwf as [Hlen Hrows].
  set (m := Np.ncols data) in *.
  set (X := Classifier.all_but_last_column data).
  set (y := (λ r, nth (m - 1) r 0%Q) <$> Np.rows data).
  assert (Hy : Np.column data (m - 1) = Ok y).
  { unfold Np.column. fold m. by rewrite decide_True by lia. }
  assert (Hsplit : Classifier.split_features_target data = Ok (X, y)).
  { unfold Classifier.split_features_target, Classifier.last_column. fold m.
    rewrite decide_False by lia. by rewrite Hy. }
  exists X, y.
  split; [done|].
  split; [|split; [|split; [|split; [|split; [|split; [|split]]]]]].
  - split; simpl.
    + by rewrite length_fmap.
    + fold m. apply Forall_fmap. eapply Forall_impl; [exact Hrows|].
      intros r Hr. simpl in *. rewrite length_take. lia.
  - done.
  - done.
  - done.
  - intros j Hj. simpl in Hj. fold m in Hj. split; [lia|].
    unfold Np.column. simpl. fold m.
    rewrite !decide_True by lia. f_equal.
    rewrite <- list_fmap_compose. apply list_fmap_ext.
    intros _ r _. simpl. apply nth_take_lt. lia.
  - intros r row Hrow.
    exists (take (m - 1) row), (nth (m - 1) row 0%Q).
    split; [|split].
    + simpl. fold m. by rewrite list_lookup_fmap, Hrow.
    + unfold y. by rewrite list_lookup_fmap, Hrow.
    + symmetry. apply take_snoc_nth.
      pose proof (Forall_lookup_1 _ _ _ _ Hrows Hrow) as Hr. simpl in Hr. lia.
  - exists (Classifier.unique y). split; [done|]. split; [|split].
    + apply unique_elem_of.
    + apply unique_covers.
    + intros i j a b. apply sorted_distinct, unique_sorted.
  - intros Hnrows Hall Hperm.
    destruct (preparation_cell_Ok permutation data X y Hwf Hsplit Hnrows Hall Hperm)
      as (st & Hprep & Hmodel & HX & _ & _ & _ & _ & (HwfXt & _) & _ & _ & Hpair & _).
    exists st. eexists. split; [done|]. split; [done|]. split; [|split; [exact Hmodel|]].
    + intros k row Hk. pose proof (lookup_lt_Some _ _ _ Hk) as Hlt.
      destruct HwfXt as [HlenXt _]. rewrite HlenXt in Hlt.
      destruct (Hpair k Hlt) as (i & _ & HXi & _).
      exists i. by rewrite <- HXi.
    + split; reflexivity.
Qed.

Lemma features_exclude_label_witness :
  let permutation := λ n : nat, reverse (seq 0 n) in
  let data :=
    Np.mk_ndarray2 3 3
      [[8%Q; (1 # 2)%Q; 0%Q]; [9%Q; (3 # 2)%Q; 1%Q]; [7%Q; (5 # 2)%Q; 0%Q]] in
  (wf_ndarray2 data ∧ 2 ≤ Np.ncols data) ∧
  ∃ (X : Np.ndarray2) (y : list Q),
    Classifier.split_features_target data = Ok (X, y) ∧
    Np.column data (Np.ncols data - 1) = Ok y ∧
    (∀ j, j < Np.ncols X →
       j ≠ Np.ncols data - 1 ∧ Np.column X j = Np.column data j) ∧
    (2 ≤ Np.nrows data ∧
     Forall (λ q, (- Z.of_nat (Classifier.output_classes y)
                   ≤ Classifier.astype_int64 q
                   < Z.of_nat (Classifier.output_classes y))%Z) y ∧
     permutation (Np.nrows data) ≡ₚ seq 0 (Np.nrows data)) ∧
    ∃ st model,
      Classifier.prepare_targets permutation data = Ok st ∧
      Classifier.p_X st = X ∧
      (∀ k row, Np.rows (Classifier.p_X_train st) !! k = Some row →
                ∃ r, Np.rows X !! r = Some row) ∧
      Classifier.model_for permutation data = Ok model ∧
      model = [Classifier.Dense 32 "tanh" (Some (Np.ncols data - 1));
               Classifier.Dense 16 "tanh" None;
               Classifier.Dense (Classifier.output_classes y) "softmax" None] ∧
      last model
        = Some (Classifier.Dense (Classifier.output_classes y) "softmax" None).
Proof.
  assert (Hwf : wf_ndarray2
            (Np.mk_ndarray2 3 3
               [[8%Q; (1 # 2)%Q; 0%Q]; [9%Q; (3 # 2)%Q; 1%Q];
                [7%Q; (5 # 2)%Q; 0%Q]]))
    by (split; [reflexivity | repeat constructor]).
  assert (Hall : Forall (λ q, (- Z.of_nat (Classifier.output_classes
                                             [0%Q; 1%Q; 0%Q])
                               ≤ Classifier.astype_int64 q
                               < Z.of_nat (Classifier.output_classes
                                             [0%Q; 1%Q; 0%Q]))%Z)
                   [0%Q; 1%Q; 0%Q])
    by (repeat constructor; vm_compute; congruence).
  assert (Hperm : reverse (seq 0 3) ≡ₚ seq 0 3) by apply reverse_Permutation.
  cbv zeta. split; [split; [exact Hwf | simpl; lia]|].
  destruct (features_exclude_label (λ n : nat, reverse (seq 0 n))
              (Np.mk_ndarray2 3 3
                 [[8%Q; (1 # 2)%Q; 0%Q]; [9%Q; (3 # 2)%Q; 1%Q];
                  [7%Q; (5 # 2)%Q; 0%Q]]) Hwf ltac:(simpl; lia))
    as (X & y & Hsplit & _ & _ & _ & Hy & Hcolumns & _ & _ & Hmodel).
  assert (y = [0%Q; 1%Q; 0%Q]) as -> by (injection Hy as <-; reflexivity).
  exists X, [0%Q; 1%Q; 0%Q].
  split; [exact Hsplit|]. split; [exact Hy|]. split; [exact Hcolumns|].
  split; [split; [simpl; lia | split; [exact Hall | exact Hperm]]|].
  apply Hmodel; [simpl; lia | exact Hall | exact Hperm].
Defined.

(** The cells on a matrix of three rows with the classes 0 and 1, with the
    rows drawn in reverse order: one row is held out for testing and the
    model ends in a softmax layer of two units. *)
Example model_for_ex :
  let permutation := λ n : nat, reverse (seq 0 n) in
  let data :=
    Np.mk_ndarray2 3 3
      [[8%Q; (1 # 2)%Q; 0%Q]; [9%Q; (3 # 2)%Q; 1%Q]; [7%Q; (5 # 2)%Q; 0%Q]] in
  Classifier.prepare_targets permutation data
  = Ok (Classifier.mk_prepared
          (Np.mk_ndarray2 3 2 [[8%Q; (1 # 2)%Q]; [9%Q; (3 # 2)%Q]; [7%Q; (5 # 2)%Q]])
          (Np.mk_ndarray2 3 2 [[1%Q; 0%Q]; [0%Q; 1%Q]; [1%Q; 0%Q]])
          2
          (Np.mk_ndarray2 2 2 [[9%Q; (3 # 2)%Q]; [8%Q; (1 # 2)%Q]])
          (Np.mk_ndarray2 1 2 [[7%Q; (5 # 2)%Q]])
          (Np.mk_ndarray2 2 2 [[0%Q; 1%Q]; [1%Q; 0%Q]])
          (Np.mk_ndarray2 1 2 [[1%Q; 0%Q]])) ∧
  Classifier.model_for permutation data
  = Ok [Classifier.Dense 32 "tanh" (Some 2); Classifier.Dense 16 "tanh" None;
        Classifier.Dense 2 "softmax" None].
Proof. split; reflexivity. Qed.

(** C6 as stated fails for matrices on which the preparation cell raises, so
    that no model is built, whatever order the rows are drawn in: with the
    label values 0 and 2 there are two classes and [to_categorical] raises
    IndexError on the label 2; with a single row [train_test_split] raises
    ValueError, because the training part would be empty; without rows the
    class count is 0 and [to_categorical] raises ValueError. *)
Lemma model_for_raises :
  let skipped :=
    Np.mk_ndarray2 3 3
      [[8%Q; (1 # 2)%Q; 0%Q]; [9%Q; (3 # 2)%Q; 2%Q]; [7%Q; (5 # 2)%Q; 0%Q]] in
  let one_row := Np.mk_ndarray2 1 3 [[8%Q; (1 # 2)%Q; 0%Q]] in
  let no_rows := Np.mk_ndarray2 0 3 [] in
  (wf_ndarray2 skipped ∧ 2 ≤ Np.ncols skipped ∧
   Classifier.split_features_target skipped
     = Ok (Np.mk_ndarray2 3 2 [[8%Q; (1 # 2)%Q]; [9%Q; (3 # 2)%Q]; [7%Q; (5 # 2)%Q]],
           [0%Q; 2%Q; 0%Q]) ∧
   Classifier.output_classes [0%Q; 2%Q; 0%Q] = 2 ∧
   ∀ permutation,
     Classifier.prepare_targets permutation skipped = Raise IndexError ∧
     Classifier.model_for permutation skipped = Raise IndexError ∧
     ¬ ∃ model, Classifier.model_for permutation skipped = Ok model) ∧
  (wf_ndarray2 one_row ∧ 2 ≤ Np.ncols one_row ∧
   ∀ permutation,
     Classifier.prepare_targets permutation one_row = Raise ValueError ∧
     Classifier.model_for permutation one_row = Raise ValueError) ∧
  (wf_ndarray2 no_rows ∧ 2 ≤ Np.ncols no_rows ∧
   ∀ permutation,
     Classifier.prepare_targets permutation no_rows = Raise ValueError ∧
     Classifier.model_for permutation no_rows = Raise ValueError).
Proof.
  cbv zeta. split; [|split].
  - split; [split; [reflexivity | repeat constructor]|].
    split; [simpl; lia|]. split; [reflexivity|]. split; [reflexivity|].
    intros permutation. split; [reflexivity|]. split; [reflexivity|].
    intros [model Hmodel]. discriminate Hmodel.
  - split; [split; [reflexivity | repeat constructor]|].
    split; [simpl; lia|]. intros permutation. split; reflexivity.
  - split; [split; [reflexivity | constructor]|].
    split; [simpl; lia|]. intros permutation. split; reflexivity.
Qed.



(** X24: a data matrix without rows cannot be prepared: with at least one
    column the class count is 0 and [to_categorical] raises ValueError, and
    without columns the slicing of the label column raises IndexError. *)
Theorem prepare_targets_no_rows (permutation : nat → list nat) (data : Np.ndarray2) :
  wf_ndarray2 data →
  Np.nrows data = 0 →
  Classifier.prepare_targets permutation data
  = if decide (Np.ncols data = 0) then Raise IndexError else Raise ValueError.
Proof.
  intros [Hlen _] Hrows. rewrite Hrows in Hlen. apply nil_length_inv in Hlen.
  unfold Classifier.prepare_targets, Classifier.split_features_target,
    Classifier.last_column, Np.column.
  case_decide as Hc; [done|].
  rewrite decide_True by lia. rewrite Hlen. reflexivity.
Qed.

Lemma prepare_targets_no_rows_witness :
  (wf_ndarray2 (Np.mk_ndarray2 0 7 []) ∧ Np.nrows (Np.mk_ndarray2 0 7 []) = 0) ∧
  Classifier.prepare_targets (λ n : nat, seq 0 n) (Np.mk_ndarray2 0 7 [])
  = if decide (Np.ncols (Np.mk_ndarray2 0 7 []) = 0)
    then Raise IndexError else Raise ValueError.
Proof.
  assert (Hwf : wf_ndarray2 (Np.mk_ndarray2 0 7 []))
    by (split; [reflexivity | constructor]).
  split; [split; [exact Hwf | reflexivity]|].
  apply (prepare_targets_no_rows (λ n : nat, seq 0 n) (Np.mk_ndarray2 0 7 []));
    [exact Hwf | reflexivity].
Defined.

(** ** Decoding predictions *)

Lemma argmax_axis1_first (A : Np.ndarray2) :
  wf_ndarray2 A → 0 < Np.ncols A →
  ∃ labels,
    Classifier.argmax_axis1 A = Ok labels ∧
    length labels = Np.nrows A ∧
    ∀ i row, Np.rows A !! i = Some row →
      ∃ k, labels !! i = Some k ∧ k < Np.ncols A ∧ is_first_argmax row k.
Proof.
  intros [Hlen Hrows] Hcols. unfold Classifier.argmax_axis1.
  rewrite decide_False by lia.
  destruct (for_each_is_Ok Np.argmax (Np.rows A)) as [labels Hlabels].
  { intros i row Hrow. destruct (argmax_first row) as (k & Hk & _); [|eauto].
    pose proof (Forall_lookup_1 _ _ _ _ Hrows Hrow) as Hl. simpl in Hl.
    intros ->. simpl in Hl. lia. }
  exists labels. split; [done|].
  destruct (for_each_Ok_inv _ _ _ Hlabels) as [Hl Hlook].
  split; [lia|]. intros i row Hrow.
  destruct (Hlook i row Hrow) as (k & Hk & Harg).
  apply argmax_Ok_first in Harg.
  exists k. split; [done|]. split; [|done].
  pose proof (is_first_argmax_lt _ _ Harg) as Hlt.
  pose proof (Forall_lookup_1 _ _ _ _ Hrows Hrow) as Hlr. simpl in Hlr. lia.
Qed.

Lemma first_argmax_of_equal (row : list Q) (k : nat) :
  is_first_argmax row k →
  (∀ a b, a ∈ row → b ∈ row → (a == b)%Q) →
  k = 0.
Proof.
  intros (v & Hv & _ & Hlt) Heq. destruct k as [|k]; [done|]. exfalso.
  destruct (lookup_lt_is_Some_2 row 0) as [a Ha].
  { apply lookup_lt_Some in Hv. lia. }
  pose proof (Hlt 0 a ltac:(lia) Ha) as Hav.
  assert (a == v)%Q as Hqeq
    by (apply Heq; apply list_elem_of_lookup; eauto).
  rewrite Hqeq in Hav. by apply Qlt_irrefl in Hav.
Qed.

Section TestLabels.
Variable model_predict : Np.ndarray2 → Np.ndarray2.

(** X25: when the predicted probabilities and the one-hot test targets are
    well-formed arrays with at least one column, the labels handed to the
    accuracy and the confusion matrix are, for every sample, the lowest
    column index at which its row is largest: ties go to the lowest class,
    and a sample whose predicted probabilities are all equal is counted as
    class 0. *)
Theorem test_labels_lowest_class (X_test y_test : Np.ndarray2) :
  wf_ndarray2 (model_predict X_test) →
  wf_ndarray2 y_test →
  0 < Np.ncols (model_predict X_test) →
  0 < Np.ncols y_test →
  ∃ y_true y_pred,
    Classifier.test_labels model_predict X_test y_test = Ok (y_true, y_pred) ∧
    length y_pred = Np.nrows (model_predict X_test) ∧
    length y_true = Np.nrows y_test ∧
    (∀ i row, Np.rows (model_predict X_test) !! i = Some row →
       ∃ k, y_pred !! i = Some k ∧ k < Np.ncols (model_predict X_test) ∧
            is_first_argmax row k ∧
            ((∀ a b, a ∈ row → b ∈ row → (a == b)%Q) → k = 0)) ∧
    (∀ i row, Np.rows y_test !! i = Some row →
       ∃ k, y_true !! i = Some k ∧ k < Np.ncols y_test ∧ is_first_argmax row k).
Proof.
  intros HwfP Hwfy HcP Hcy.
  destruct (argmax_axis1_first _ HwfP HcP) as (y_pred & Hpred & Hlp & Hrp).
  destruct (argmax_axis1_first _ Hwfy Hcy) as (y_true & Htrue & Hlt & Hrt).
  exists y_true, y_pred. split.
  { unfold Classifier.test_labels. cbv zeta. rewrite Hpred.
    change (Ok ?x ≫= ?f) with (f x). cbv beta. by rewrite Htrue. }
  split; [done|]. split; [done|]. split; [|done].
  intros i row Hrow. destruct (Hrp i row Hrow) as (k & Hk & Hlt' & Hfirst).
  exists k. split; [done|]. split; [done|]. split; [done|].
  by apply first_argmax_of_equal.
Qed.

End TestLabels.

Lemma test_labels_lowest_class_witness :
  let predict := λ _ : Np.ndarray2,
    Np.mk_ndarray2 2 3 [[(1 # 3)%Q; (1 # 3)%Q; (1 # 3)%Q];
                        [(1 # 10)%Q; (7 # 10)%Q; (2 # 10)%Q]] in
  let X_test := Np.mk_ndarray2 2 1 [[5%Q]; [6%Q]] in
  let y_test := Np.mk_ndarray2 2 3 [[0%Q; 0%Q; 1%Q]; [0%Q; 1%Q; 0%Q]] in
  (wf_ndarray2 (predict X_test) ∧ wf_ndarray2 y_test ∧
   0 < Np.ncols (predict X_test) ∧ 0 < Np.ncols y_test) ∧
  ∃ y_true y_pred,
    Classifier.test_labels predict X_test y_test = Ok (y_true, y_pred) ∧
    length y_pred = Np.nrows (predict X_test) ∧
    length y_true = Np.nrows y_test ∧
    (∀ i row, Np.rows (predict X_test) !! i = Some row →
       ∃ k, y_pred !! i = Some k ∧ k < Np.ncols (predict X_test) ∧
            is_first_argmax row k ∧
            ((∀ a b, a ∈ row → b ∈ row → (a == b)%Q) → k = 0)) ∧
    (∀ i row, Np.rows y_test !! i = Some row →
       ∃ k, y_true !! i = Some k ∧ k < Np.ncols y_test ∧ is_first_argmax row k).
Proof.
  assert (H1 : wf_ndarray2
            (Np.mk_ndarray2 2 3 [[(1 # 3)%Q; (1 # 3)%Q; (1 # 3)%Q];
                                 [(1 # 10)%Q; (7 # 10)%Q; (2 # 10)%Q]]))
    by (split; [reflexivity | repeat constructor]).
  assert (H2 : wf_ndarray2
            (Np.mk_ndarray2 2 3 [[0%Q; 0%Q; 1%Q]; [0%Q; 1%Q; 0%Q]]))
    by (split; [reflexivity | repeat constructor]).
  cbv zeta. split.
  - split; [exact H1|]. split; [exact H2|]. simpl. lia.
  - apply (test_labels_lowest_class
             (λ _, Np.mk_ndarray2 2 3 [[(1 # 3)%Q; (1 # 3)%Q; (1 # 3)%Q];
                                       [(1 # 10)%Q; (7 # 10)%Q; (2 # 10)%Q]])
             (Np.mk_ndarray2 2 1 [[5%Q]; [6%Q]])
             (Np.mk_ndarray2 2 3 [[0%Q; 0%Q; 1%Q]; [0%Q; 1%Q; 0%Q]]));
      [exact H1 | exact H2 | simpl; lia | simpl; lia].
Defined.

Example test_labels_ex :
  Classifier.test_labels
    (λ _, Np.mk_ndarray2 2 3 [[(1 # 3)%Q; (1 # 3)%Q; (1 # 3)%Q];
                              [(1 # 10)%Q; (7 # 10)%Q; (2 # 10)%Q]])
    (Np.mk_ndarray2 2 1 [[5%Q]; [6%Q]])
    (Np.mk_ndarray2 2 3 [[0%Q; 0%Q; 1%Q]; [0%Q; 1%Q; 0%Q]])
  = Ok ([2; 1], [0; 1]).
Proof. reflexivity. Qed.

(** ** The accuracies that [plot_history] returns *)

Lemma py_last_Ok_iff (l : list Q) (x : Q) :
  Classifier.py_last l = Ok x ↔ ∃ pre, l = pre ++ [x].
Proof.
  unfold Classifier.py_last. split.
  - destruct (last l) as [z|] eqn:Hl; [|done]. intros [= <-].
    by apply last_Some in Hl.
  - intros [pre ->]. by rewrite last_snoc.
Qed.

(** X26: [plot_history] returns normally exactly when the four series have
    one common, non-zero length, and what it returns under the names
    [max_acc_train] and [max_acc_val] are the last entries of the accuracy
    and of the validation accuracy, the values of the final epoch. *)
Theorem plot_history_returns_last (h : Classifier.history) (a v : Q) :
  Classifier.plot_history h = Ok (a, v) ↔
  length (Classifier.val_loss h) = length (Classifier.loss h) ∧
  length (Classifier.accuracy h) = length (Classifier.loss h) ∧
  length (Classifier.val_accuracy h) = length (Classifier.loss h) ∧
  (∃ pre, Classifier.accuracy h = pre ++ [a]) ∧
  (∃ pre, Classifier.val_accuracy h = pre ++ [v]).
Proof.
  unfold Classifier.plot_history, Classifier.ax_plot. cbv zeta.
  pose proof (length_seq (length (Classifier.loss h)) 1) as He.
  set (epochs := seq 1 (length (Classifier.loss h))) in *.
  rewrite <- !py_last_Ok_iff.
  destruct (decide (length epochs = length (Classifier.loss h))) as [_|H0];
    [|exfalso; lia].
  destruct (decide (length epochs = length (Classifier.val_loss h))) as [H1|H1];
    [|split; [done|intros (? & _); exfalso; lia]].
  destruct (decide (length epochs = length (Classifier.accuracy h))) as [H2|H2];
    [|split; [done|intros (_ & ? & _); exfalso; lia]].
  destruct (decide (length epochs = length (Classifier.val_accuracy h))) as [H3|H3];
    [|split; [done|intros (_ & _ & ? & _); exfalso; lia]].
  simpl.
  destruct (Classifier.py_last (Classifier.accuracy h)) as [a'|];
    [|split; [done|by intros (_ & _ & _ & ? & _)]].
  destruct (Classifier.py_last (Classifier.val_accuracy h)) as [v'|];
    [|split; [done|by intros (_ & _ & _ & _ & ?)]].
  simpl. split.
  - intros [= <- <-]. repeat split; lia || done.
  - intros (_ & _ & _ & [= <-] & [= <-]). done.
Qed.

Example plot_history_ex :
  Classifier.plot_history
    (Classifier.mk_history [1%Q; (1 # 2)%Q; (3 # 4)%Q] [1%Q; (2 # 3)%Q; (4 # 5)%Q]
       [(1 # 2)%Q; (9 # 10)%Q; (7 # 10)%Q] [(1 # 2)%Q; (8 # 10)%Q; (6 # 10)%Q])
  = Ok ((7 # 10)%Q, (6 # 10)%Q) ∧
  Classifier.plot_history (Classifier.mk_history [] [] [] []) = Raise IndexError ∧
  Classifier.plot_history (Classifier.mk_history [1%Q] [] [1%Q] [1%Q])
  = Raise ValueError.
Proof. repeat split; reflexivity. Qed.
